(** * Order synchronisation pipeline of the See Before Buy backend

    A shallow embedding of the order-sync core:
    - [src/services/shopify-api.js]  (ShopifyAPIService: paginated fetch,
      retry, marker filter, session extraction),
    - [src/models/dynamodb-shop.js]  (ShopModel: checkpoint reads and writes),
    - the order model (OrderModel: conditional insert),
    - [src/routes/sync-orders.js]    (the sync orchestrator),
    followed by the properties of the specification that concern them.

    Asynchronous code is embedded in a state-and-exception monad over a
    [World] (the two DynamoDB tables, counters of the calls made to the
    outside, and a log of the HTTP requests and sleeps).  Everything the
    outside decides (HTTP responses, storage failures, the clock, number and
    date parsing) is read from an environment [Env].

    Conventions of the embedding:
    - one request is run at a time: a run is a function from the world
      before it to the world after it (the interleaving of two requests is
      not modelled);
    - a storage call that fails has written nothing;
    - counters are in [Z]; an amount, a finite number, is the rational it
      stands for, in [Q]; what [parseFloat] reads and how the engine rounds
      the sum of two amounts are the environment's; [NaN] is the [None] of
      an unparseable amount or date;
    - [console.log] is left out. *)

From Stdlib Require Import ZArith QArith String List Bool Lia Ascii.
From stdpp Require Import base option list gmap strings pretty.

Local Open Scope string_scope.
Local Open Scope Z_scope.

(** ** JavaScript values *)

(** A property of a JavaScript object: missing ([undefined]), [null], or a
    value. *)
Inductive field (A : Type) : Type :=
| Absent
| Null
| Val (a : A).
Arguments Absent {A}.
Arguments Null {A}.
Arguments Val {A} a.

(** JavaScript truthiness of the value types that occur. *)
Class Truthy (A : Type) := truthy : A -> bool.

#[global] Instance truthy_string : Truthy string :=
  fun s => match s with EmptyString => false | String _ _ => true end.
#[global] Instance truthy_Z : Truthy Z := fun z => negb (z =? 0).
#[global] Instance truthy_bool : Truthy bool := fun b => b.

#[global] Instance truthy_field {A} `{Truthy A} : Truthy (field A) :=
  fun x => match x with Val a => truthy a | _ => false end.

(** [x || d] *)
Definition js_or {A} `{Truthy A} (x d : A) : A := if truthy x then x else d.

(** [x || 0] read as a number. *)
Definition num_or_zero (x : field Z) : Z :=
  match x with Val z => z | _ => 0 end.

(** [o?.f] on an object that may be missing. *)
Definition opt_get {O A} (f : O -> field A) (o : option O) : field A :=
  match o with Some x => f x | None => Absent end.

(** A thrown JavaScript error. *)
Record Error := { err_name : string; err_message : string }.

Definition new_Error (msg : string) : Error :=
  {| err_name := "Error"; err_message := msg |}.
Definition new_TypeError (msg : string) : Error :=
  {| err_name := "TypeError"; err_message := msg |}.

(** [s.includes(needle)] *)
Fixpoint includes (needle s : string) : bool :=
  String.prefix needle s ||
  match s with
  | EmptyString => false
  | String _ s' => includes needle s'
  end.

(** [s.split('/').pop()]: the segment after the last slash. *)
Fixpoint split_pop_from (acc s : string) : string :=
  match s with
  | EmptyString => acc
  | String c s' =>
      if Ascii.eqb c "/"%char then split_pop_from "" s'
      else split_pop_from (acc +:+ String c "") s'
  end.
Definition split_pop (s : string) : string := split_pop_from "" s.

(** [Array.prototype.sort(cmp)] for a comparator that is a consistent
    ordering of the elements.  The sort is stable, and every stable sort
    then returns the same array, here computed by insertion.
    [cmp a b > 0] puts [b] before [a].  Under a comparator that is not
    consistent the order is the engine's; see [arrange]. *)
Section ArraySort.
Context {A : Type} (cmp : A -> A -> Z).

Fixpoint sort_insert (x : A) (l : list A) : list A :=
  match l with
  | [] => [x]
  | y :: l' => if 0 <? cmp x y then y :: sort_insert x l' else x :: l
  end.

Definition Array_sort (l : list A) : list A := foldr sort_insert [] l.
End ArraySort.

(** An arrangement of [l] that the engine chooses: its elements by
    ascending rank, elements of equal rank in the order they have in [l];
    an element without a rank has rank 0. *)
Definition arrange {A} (ranks : list Z) (l : list A) : list A :=
  (Array_sort (fun x y => fst x - fst y)
     (zip (ranks ++ replicate (length l) 0) l)).*2.

(** [[...new Set(l)]]: duplicates removed, first occurrences kept in order. *)
Fixpoint Set_spread {A} `{EqDecision A} (seen l : list A) : list A :=
  match l with
  | [] => []
  | x :: l' =>
      if decide (x ∈ seen) then Set_spread seen l'
      else x :: Set_spread (x :: seen) l'
  end.

(** ** Data model *)

(** The value of a custom attribute as it reaches the filter. *)
Inductive attr_value :=
| ANull
| AStr (s : string)
| ABool (b : bool)
| ANum (z : Z).

#[global] Instance attr_value_eq_dec : EqDecision attr_value.
Proof. solve_decision. Defined.

#[global] Instance truthy_attr_value : Truthy attr_value :=
  fun v => match v with
           | ANull => false
           | AStr s => truthy s
           | ABool b => b
           | ANum z => truthy z
           end.

(** *** GraphQL response of the order source *)

Record CustomAttribute := { key : string; value : attr_value }.

Record LineItemNode := {
  lin_id : string;
  lin_title : string;
  lin_quantity : Z;
  lin_amount : string;              (* originalUnitPriceSet.shopMoney.amount *)
  lin_product : option string;      (* product?.id *)
  lin_variant : option string;      (* variant?.id *)
  customAttributes : list CustomAttribute }.

Record OrderNode := {
  node_id : string;
  node_name : string;
  createdAt : string;
  amount : string;                  (* totalPriceSet.shopMoney.amount *)
  currencyCode : string;
  lineItems : list LineItemNode }.  (* lineItems.edges[].node *)

Record OrderEdge := { edge_cursor : string; node : OrderNode }.

Record OrdersData := {
  edges : list OrderEdge;
  pageInfo_hasNextPage : bool }.      (* pageInfo.hasNextPage *)

(** A parsed response body: [errors] holds the JSON text of the errors list
    when the body carries a truthy one; [data_orders] is [data?.orders]. *)
Record GraphQLResponse := {
  errors : option string;
  data_orders : option OrdersData }.

(** *** Normalised orders (the REST-like shape the filter works on) *)

Record Property := { name : string; prop_value : attr_value }.

Record LineItem := {
  li_id : string;
  title : string;
  quantity : Z;
  price : string;
  product_id : field string;
  variant_id : field string;
  properties : option (list Property) }.

Record Order := {
  id : string;
  order_name : string;
  order_number : string;
  created_at : string;
  total_price : string;
  currency : string;
  line_items : option (list LineItem) }.

(** *** Stored orders *)

Record StoredLineItem := {
  sli_product_id : field string;
  sli_variant_id : field string;
  sli_title : string;
  sli_quantity : Z;
  sli_price : string }.

(** The argument of [OrderModel.create]. *)
Record OrderData := {
  od_order_id : string;
  od_shop_domain : string;
  od_order_number : string;
  od_total_price : Q;
  od_currency : field string;
  od_customer_email : field string;
  od_line_items : field (list StoredLineItem);
  od_has_sbb_items : field bool;
  od_sbb_session_ids : field (list attr_value);
  od_created_at : field string }.

Record StoredOrder := {
  order_id : string;
  so_shop_domain : string;
  so_order_number : string;
  so_total_price : Q;
  so_currency : string;
  so_customer_email : field string;
  so_line_items : list StoredLineItem;
  has_sbb_items : bool;
  sbb_session_ids : list attr_value;
  so_created_at : string;
  synced_at : string }.

(** *** Shops and the sync checkpoint *)

Record OrderSync := {
  is_syncing : field bool;
  last_sync_time : field string;
  last_synced_order_id : field string;
  last_synced_order_number : field string;
  last_synced_order_created_at : field string;
  total_orders_synced : field Z;
  last_sync_count : field Z }.

(** [{}] *)
Definition empty_object : OrderSync :=
  {| is_syncing := Absent; last_sync_time := Absent;
     last_synced_order_id := Absent; last_synced_order_number := Absent;
     last_synced_order_created_at := Absent; total_orders_synced := Absent;
     last_sync_count := Absent |}.

(** A shop item: the attributes the sync touches, and the others. *)
Record Shop := {
  shop_created_at : field string;
  order_sync : option OrderSync;
  updated_at : field string;
  other_attributes : list (string * string) }.

(** ** The outside world *)

Record Session := { shop : string; accessToken : string }.

(** The three holes of the query template of [buildOrdersQuery]. *)
Record OrdersQuery := {
  first : nat;
  after : option string;
  query_created_at_min : option string }.

(** What one [fetch] of the GraphQL endpoint comes to. *)
Inductive HttpOutcome :=
| Rejected (e : Error)
    (* fetch(), res.text() or res.json() throws *)
| NotOk (status : nat) (statusText errorText : string)
    (* a response with !res.ok *)
| Json (body : GraphQLResponse).
    (* res.ok and the body parses *)

Record Env := {
  parseFloat : string -> option Q;
    (* None: no finite number, that is NaN (or an infinity) *)
  number_add : Q -> Q -> Q;
    (* a + b as the engine rounds it, for two amounts whose sum is finite *)
  Date_getTime : string -> option Z;     (* None: Invalid Date *)
  sort_ranks : list Order -> list Z;
    (* how the engine's sort leaves an array of orders whose comparator is
       not a consistent ordering *)
  fetch : nat -> Session -> OrdersQuery -> HttpOutcome;
  db_fault : nat -> option Error;        (* failure of the n-th storage call *)
  clock : nat -> string }.               (* the n-th reading of the clock *)

Inductive Event :=
| EvHttp (s : Session) (q : OrdersQuery)
| EvSleep (ms : Z).

Record World := {
  shops : gmap string Shop;
  orders : gmap string StoredOrder;
  n_http : nat;
  n_db : nat;
  n_clock : nat;
  log : list Event }.                    (* newest first *)

(** ** The monad of the embedding *)

Inductive Result (A : Type) : Type :=
| Ok (a : A)
| Throw (e : Error).
Arguments Ok {A} a.
Arguments Throw {A} e.

Definition M (A : Type) : Type := Env -> World -> Result A * World.

Definition ret {A} (a : A) : M A := fun _ w => (Ok a, w).
Definition throw {A} (e : Error) : M A := fun _ w => (Throw e, w).

Definition bind {A B} (m : M A) (k : A -> M B) : M B :=
  fun env w =>
    match m env w with
    | (Ok a, w') => k a env w'
    | (Throw e, w') => (Throw e, w')
    end.

(** [try { m } catch (error) { h error }] *)
Definition try_catch {A} (m : M A) (h : Error -> M A) : M A :=
  fun env w =>
    match m env w with
    | (Ok a, w') => (Ok a, w')
    | (Throw e, w') => h e env w'
    end.

Declare Scope M_scope.
Delimit Scope M_scope with M.
Notation "x <- c ;; k" := (bind c (fun x => k))
  (at level 100, c at next level, right associativity) : M_scope.
Notation "c ;;; k" := (bind c (fun _ => k))
  (at level 100, right associativity) : M_scope.
Local Open Scope M_scope.

Definition ask {A} (f : Env -> A) : M A := fun env w => (Ok (f env), w).

(** [sleep(ms)] *)
Definition sleep (ms : Z) : M unit :=
  fun _ w =>
    (Ok tt, {| shops := shops w; orders := orders w; n_http := n_http w;
               n_db := n_db w; n_clock := n_clock w;
               log := EvSleep ms :: log w |}).

(** [new Date().toISOString()] *)
Definition now : M string :=
  fun env w =>
    (Ok (clock env (n_clock w)),
     {| shops := shops w; orders := orders w; n_http := n_http w;
        n_db := n_db w; n_clock := S (n_clock w); log := log w |}).

(** One [fetch] of the endpoint with the query in its body. *)
Definition http_post (s : Session) (q : OrdersQuery) : M HttpOutcome :=
  fun env w =>
    (Ok (fetch env (n_http w) s q),
     {| shops := shops w; orders := orders w; n_http := S (n_http w);
        n_db := n_db w; n_clock := n_clock w;
        log := EvHttp s q :: log w |}).

(** Bookkeeping of one storage call ([docClient.send]). *)
Definition db_tick (w : World) : World :=
  {| shops := shops w; orders := orders w; n_http := n_http w;
     n_db := S (n_db w); n_clock := n_clock w; log := log w |}.

Definition set_shops (m : gmap string Shop) (w : World) : World :=
  {| shops := m; orders := orders w; n_http := n_http w;
     n_db := n_db w; n_clock := n_clock w; log := log w |}.

Definition set_orders (m : gmap string StoredOrder) (w : World) : World :=
  {| shops := shops w; orders := m; n_http := n_http w;
     n_db := n_db w; n_clock := n_clock w; log := log w |}.

(** ** ShopifyAPIService ([src/services/shopify-api.js]) *)

Module ShopifyAPIService.

(** The [options] argument of [fetchOrders]; a missing property takes its
    default ([limit = 250], [created_at_min = null], [max_pages = 10]). *)
Record FetchOptions := {
  opt_limit : option nat;
  opt_created_at_min : field string;
  opt_max_pages : option nat }.

Definition buildOrdersQuery (limit : nat) (cursor : option string)
    (createdAtMin : field string) : OrdersQuery :=
  {| first := limit;
     after := match cursor with
              | Some c => if truthy c then Some c else None
              | None => None
              end;
     query_created_at_min :=
       match createdAtMin with
       | Val d => if truthy d then Some d else None
       | _ => None
       end |}.

Definition transformGraphQLOrder (node : OrderNode) : Order :=
  {| id := split_pop (node_id node);
     order_name := node_name node;
     order_number := node_name node;
     created_at := createdAt node;
     total_price := amount node;
     currency := currencyCode node;
     line_items := Some (map (fun n =>
       {| li_id := split_pop (lin_id n);
          title := lin_title n;
          quantity := lin_quantity n;
          price := lin_amount n;
          product_id :=
            js_or (match lin_product n with
                   | Some i => Val (split_pop i) | None => Absent end) Null;
          variant_id :=
            js_or (match lin_variant n with
                   | Some i => Val (split_pop i) | None => Absent end) Null;
          properties := Some (map (fun attr =>
            {| name := key attr; prop_value := value attr |})
            (customAttributes n)) |}) (lineItems node)) |}.

(** The loop [for (attempt = 1; attempt <= maxRetries; attempt++)], by the
    number [left] of attempts still allowed:
    [attempt = maxRetries + 1 - left].  Falling out of the loop returns
    [undefined] ([None]). *)
Fixpoint fetchWithRetry_from {A} (fetchFunction : M A) (maxRetries left : nat)
    : M (option A) :=
  match left with
  | O => ret None
  | S left' =>
      let attempt := (maxRetries - left')%nat in
      try_catch (r <- fetchFunction ;; ret (Some r))
        (fun error =>
           if includes "429" (err_message error) then
             let retryAfter := 2 in
             if (attempt <? maxRetries)%nat then
               sleep (retryAfter * 1000) ;;;
               fetchWithRetry_from fetchFunction maxRetries left'
             else throw error
           else throw error)
  end.

Definition fetchWithRetry {A} (fetchFunction : M A) (maxRetries : nat)
    : M (option A) :=
  fetchWithRetry_from fetchFunction maxRetries maxRetries.

(** The function handed to [fetchWithRetry] by [fetchOrders]. *)
Definition fetchFunction (session : Session) (query : OrdersQuery)
    : M GraphQLResponse :=
  res <- http_post session query ;;
  match res with
  | Rejected e => throw e
  | NotOk status statusText errorText =>
      throw (new_Error ("Shopify GraphQL error: " +:+ pretty status +:+ " "
                          +:+ statusText +:+ " - " +:+ errorText))
  | Json body => ret body
  end.

(** The body of [while (hasNextPage && page <= max_pages)], iterated
    under [fuel]; [None] reports that the fuel ran out with the loop
    condition still true. *)
Fixpoint fetchOrders_loop (fuel : nat) (session : Session)
    (limit max_pages : nat) (created_at_min : field string)
    (allOrders : list Order) (page : nat) (hasNextPage : bool)
    (cursor : option string) : M (option (list Order)) :=
  if hasNextPage && (page <=? max_pages)%nat then
    match fuel with
    | O => ret None
    | S fuel' =>
        let query := buildOrdersQuery limit cursor created_at_min in
        response <- fetchWithRetry (fetchFunction session query) 3 ;;
        match response with
        | None =>
            throw (new_TypeError
                     "Cannot read properties of undefined (reading 'errors')")
        | Some response =>
            match errors response with
            | Some errs => throw (new_Error ("GraphQL errors: " +:+ errs))
            | None =>
                match data_orders response with
                | None => throw (new_Error "No orders data in response")
                | Some ordersData =>
                    let orders :=
                      map (fun edge => transformGraphQLOrder (node edge))
                          (edges ordersData) in
                    let allOrders := (allOrders ++ orders)%list in
                    let hasNextPage := pageInfo_hasNextPage ordersData in
                    let cursor :=
                      if hasNextPage
                         && (0 <? length (edges ordersData))%nat
                      then edge_cursor <$> last (edges ordersData)
                      else cursor in
                    let page := S page in
                    (if hasNextPage then sleep 500 else ret tt) ;;;
                    fetchOrders_loop fuel' session limit max_pages
                      created_at_min allOrders page hasNextPage cursor
                end
            end
        end
    end
  else ret (Some allOrders).

Definition default {A} (d : A) (o : option A) : A :=
  match o with Some a => a | None => d end.

(** [fetchOrders(session, options)].  The loop is run with [max_pages]
    units of fuel, which it never exhausts (lemma [fetchOrders_loop_fuel]
    below), so the last branch is never taken. *)
Definition fetchOrders (session : Session) (options : FetchOptions)
    : M (list Order) :=
  let limit := default 250%nat (opt_limit options) in
  let created_at_min :=
    match opt_created_at_min options with Absent => Null | d => d end in
  let max_pages := default 10%nat (opt_max_pages options) in
  try_catch
    (r <- fetchOrders_loop max_pages session limit max_pages
            created_at_min [] 1%nat true None ;;
     match r with
     | Some allOrders => ret allOrders
     | None => throw (new_Error "unreachable")
     end)
    (fun error => throw error).

(** [list?.some(f)] *)
Definition optional_some {A} (f : A -> bool) (l : option (list A)) : bool :=
  match l with Some l => existsb f l | None => false end.

Definition is_try_on (prop : Property) : bool :=
  String.eqb (name prop) "_sbb_try_on"
  && bool_decide (prop_value prop = AStr "true").

Definition has_sbb_item (order : Order) : bool :=
  optional_some (fun item => optional_some is_try_on (properties item))
                (line_items order).

Definition filterSBBOrders (orders : list Order) : list Order :=
  List.filter has_sbb_item orders.

(** [list?.forEach(...)] visits the elements of [list], none if missing. *)
Definition optional_list {A} (l : option (list A)) : list A :=
  match l with Some l => l | None => [] end.

Definition is_session_id (prop : Property) : bool :=
  String.eqb (name prop) "_sbb_session_id" && truthy (prop_value prop).

Definition extractSessionIds (order : Order) : list attr_value :=
  let sessionIds :=
    flat_map (fun item =>
      flat_map (fun prop =>
                  if is_session_id prop then [prop_value prop] else [])
               (optional_list (properties item)))
      (optional_list (line_items order)) in
  Set_spread [] sessionIds.

End ShopifyAPIService.

(** ** ShopModel ([src/models/dynamodb-shop.js]) *)

Module ShopModel.

(** [docClient.send(new GetCommand({TableName: TABLES.SHOPS, Key}))],
    giving [result.Item]. *)
Definition send_GetCommand (shop_domain : string) : M (option Shop) :=
  fun env w =>
    match db_fault env (n_db w) with
    | Some e => (Throw e, db_tick w)
    | None => (Ok (shops w !! shop_domain), db_tick w)
    end.

(** [docClient.send(new UpdateCommand(...))] with the update expression
    [SET order_sync = :sync_data, updated_at = :now] and
    [ReturnValues: 'ALL_NEW'].  An update of a key that has no item
    creates the item. *)
Definition send_UpdateCommand (shop_domain : string) (sync_data : OrderSync)
    (now : string) : M Shop :=
  fun env w =>
    match db_fault env (n_db w) with
    | Some e => (Throw e, db_tick w)
    | None =>
        let item :=
          match shops w !! shop_domain with
          | Some s =>
              {| shop_created_at := shop_created_at s;
                 order_sync := Some sync_data;
                 updated_at := Val now;
                 other_attributes := other_attributes s |}
          | None =>
              {| shop_created_at := Absent;
                 order_sync := Some sync_data;
                 updated_at := Val now;
                 other_attributes := [] |}
          end in
        (Ok item, db_tick (set_shops (<[shop_domain := item]> (shops w)) w))
    end.

Definition findOne (shop_domain : string) : M (option Shop) :=
  try_catch
    (result <- send_GetCommand shop_domain ;; ret result)
    (fun error => throw error).

Definition updateOrderSync (shop_domain : string) (syncData : OrderSync)
    : M Shop :=
  try_catch
    (t <- now ;;
     result <- send_UpdateCommand shop_domain syncData t ;;
     ret result)
    (fun error => throw error).

Definition setSyncingFlag (shop_domain : string) (is_syncing_ : bool)
    : M Shop :=
  try_catch
    (shop <- findOne shop_domain ;;
     match shop with
     | None => throw (new_Error "Shop not found")
     | Some shop =>
         let orderSync :=
           {| is_syncing := Val is_syncing_;
              last_sync_time :=
                js_or (opt_get last_sync_time (order_sync shop)) Null;
              last_synced_order_id :=
                js_or (opt_get last_synced_order_id (order_sync shop)) Null;
              last_synced_order_number :=
                js_or (opt_get last_synced_order_number (order_sync shop))
                      Null;
              last_synced_order_created_at :=
                js_or (opt_get last_synced_order_created_at
                               (order_sync shop)) Null;
              total_orders_synced :=
                js_or (opt_get total_orders_synced (order_sync shop))
                      (Val 0);
              last_sync_count :=
                js_or (opt_get last_sync_count (order_sync shop)) (Val 0) |}
         in
         t <- now ;;
         result <- send_UpdateCommand shop_domain orderSync t ;;
         ret result
     end)
    (fun error => throw error).

End ShopModel.

(** ** OrderModel (the order model of the orders table) *)

Module OrderModel.

Definition ConditionalCheckFailedException : Error :=
  {| err_name := "ConditionalCheckFailedException";
     err_message := "The conditional request failed" |}.

(** [docClient.send(new PutCommand({TableName: ORDERS_TABLE, Item: order,
    ConditionExpression: 'attribute_not_exists(order_id)'}))] *)
Definition send_PutCommand (order : StoredOrder) : M unit :=
  fun env w =>
    match db_fault env (n_db w) with
    | Some e => (Throw e, db_tick w)
    | None =>
        match orders w !! order_id order with
        | Some _ => (Throw ConditionalCheckFailedException, db_tick w)
        | None =>
            (Ok tt,
             db_tick (set_orders (<[order_id order := order]> (orders w)) w))
        end
    end.

(** [x || []] *)
Definition or_empty {A} (x : field (list A)) : list A :=
  match x with Val l => l | _ => [] end.

(** [OrderModel.create(orderData)]; [None] is the [null] returned for an
    order that already exists.  [od_total_price] is already a number, on
    which [parseFloat] is the identity. *)
Definition create (orderData : OrderData) : M (option StoredOrder) :=
  try_catch
    (created <- (if truthy (od_created_at orderData)
                 then ret (match od_created_at orderData with
                           | Val s => s | _ => "" end)
                 else now) ;;
     synced <- now ;;
     let order :=
       {| order_id := od_order_id orderData;
          so_shop_domain := od_shop_domain orderData;
          so_order_number := od_order_number orderData;
          so_total_price := od_total_price orderData;
          so_currency := match js_or (od_currency orderData) (Val "USD") with
                         | Val s => s | _ => "" end;
          so_customer_email := js_or (od_customer_email orderData) Null;
          so_line_items := or_empty (od_line_items orderData);
          has_sbb_items := match od_has_sbb_items orderData with
                           | Val b => b | _ => false end;
          sbb_session_ids := or_empty (od_sbb_session_ids orderData);
          so_created_at := created;
          synced_at := synced |} in
     send_PutCommand order ;;;
     ret (Some order))
    (fun error =>
       if String.eqb (err_name error) "ConditionalCheckFailedException"
       then ret None
       else throw error).

(** The error with which the document client refuses an item that holds
    [NaN]. *)
Definition NaN_not_allowed : Error :=
  new_Error "Special numeric value NaN is not allowed".

(** [OrderModel.create(orderData)] for a payload whose [total_price] is
    [NaN], where [create] above is the call for a payload whose
    [total_price] is a number.  The record is built, with its readings of
    the clock, and [docClient.send] throws while it marshalls the item,
    before any request to the storage (an infinity is refused alike).  The
    error is not a conditional-check failure, and [create] throws it on.
    Of the payload only [created_at] matters. *)
Definition create_not_a_number (created_at : field string)
    : M (option StoredOrder) :=
  try_catch
    (created <- (if truthy created_at
                 then ret (match created_at with Val s => s | _ => "" end)
                 else now) ;;
     synced <- now ;;
     throw NaN_not_allowed)
    (fun error =>
       if String.eqb (err_name error) "ConditionalCheckFailedException"
       then ret None
       else throw error).

End OrderModel.

(** ** The sync orchestrator ([src/routes/sync-orders.js]) *)

Module SyncOrders.
Import ShopifyAPIService.

(** [req.body] *)
Record Body := { shop_domain : option string; session : option Session }.

(** What the route answers. *)
Inductive Response :=
| BadRequest                              (* 400 *)
| ShopNotFound                            (* 404 *)
| AlreadyInProgress                       (* 'Sync already in progress' *)
| NoNewOrders (total_orders : Z) (last_sync_time : string)
| Synced (new_orders duplicates_skipped total_orders : Z)
         (total_revenue : Q) (last_sync_time : string)
| Failed (message : string).              (* 500 *)

Record Counters := {
  newOrdersCount : Z;
  duplicatesSkipped : Z;
  totalRevenue : Q }.

(** [(a, b) => new Date(b.created_at) - new Date(a.created_at)]; a [NaN]
    is taken by the sort as [+0]. *)
Definition compare_created_at (env : Env) (a b : Order) : Z :=
  match Date_getTime env (created_at b), Date_getTime env (created_at a) with
  | Some tb, Some ta => tb - ta
  | _, _ => 0
  end.

(** The body of [for (const order of sbbOrders)]. *)
Definition store_order (shop_domain : string) (order : Order) (c : Counters)
    : M Counters :=
  try_catch
    (let sessionIds := extractSessionIds order in
     total <- ask (fun env =>
                if truthy (total_price order)
                then parseFloat env (total_price order) else Some 0%Q) ;;
     items <- match line_items order with
              | Some items => ret items
              | None => throw (new_TypeError
                  "Cannot read properties of undefined (reading 'map')")
              end ;;
     created <-
       match total with
       | Some total =>
           OrderModel.create
             {| od_order_id := id order;
                od_shop_domain := shop_domain;
                od_order_number :=
                  js_or (order_number order) (order_name order);
                od_total_price := total;
                od_currency := Val (currency order);
                od_customer_email := Absent;
                od_line_items := Val (map (fun item =>
                  {| sli_product_id := product_id item;
                     sli_variant_id := variant_id item;
                     sli_title := title item;
                     sli_quantity := quantity item;
                     sli_price := price item |}) items);
                od_has_sbb_items := Val true;
                od_sbb_session_ids := Val sessionIds;
                od_created_at := Val (created_at order) |}
       | None => OrderModel.create_not_a_number (Val (created_at order))
       end ;;
     match created with
     | Some created =>
         revenue <- ask (fun env =>
                      number_add env (totalRevenue c)
                                 (so_total_price created)) ;;
         ret {| newOrdersCount := newOrdersCount c + 1;
                duplicatesSkipped := duplicatesSkipped c;
                totalRevenue := revenue |}
     | None =>
         ret {| newOrdersCount := newOrdersCount c;
                duplicatesSkipped := duplicatesSkipped c + 1;
                totalRevenue := totalRevenue c |}
     end)
    (fun error => ret c).

Fixpoint store_orders (shop_domain : string) (sbbOrders : list Order)
    (c : Counters) : M Counters :=
  match sbbOrders with
  | [] => ret c
  | order :: rest =>
      c' <- store_order shop_domain order c ;;
      store_orders shop_domain rest c'
  end.

(** [sbbOrders.sort((a, b) => new Date(b.created_at) - new Date(a.created_at))].
    When every [created_at] parses, the comparator is a consistent ordering
    and the sort returns the array that [Array_sort] computes.  When one
    does not parse the comparator answers [NaN] for it and is in general
    not consistent: the result still holds the same orders, in an order
    that is the engine's. *)
Definition sort_newest_first (env : Env) (sbbOrders : list Order)
    : list Order :=
  if forallb (fun order =>
                bool_decide (is_Some (Date_getTime env (created_at order))))
             sbbOrders
  then Array_sort (compare_created_at env) sbbOrders
  else arrange (sort_ranks env sbbOrders) sbbOrders.

(** [isFirstSync ? shop.created_at : lastSyncTime] *)
Definition syncStartDate (shop : Shop) : field string :=
  let lastSyncTime :=
    opt_get last_synced_order_created_at (order_sync shop) in
  let isFirstSync := negb (truthy lastSyncTime) in
  if isFirstSync then shop_created_at shop else lastSyncTime.

(** The inner [try] block of the route. *)
Definition sync_attempt (shop_domain : string) (session : Session)
    (shop : Shop) : M Response :=
  let fetchOptions :=
    {| opt_limit := Some 250%nat;
       opt_created_at_min := syncStartDate shop;
       opt_max_pages := None |} in
  allOrders <- fetchOrders session fetchOptions ;;
  let sbbOrders := filterSBBOrders allOrders in
  if (length sbbOrders =? 0)%nat then
    t <- now ;;
    let old := default empty_object (order_sync shop) in
    let syncData :=
      {| is_syncing := Val false;
         last_sync_time := Val t;
         last_synced_order_id := last_synced_order_id old;
         last_synced_order_number := last_synced_order_number old;
         last_synced_order_created_at := last_synced_order_created_at old;
         total_orders_synced := total_orders_synced old;
         last_sync_count := last_sync_count old |} in
    ShopModel.updateOrderSync shop_domain syncData ;;;
    ret (NoNewOrders
           (num_or_zero (opt_get total_orders_synced (order_sync shop))) t)
  else
    sbbOrders <- ask (fun env => sort_newest_first env sbbOrders) ;;
    c <- store_orders shop_domain sbbOrders
           {| newOrdersCount := 0; duplicatesSkipped := 0;
              totalRevenue := 0%Q |} ;;
    match sbbOrders with
    | [] => throw (new_TypeError
              "Cannot read properties of undefined (reading 'id')")
    | latestOrder :: _ =>
        let currentTotal :=
          num_or_zero (opt_get total_orders_synced (order_sync shop))
          + newOrdersCount c in
        t <- now ;;
        let syncData :=
          {| is_syncing := Val false;
             last_sync_time := Val t;
             last_synced_order_id := Val (id latestOrder);
             last_synced_order_number :=
               Val (js_or (order_number latestOrder)
                          (order_name latestOrder));
             last_synced_order_created_at := Val (created_at latestOrder);
             total_orders_synced := Val currentTotal;
             last_sync_count := Val (newOrdersCount c) |} in
        ShopModel.updateOrderSync shop_domain syncData ;;;
        ret (Synced (newOrdersCount c) (duplicatesSkipped c) currentTotal
                    (totalRevenue c) t)
    end.

(** [router.post('/', ...)] *)
Definition sync_orders (body : Body) : M Response :=
  try_catch
    (match shop_domain body, session body with
     | Some shop_domain, Some session =>
         if truthy shop_domain then
           shop <- ShopModel.findOne shop_domain ;;
           match shop with
           | None => ret ShopNotFound
           | Some shop =>
               if truthy (opt_get is_syncing (order_sync shop))
               then ret AlreadyInProgress
               else
                 ShopModel.setSyncingFlag shop_domain true ;;;
                 try_catch (sync_attempt shop_domain session shop)
                   (fun error =>
                      ShopModel.setSyncingFlag shop_domain false ;;;
                      throw error)
           end
         else ret BadRequest
     | _, _ => ret BadRequest
     end)
    (fun error => ret (Failed (err_message error))).

End SyncOrders.

(** ** Vocabulary of the properties *)

(** [m] relates the world it starts in to the world it ends in by [R],
    whether it returns or throws. *)
Definition preserves (R : World -> World -> Prop) {A} (m : M A) : Prop :=
  forall env w r w', m env w = (r, w') -> R w w'.

(** The relations that the lemmas on frames preserve.  [only_network]: only
    the network was used, the tables and the storage and clock counters are
    as before. *)
Definition only_network (w w' : World) : Prop :=
  shops w' = shops w /\ orders w' = orders w
  /\ n_db w' = n_db w /\ n_clock w' = n_clock w.

Definition keeps_shops (w w' : World) : Prop := shops w' = shops w.
Definition keeps_orders (w w' : World) : Prop := orders w' = orders w.
Definition keeps_log (w w' : World) : Prop :=
  log w' = log w /\ n_http w' = n_http w.

(** What [fetchFunction] makes of the outcome of its [fetch]. *)
Definition outcome_result (o : HttpOutcome) : Result GraphQLResponse :=
  match o with
  | Rejected e => Throw e
  | NotOk status statusText errorText =>
      Throw (new_Error ("Shopify GraphQL error: " +:+ pretty status +:+ " "
                          +:+ statusText +:+ " - " +:+ errorText))
  | Json body => Ok body
  end.

(** The rate-limit test of [fetchWithRetry]. *)
Definition rate_limited (e : Error) : bool := includes "429" (err_message e).

Definition is_http (ev : Event) : bool :=
  match ev with EvHttp _ _ => true | EvSleep _ => false end.

(** The world once the fetcher has added the events [evs] (newest first) to
    the log. *)
Definition after_events (evs : list Event) (w : World) : World :=
  {| shops := shops w; orders := orders w;
     n_http := (length (List.filter is_http evs) + n_http w)%nat;
     n_db := n_db w; n_clock := n_clock w;
     log := (evs ++ log w)%list |}.

(** The source never answers with a rate-limit failure. *)
Definition never_rate_limited (env : Env) : Prop :=
  forall n s q e,
    outcome_result (fetch env n s q) = Throw e -> rate_limited e = false.

(** The source honours [first: limit]: no page has more than [limit]
    orders. *)
Definition pages_within (limit : nat) (env : Env) : Prop :=
  forall n s q body ordersData,
    fetch env n s q = Json body -> data_orders body = Some ordersData ->
    (length (edges ordersData) <= limit)%nat.

(** A progress field after [stored || d]: the stored value when it is
    truthy, the default [d] when it is missing, [null] or falsy. *)
Definition carried_over {A} `{Truthy A} (d stored written : field A) : Prop :=
  match stored with
  | Val v => if truthy v then written = Val v else written = d
  | Absent | Null => written = d
  end.

(** The checkpoint of a shop in storage. *)
Definition checkpoint (w : World) (shop_domain : string) : option OrderSync :=
  shops w !! shop_domain ≫= order_sync.

(** [is_syncing] of the stored checkpoint, as the guard of the route reads
    it. *)
Definition syncing (w : World) (shop_domain : string) : bool :=
  truthy (opt_get is_syncing (checkpoint w shop_domain)).

(** The seven properties of a checkpoint are all present. *)
Definition has_all_seven_fields (os : OrderSync) : Prop :=
  is_syncing os ≠ Absent /\ last_sync_time os ≠ Absent
  /\ last_synced_order_id os ≠ Absent /\ last_synced_order_number os ≠ Absent
  /\ last_synced_order_created_at os ≠ Absent
  /\ total_orders_synced os ≠ Absent /\ last_sync_count os ≠ Absent.

(** The log grew by events that all satisfy [P]. *)
Definition log_extends (P : Event -> Prop) (w w' : World) : Prop :=
  exists evs, log w' = (evs ++ log w)%list /\ Forall P evs.

(** A request of session [s] for pages of [limit] orders created at or
    after [bound]; a sleep. *)
Definition asks_from (s : Session) (limit : nat) (bound : option string)
    (ev : Event) : Prop :=
  match ev with
  | EvHttp s' q => s' = s /\ first q = limit /\ query_created_at_min q = bound
  | EvSleep _ => True
  end.

(** The creation-time filter that [buildOrdersQuery] writes for a given
    [created_at_min]. *)
Definition floor_of (created_at_min : field string) : option string :=
  query_created_at_min
    (ShopifyAPIService.buildOrdersQuery 0 None created_at_min).

(** [req.body] carries a truthy shop domain and a session. *)
Definition validated (body : SyncOrders.Body) : option (string * Session) :=
  match SyncOrders.shop_domain body, SyncOrders.session body with
  | Some d, Some s => if truthy d then Some (d, s) else None
  | _, _ => None
  end.

(** The options with which the route calls the fetcher. *)
Definition fetchOptions_of (shop : Shop) : ShopifyAPIService.FetchOptions :=
  {| ShopifyAPIService.opt_limit := Some 250%nat;
     ShopifyAPIService.opt_created_at_min := SyncOrders.syncStartDate shop;
     ShopifyAPIService.opt_max_pages := None |}.

Definition no_counts : SyncOrders.Counters :=
  {| SyncOrders.newOrdersCount := 0; SyncOrders.duplicatesSkipped := 0;
     SyncOrders.totalRevenue := 0%Q |}.

(** The checkpoint written when no order is marker-tagged. *)
Definition syncData_no_new (shop : Shop) (t : string) : OrderSync :=
  let old := ShopifyAPIService.default empty_object (order_sync shop) in
  {| is_syncing := Val false;
     last_sync_time := Val t;
     last_synced_order_id := last_synced_order_id old;
     last_synced_order_number := last_synced_order_number old;
     last_synced_order_created_at := last_synced_order_created_at old;
     total_orders_synced := total_orders_synced old;
     last_sync_count := last_sync_count old |}.

(** The checkpoint written after the orders were stored. *)
Definition syncData_synced (shop : Shop) (latestOrder : Order)
    (c : SyncOrders.Counters) (t : string) : OrderSync :=
  {| is_syncing := Val false;
     last_sync_time := Val t;
     last_synced_order_id := Val (id latestOrder);
     last_synced_order_number :=
       Val (js_or (order_number latestOrder) (order_name latestOrder));
     last_synced_order_created_at := Val (created_at latestOrder);
     total_orders_synced :=
       Val (num_or_zero (opt_get total_orders_synced (order_sync shop))
            + SyncOrders.newOrdersCount c);
     last_sync_count := Val (SyncOrders.newOrdersCount c) |}.

(** The ways the inner [try] block of the route ends. *)
Inductive Attempt (env : Env) (shop_domain : string) (session : Session)
    (shop : Shop) (w : World) : Result SyncOrders.Response -> World -> Prop :=
| AttemptFetchFailed e w1 :
    ShopifyAPIService.fetchOrders session (fetchOptions_of shop) env w
      = (Throw e, w1) ->
    Attempt env shop_domain session shop w (Throw e) w1
| AttemptNoNewOrders allOrders w1 t w2 r w3 :
    ShopifyAPIService.fetchOrders session (fetchOptions_of shop) env w
      = (Ok allOrders, w1) ->
    ShopifyAPIService.filterSBBOrders allOrders = [] ->
    now env w1 = (Ok t, w2) ->
    ShopModel.updateOrderSync shop_domain (syncData_no_new shop t) env w2
      = (r, w3) ->
    Attempt env shop_domain session shop w
      (match r with
       | Ok _ => Ok (SyncOrders.NoNewOrders
                       (num_or_zero
                          (opt_get total_orders_synced (order_sync shop))) t)
       | Throw e => Throw e
       end) w3
| AttemptStored allOrders w1 latestOrder rest c w2 t w3 r w4 :
    ShopifyAPIService.fetchOrders session (fetchOptions_of shop) env w
      = (Ok allOrders, w1) ->
    SyncOrders.sort_newest_first env
      (ShopifyAPIService.filterSBBOrders allOrders)
      = latestOrder :: rest ->
    SyncOrders.store_orders shop_domain (latestOrder :: rest) no_counts env w1
      = (Ok c, w2) ->
    now env w2 = (Ok t, w3) ->
    ShopModel.updateOrderSync shop_domain
      (syncData_synced shop latestOrder c t) env w3 = (r, w4) ->
    Attempt env shop_domain session shop w
      (match r with
       | Ok _ =>
           Ok (SyncOrders.Synced
                 (SyncOrders.newOrdersCount c) (SyncOrders.duplicatesSkipped c)
                 (num_or_zero (opt_get total_orders_synced (order_sync shop))
                  + SyncOrders.newOrdersCount c)
                 (SyncOrders.totalRevenue c) t)
       | Throw e => Throw e
       end) w4.

(** The ways a request to the route ends. *)
Inductive Run (env : Env) (body : SyncOrders.Body) (w : World)
    : SyncOrders.Response -> World -> Prop :=
| RunBadRequest :
    validated body = None ->
    Run env body w SyncOrders.BadRequest w
| RunReadFailed d s e w1 :
    validated body = Some (d, s) ->
    ShopModel.findOne d env w = (Throw e, w1) ->
    Run env body w (SyncOrders.Failed (err_message e)) w1
| RunShopNotFound d s w1 :
    validated body = Some (d, s) ->
    ShopModel.findOne d env w = (Ok None, w1) ->
    Run env body w SyncOrders.ShopNotFound w1
| RunAlreadyInProgress d s shop w1 :
    validated body = Some (d, s) ->
    ShopModel.findOne d env w = (Ok (Some shop), w1) ->
    truthy (opt_get is_syncing (order_sync shop)) = true ->
    Run env body w SyncOrders.AlreadyInProgress w1
| RunFlagNotSet d s shop w1 e w2 :
    validated body = Some (d, s) ->
    ShopModel.findOne d env w = (Ok (Some shop), w1) ->
    truthy (opt_get is_syncing (order_sync shop)) = false ->
    ShopModel.setSyncingFlag d true env w1 = (Throw e, w2) ->
    Run env body w (SyncOrders.Failed (err_message e)) w2
| RunCompleted d s shop w1 item w2 resp w3 :
    validated body = Some (d, s) ->
    ShopModel.findOne d env w = (Ok (Some shop), w1) ->
    truthy (opt_get is_syncing (order_sync shop)) = false ->
    ShopModel.setSyncingFlag d true env w1 = (Ok item, w2) ->
    Attempt env d s shop w2 (Ok resp) w3 ->
    Run env body w resp w3
| RunFailedFlagCleared d s shop w1 item w2 e w3 item' w4 :
    validated body = Some (d, s) ->
    ShopModel.findOne d env w = (Ok (Some shop), w1) ->
    truthy (opt_get is_syncing (order_sync shop)) = false ->
    ShopModel.setSyncingFlag d true env w1 = (Ok item, w2) ->
    Attempt env d s shop w2 (Throw e) w3 ->
    ShopModel.setSyncingFlag d false env w3 = (Ok item', w4) ->
    Run env body w (SyncOrders.Failed (err_message e)) w4
| RunFailedFlagStuck d s shop w1 item w2 e w3 e' w4 :
    validated body = Some (d, s) ->
    ShopModel.findOne d env w = (Ok (Some shop), w1) ->
    truthy (opt_get is_syncing (order_sync shop)) = false ->
    ShopModel.setSyncingFlag d true env w1 = (Ok item, w2) ->
    Attempt env d s shop w2 (Throw e) w3 ->
    ShopModel.setSyncingFlag d false env w3 = (Throw e', w4) ->
    Run env body w (SyncOrders.Failed (err_message e')) w4.

(** The creation time of an order, when its timestamp parses. *)
Definition created_time (env : Env) (o : Order) : option Z :=
  Date_getTime env (created_at o).

(** [total_orders_synced || 0] of the stored checkpoint. *)
Definition total_synced (w : World) (shop_domain : string) : Z :=
  num_or_zero (opt_get total_orders_synced (checkpoint w shop_domain)).

(** The number of new orders a response reports. *)
Definition new_orders_of (resp : SyncOrders.Response) : Z :=
  match resp with
  | SyncOrders.Synced new_orders _ _ _ _ => new_orders
  | _ => 0
  end.

(** The number of records in the orders table. *)
Definition stored_orders (w : World) : Z := Z.of_nat (size (orders w)).

(** ** Concrete environments, for the examples

    [iso8601_utc] reads the timestamps of the order source, ISO 8601 in UTC
    with seconds ([2024-01-15T10:30:00Z]), as milliseconds since the epoch;
    any other text is an Invalid Date. *)

Module Examples.

Definition digit (c : ascii) : option Z :=
  let n := Z.of_nat (nat_of_ascii c) in
  if (48 <=? n) && (n <=? 57) then Some (n - 48) else None.

Fixpoint read_digits (k : nat) (acc : Z) (s : string) : option (Z * string) :=
  match k with
  | O => Some (acc, s)
  | S k' =>
      match s with
      | String c s' =>
          match digit c with
          | Some d => read_digits k' (acc * 10 + d) s'
          | None => None
          end
      | EmptyString => None
      end
  end.

Definition expect (c : ascii) (s : string) : option string :=
  match s with
  | String c' s' => if Ascii.eqb c c' then Some s' else None
  | EmptyString => None
  end.

(** Days between 1970-01-01 and a date of the proleptic Gregorian
    calendar. *)
Definition days_from_civil (y m d : Z) : Z :=
  let y := if m <=? 2 then y - 1 else y in
  let era := y / 400 in
  let yoe := y - era * 400 in
  let mp := (m + 9) mod 12 in
  let doy := (153 * mp + 2) / 5 + d - 1 in
  let doe := yoe * 365 + yoe / 4 - yoe / 100 + doy in
  era * 146097 + doe - 719468.

Definition iso8601_utc (s : string) : option Z :=
  '(y, s) ← read_digits 4 0 s;
  s ← expect "-" s;
  '(mo, s) ← read_digits 2 0 s;
  s ← expect "-" s;
  '(d, s) ← read_digits 2 0 s;
  s ← expect "T" s;
  '(h, s) ← read_digits 2 0 s;
  s ← expect ":" s;
  '(mi, s) ← read_digits 2 0 s;
  s ← expect ":" s;
  '(se, s) ← read_digits 2 0 s;
  s ← expect "Z" s;
  if String.eqb s ""
     && (1 <=? mo) && (mo <=? 12) && (1 <=? d) && (d <=? 31)
     && (h <=? 23) && (mi <=? 59) && (se <=? 59)
  then Some ((((days_from_civil y mo d * 24 + h) * 60 + mi) * 60 + se) * 1000)
  else None.

(** Decimal amounts such as [10.50]: the digits read as an integer, over
    ten to the number of digits after the point. *)
Fixpoint read_decimal (num : Z) (den : positive) (frac : bool) (s : string)
    : Q :=
  match s with
  | EmptyString => Qmake num den
  | String c s' =>
      match digit c with
      | Some d =>
          read_decimal (num * 10 + d) (if frac then den * 10 else den)%positive
                       frac s'
      | None => if Ascii.eqb c "." then read_decimal num den true s'
                else Qmake num den
      end
  end.

(** A text that does not start with a digit is not a number. *)
Definition read_amount (s : string) : option Q :=
  match s with
  | String c _ =>
      match digit c with
      | Some _ => Some (read_decimal 0 1 false s)
      | None => None
      end
  | EmptyString => None
  end.

(** An environment whose source answers the [n]-th request with
    [pages n].  Its amounts are short decimals, which it adds exactly; its
    sort leaves an array that it cannot order as it is. *)
Definition env_of (pages : nat -> HttpOutcome) (faults : nat -> option Error)
    : Env :=
  {| parseFloat := read_amount;
     number_add := Qplus;
     Date_getTime := iso8601_utc;
     sort_ranks := fun _ => [];
     fetch := fun n _ _ => pages n;
     db_fault := faults;
     clock := fun n => "2024-06-01T00:00:0" +:+ pretty n +:+ "Z" |}.

Definition no_faults : nat -> option Error := fun _ => None.

Definition fault_at (k : nat) : nat -> option Error :=
  fun n => if (n =? k)%nat
           then Some {| err_name := "ServiceUnavailable";
                        err_message := "storage is down" |}
           else None.

Definition try_on : CustomAttribute :=
  {| key := "_sbb_try_on"; value := AStr "true" |}.

Definition item_node (attrs : list CustomAttribute) : LineItemNode :=
  {| lin_id := "gid://shopify/LineItem/1"; lin_title := "Shirt";
     lin_quantity := 1; lin_amount := "10.00";
     lin_product := Some "gid://shopify/Product/7"; lin_variant := None;
     customAttributes := attrs |}.

Definition order_node (n created : string) (attrs : list CustomAttribute)
    : OrderNode :=
  {| node_id := "gid://shopify/Order/" +:+ n; node_name := "#" +:+ n;
     createdAt := created; amount := "10.00"; currencyCode := "USD";
     lineItems := [item_node attrs] |}.

Definition page_of (nodes : list OrderNode) (more : bool) : HttpOutcome :=
  Json {| errors := None;
          data_orders := Some
            {| edges := map (fun n => {| edge_cursor := node_id n;
                                         node := n |}) nodes;
               pageInfo_hasNextPage := more |} |}.

(** A source that rate-limits the first request and then answers every
    request with two orders and "more pages". *)
Definition greedy_pages (n : nat) : HttpOutcome :=
  match n with
  | O => NotOk 429 "Too Many Requests" "throttled"
  | S _ => page_of [order_node "1001" "2024-01-01T00:00:00Z" [try_on];
                    order_node "1002" "2024-01-02T00:00:00Z" [try_on]] true
  end.

(** A source that cannot be reached. *)
Definition unreachable_source (n : nat) : HttpOutcome :=
  Rejected {| err_name := "TypeError"; err_message := "fetch failed" |}.

(** A source with one page: a marker-tagged order of 1 January and a newer
    order of 2 January without the marker. *)
Definition one_page (n : nat) : HttpOutcome :=
  page_of [order_node "1001" "2024-01-01T00:00:00Z" [try_on];
           order_node "1002" "2024-01-02T00:00:00Z" []] false.

(** A source with one tagged order whose display name is empty. *)
Definition nameless_page (n : nat) : HttpOutcome :=
  page_of [{| node_id := "gid://shopify/Order/1001"; node_name := "";
              createdAt := "2024-01-01T00:00:00Z"; amount := "10.00";
              currencyCode := "USD"; lineItems := [item_node [try_on]] |}]
          false.

Definition the_shop : Shop :=
  {| shop_created_at := Val "2023-12-01T00:00:00Z"; order_sync := None;
     updated_at := Val "2023-12-01T00:00:00Z"; other_attributes := [] |}.

Definition world_of (s : Shop) : World :=
  {| shops := {[ "demo.myshopify.com" := s ]}; orders := ∅;
     n_http := 0; n_db := 0; n_clock := 0; log := [] |}.

Definition the_session : Session :=
  {| shop := "demo.myshopify.com"; accessToken := "shpat" |}.

Definition the_body : SyncOrders.Body :=
  {| SyncOrders.shop_domain := Some "demo.myshopify.com";
     SyncOrders.session := Some the_session |}.

(** An order to store, created at the given time. *)
Definition an_order (created : string) : OrderData :=
  {| od_order_id := "1001"; od_shop_domain := "demo.myshopify.com";
     od_order_number := "#1001"; od_total_price := 10%Q;
     od_currency := Val "USD"; od_customer_email := Absent;
     od_line_items := Val []; od_has_sbb_items := Val true;
     od_sbb_session_ids := Val [AStr "s-1"]; od_created_at := Val created |}.

(** The world after a sync of the example shop against a source whose only
    order has an empty display name. *)
Definition world_after_nameless_order : World :=
  snd (SyncOrders.sync_orders the_body (env_of nameless_page no_faults)
         (world_of the_shop)).

(** A shop whose checkpoint says that a sync is running. *)
Definition shop_syncing : Shop :=
  {| shop_created_at := Val "2023-12-01T00:00:00Z";
     order_sync := Some
       {| is_syncing := Val true;
          last_sync_time := Null; last_synced_order_id := Null;
          last_synced_order_number := Null;
          last_synced_order_created_at := Null;
          total_orders_synced := Val 0; last_sync_count := Val 0 |};
     updated_at := Val "2024-06-01T00:00:00Z"; other_attributes := [] |}.

(** The world after a sync of the example shop against the one-page
    source. *)
Definition synced_world : World :=
  snd (SyncOrders.sync_orders the_body (env_of one_page no_faults)
         (world_of the_shop)).

(** A source that rate-limits the first two requests. *)
Definition throttled_twice (n : nat) : HttpOutcome :=
  match n with
  | 0%nat | 1%nat => NotOk 429 "Too Many Requests" "throttled"
  | _ => one_page n
  end.


(** A shop that was synced before: its checkpoint holds the progress of
    seven orders. *)
Definition shop_synced_before : Shop :=
  {| shop_created_at := Val "2023-12-01T00:00:00Z";
     order_sync := Some
       {| is_syncing := Val false;
          last_sync_time := Val "2024-05-01T08:00:00Z";
          last_synced_order_id := Val "1007";
          last_synced_order_number := Val "#1007";
          last_synced_order_created_at := Val "2024-04-30T17:45:00Z";
          total_orders_synced := Val 7; last_sync_count := Val 2 |};
     updated_at := Val "2024-05-01T08:00:00Z";
     other_attributes := [("plan_type", "free")] |}.

(** A source with three orders on one page: the tagged order 1001 of
    1 January, the untagged order 1003 of 5 January and the tagged order
    1002 of 3 January, in that order. *)
Definition three_orders (n : nat) : HttpOutcome :=
  page_of [order_node "1001" "2024-01-01T00:00:00Z" [try_on];
           order_node "1003" "2024-01-05T00:00:00Z" [];
           order_node "1002" "2024-01-03T00:00:00Z" [try_on]] false.

(** What [fetchOrders] returns from that source. *)
Definition three_orders_fetched : list Order :=
  map ShopifyAPIService.transformGraphQLOrder
    [order_node "1001" "2024-01-01T00:00:00Z" [try_on];
     order_node "1003" "2024-01-05T00:00:00Z" [];
     order_node "1002" "2024-01-03T00:00:00Z" [try_on]].

(** A source with one tagged order whose amount is not a number. *)
Definition unpriced_page (n : nat) : HttpOutcome :=
  page_of [{| node_id := "gid://shopify/Order/1001"; node_name := "#1001";
              createdAt := "2024-01-01T00:00:00Z"; amount := "abc";
              currencyCode := "USD"; lineItems := [item_node [try_on]] |}]
          false.

(** A source whose second page cannot be fetched. *)
Definition second_page_fails (n : nat) : HttpOutcome :=
  match n with
  | 0%nat => page_of [order_node "1001" "2024-01-01T00:00:00Z" [try_on]] true
  | _ => unreachable_source n
  end.

(** A source that answers every request with two orders and "more
    pages". *)
Definition always_more (n : nat) : HttpOutcome := greedy_pages (S n).

(** The example world with order 1001 already in the orders table. *)
Definition world_with_order_1001 : World :=
  snd (OrderModel.create (an_order "2024-01-01T00:00:00Z")
         (env_of one_page no_faults) (world_of the_shop)).

End Examples.

Import Examples.

(** ** Further operations of the models *)

(** [docClient.send(new GetCommand({TableName: ORDERS_TABLE, Key: {order_id}}))],
    giving [result.Item]. *)
Definition send_GetCommand_order (order_id : string) : M (option StoredOrder) :=
  fun env w =>
    match db_fault env (n_db w) with
    | Some e => (Throw e, db_tick w)
    | None => (Ok (orders w !! order_id), db_tick w)
    end.

(** [OrderModel.exists(order_id)]: [!!result.Item], and [false] when the
    read throws. *)
Definition OrderModel_exists (order_id : string) : M bool :=
  try_catch
    (result <- send_GetCommand_order order_id ;;
     ret (match result with Some _ => true | None => false end))
    (fun error => ret false).

(** [docClient.send(new PutCommand({TableName: TABLES.SHOPS, Item}))]: no
    condition, the item replaces what the key held. *)
Definition send_PutCommand_shop (shop_domain : string) (item : Shop) : M unit :=
  fun env w =>
    match db_fault env (n_db w) with
    | Some e => (Throw e, db_tick w)
    | None =>
        (Ok tt, db_tick (set_shops (<[shop_domain := item]> (shops w)) w))
    end.

(** [ShopModel.create(shopData)], the key [shopData.shop_domain] given
    apart. *)
Definition ShopModel_create (shop_domain : string) (shopData : Shop) : M Shop :=
  try_catch
    (send_PutCommand_shop shop_domain shopData ;;; ret shopData)
    (fun error => throw error).

(** [s.split('.')[0]]: the text before the first dot. *)
Fixpoint split_first (s : string) : string :=
  match s with
  | EmptyString => EmptyString
  | String c s' =>
      if Ascii.eqb c "."%char then EmptyString else String c (split_first s')
  end.

(** The free-tier shop that [findOrCreate] writes; the attributes that the
    sync does not read are kept with their values as text. *)
Definition newShop_of (shop_domain last_reset_at created_at updated_at : string)
    : Shop :=
  {| shop_created_at := Val created_at;
     order_sync := None;
     updated_at := Val updated_at;
     other_attributes :=
       [("shop_id", split_first shop_domain); ("plan_type", "free");
        ("images_used", "0"); ("images_limit", "15"); ("is_active", "true");
        ("app_status", "disabled"); ("product_category", "null");
        ("shop_settings", "null"); ("external_user_id", "null");
        ("stripe_customer_id", "null"); ("stripe_subscription_id", "null");
        ("last_reset_at", last_reset_at)] |}.

(** [ShopModel.findOrCreate(shop_domain)] *)
Definition ShopModel_findOrCreate (shop_domain : string) : M Shop :=
  try_catch
    (shop <- ShopModel.findOne shop_domain ;;
     match shop with
     | Some shop => ret shop
     | None =>
         last_reset_at <- now ;;
         created_at <- now ;;
         updated_at <- now ;;
         let newShop :=
           newShop_of shop_domain last_reset_at created_at updated_at in
         send_PutCommand_shop shop_domain newShop ;;;
         ret newShop
     end)
    (fun error => throw error).

(** ** Vocabulary of the further properties *)

(** The events of [k] calls of one request under [fetchWithRetry], newest
    first: the calls, with a pause of 2000 ms between two of them. *)
Fixpoint retry_events (s : Session) (q : OrdersQuery) (k : nat) : list Event :=
  match k with
  | O => []
  | S k' =>
      match k' with
      | O => [EvHttp s q]
      | S _ => EvHttp s q :: EvSleep 2000 :: retry_events s q k'
      end
  end.

(** A source that holds the orders [all], oldest request first, and serves
    them by cursor: the edges after the one whose cursor is given. *)
Fixpoint after_cursor (c : string) (all : list OrderEdge) : list OrderEdge :=
  match all with
  | [] => []
  | e :: rest =>
      if String.eqb (edge_cursor e) c then rest else after_cursor c rest
  end.

(** Its answer to a query: at most [first] edges, and whether more remain. *)
Definition serve (all : list OrderEdge) (q : OrdersQuery) : HttpOutcome :=
  let rest := match after q with
              | Some c => after_cursor c all
              | None => all
              end in
  Json {| errors := None;
          data_orders := Some
            {| edges := take (first q) rest;
               pageInfo_hasNextPage :=
                 bool_decide (first q < length rest)%nat |} |}.

(** The environment answers every request as that source does. *)
Definition serves (all : list OrderEdge) (env : Env) : Prop :=
  forall n s q, fetch env n s q = serve all q.

(** The cursors of the source are non-empty and pairwise different. *)
Definition cursors_identify (all : list OrderEdge) : Prop :=
  NoDup (map edge_cursor all)
  /\ Forall (fun e => truthy (edge_cursor e) = true) all.

(** The orders table only grew from [w] to [w']: every record of [w] is
    still there, unchanged, and every new record satisfies [P]. *)
Definition orders_only_added (P : string -> StoredOrder -> Prop)
    (w w' : World) : Prop :=
  (forall k o, orders w !! k = Some o -> orders w' !! k = Some o)
  /\ (forall k o, orders w' !! k = Some o ->
        orders w !! k = Some o \/ (orders w !! k = None /\ P k o)).

(** A record stored by a sync of [shop_domain]: under its own identifier,
    flagged as a try-on order of that shop. *)
Definition synced_record (shop_domain : option string) (k : string)
    (o : StoredOrder) : Prop :=
  order_id o = k /\ has_sbb_items o = true
  /\ shop_domain = Some (so_shop_domain o).

(** [parseFloat(order.total_price || 0)]: the price under which the route
    stores an order; [None] when it is [NaN]. *)
Definition order_price (env : Env) (order : Order) : option Q :=
  if truthy (total_price order) then parseFloat env (total_price order)
  else Some 0%Q.

(** How the store loop counts an order. *)
Inductive Counted := AsNew | AsDuplicate | AsNeither.

(** What comes of the put of an order in the world [w]: nothing is sent for
    an order without its list of line items, and the document client sends
    nothing for a price that is not a number; the storage may fail; and it
    refuses, with a conditional-check failure, an id that it holds. *)
Definition put_outcome (env : Env) (order : Order) (w : World) : Counted :=
  match line_items order, order_price env order with
  | Some _, Some _ =>
      match db_fault env (n_db w) with
      | Some e =>
          if String.eqb (err_name e) "ConditionalCheckFailedException"
          then AsDuplicate else AsNeither
      | None =>
          match orders w !! id order with
          | Some _ => AsDuplicate
          | None => AsNew
          end
      end
  | _, _ => AsNeither
  end.

(** The orders whose price is a number. *)
Definition priced (env : Env) (order : Order) : bool :=
  bool_decide (is_Some (order_price env order)).

(** The revenue after the prices of the records [created] were added, one
    by one, to the revenue [start]. *)
Definition revenue_after (env : Env) (start : Q) (created : list StoredOrder)
    : Q :=
  fold_left (fun sum record => number_add env sum (so_total_price record))
            created start.

(** The orders that a run against the cursor source [all] goes on to store:
    the selected ones among the orders of the first ten pages of 250, in the
    order of the sort. *)
Definition selected_orders (env : Env) (all : list OrderEdge) : list Order :=
  SyncOrders.sort_newest_first env
    (ShopifyAPIService.filterSBBOrders
       (map (fun edge => ShopifyAPIService.transformGraphQLOrder (node edge))
            (take (10 * 250) all))).

(** ** Further examples *)

(** An environment whose source serves the given edges by cursor. *)
Definition serving_env (all : list OrderEdge) : Env :=
  {| parseFloat := read_amount;
     number_add := Qplus;
     Date_getTime := iso8601_utc;
     sort_ranks := fun _ => [];
     fetch := fun _ _ q => serve all q;
     db_fault := no_faults;
     clock := fun n => "2024-06-01T00:00:0" +:+ pretty n +:+ "Z" |}.

Definition edge_of (n : OrderNode) : OrderEdge :=
  {| edge_cursor := node_id n; node := n |}.

(** Three orders, served two by two. *)
Definition three_edges : list OrderEdge :=
  [edge_of (order_node "1001" "2024-01-01T00:00:00Z" [try_on]);
   edge_of (order_node "1002" "2024-01-02T00:00:00Z" []);
   edge_of (order_node "1003" "2024-01-03T00:00:00Z" [try_on])].

(** * Properties *)

(** ** Two-state invariants of monadic code *)

Section Preserves.
Context (R : World -> World -> Prop) `{!PreOrder R}.

Lemma preserves_ret {A} (a : A) : preserves R (ret a).
Proof. intros env w r w' [= _ <-]. reflexivity. Qed.

Lemma preserves_throw {A} (e : Error) : preserves R (@throw A e).
Proof. intros env w r w' [= _ <-]. reflexivity. Qed.

Lemma preserves_ask {A} (f : Env -> A) : preserves R (ask f).
Proof. intros env w r w' [= _ <-]. reflexivity. Qed.

Lemma preserves_bind {A B} (m : M A) (k : A -> M B) :
  preserves R m -> (forall a, preserves R (k a)) -> preserves R (bind m k).
Proof.
  intros Hm Hk env w r w' H. unfold bind in H.
  destruct (m env w) as [[a|e] w1] eqn:E.
  - transitivity w1; [eapply Hm | eapply Hk]; eauto.
  - injection H as _ <-. eapply Hm; eauto.
Qed.

Lemma preserves_try_catch {A} (m : M A) (h : Error -> M A) :
  preserves R m -> (forall e, preserves R (h e)) -> preserves R (try_catch m h).
Proof.
  intros Hm Hh env w r w' H. unfold try_catch in H.
  destruct (m env w) as [[a|e] w1] eqn:E.
  - injection H as _ <-. eapply Hm; eauto.
  - transitivity w1; [eapply Hm | eapply Hh]; eauto.
Qed.
End Preserves.

(** Breaks a [preserves] goal along the structure of the code; the facts
    about the primitive effects are collected in the hint database
    [frame]. *)
Create HintDb frame.

Ltac preserves_step :=
  first
    [ solve [auto with frame typeclass_instances]
    | apply preserves_ret; typeclasses eauto
    | apply preserves_throw; typeclasses eauto
    | apply preserves_ask; typeclasses eauto
    | apply preserves_bind; [typeclasses eauto | | intros ?]
    | apply preserves_try_catch; [typeclasses eauto | | intros ?]
    | match goal with
      | |- preserves _ (match ?x with _ => _ end) => destruct x
      | |- preserves _ (let _ := _ in _) => cbv zeta
      end ].
Ltac preserves_tac := repeat preserves_step.

#[global] Instance only_network_preorder : PreOrder only_network.
Proof.
  split; [intros w; repeat split|].
  intros w1 w2 w3 (?&?&?&?) (?&?&?&?). repeat split; congruence.
Qed.
#[global] Instance keeps_shops_preorder : PreOrder keeps_shops.
Proof. split; [intros w; reflexivity|]. unfold keeps_shops; congruence. Qed.
#[global] Instance keeps_orders_preorder : PreOrder keeps_orders.
Proof. split; [intros w; reflexivity|]. unfold keeps_orders; congruence. Qed.
#[global] Instance keeps_log_preorder : PreOrder keeps_log.
Proof.
  split; [intros w; split; reflexivity|].
  intros w1 w2 w3 [??] [??]. split; congruence.
Qed.

Lemma preserves_weaken (R R' : World -> World -> Prop) {A} (m : M A) :
  (forall w w', R w w' -> R' w w') -> preserves R m -> preserves R' m.
Proof. intros HR Hm env w r w' H. eapply HR, Hm, H. Qed.

Lemma only_network_keeps_shops w w' : only_network w w' -> keeps_shops w w'.
Proof. intros (?&?&?&?). assumption. Qed.
Lemma only_network_keeps_orders w w' : only_network w w' -> keeps_orders w w'.
Proof. intros (?&?&?&?). assumption. Qed.

(** *** The fetcher only uses the network *)

Lemma sleep_only_network ms : preserves only_network (sleep ms).
Proof. intros env w r w' [= _ <-]. repeat split. Qed.

Lemma http_post_only_network s q : preserves only_network (http_post s q).
Proof. intros env w r w' [= _ <-]. repeat split. Qed.

#[global] Hint Resolve sleep_only_network http_post_only_network : frame.

Lemma fetchFunction_only_network s q :
  preserves only_network (ShopifyAPIService.fetchFunction s q).
Proof. unfold ShopifyAPIService.fetchFunction. preserves_tac. Qed.

Lemma fetchWithRetry_from_preserves R `{!PreOrder R} {A} (f : M A) m left :
  preserves R f -> (forall ms, preserves R (sleep ms)) ->
  preserves R (ShopifyAPIService.fetchWithRetry_from f m left).
Proof.
  intros Hf Hs. induction left as [|left IH]; simpl; preserves_tac.
Qed.

Lemma fetchOrders_loop_only_network fuel s limit max_pages cam all page has cur :
  preserves only_network
    (ShopifyAPIService.fetchOrders_loop fuel s limit max_pages cam all page
       has cur).
Proof.
  revert all page has cur.
  induction fuel as [|fuel IH]; intros all page has cur; simpl.
  - preserves_tac.
  - destruct (has && (page <=? max_pages)%nat); [|preserves_tac].
    preserves_step.
    { apply fetchWithRetry_from_preserves;
        [typeclasses eauto | apply fetchFunction_only_network
        | apply sleep_only_network]. }
    preserves_tac.
Qed.

Lemma fetchOrders_only_network s options :
  preserves only_network (ShopifyAPIService.fetchOrders s options).
Proof.
  unfold ShopifyAPIService.fetchOrders.
  pose proof fetchOrders_loop_only_network. preserves_tac.
Qed.

Lemma fetchOrders_keeps_shops s options :
  preserves keeps_shops (ShopifyAPIService.fetchOrders s options).
Proof.
  eapply preserves_weaken;
    [apply only_network_keeps_shops | apply fetchOrders_only_network].
Qed.

Lemma fetchOrders_keeps_orders s options :
  preserves keeps_orders (ShopifyAPIService.fetchOrders s options).
Proof.
  eapply preserves_weaken;
    [apply only_network_keeps_orders | apply fetchOrders_only_network].
Qed.

(** *** The shop model leaves the orders and the log alone; the order model
    leaves the shops and the log alone *)

Lemma now_keeps_shops : preserves keeps_shops now.
Proof. intros env w r w' [= _ <-]. reflexivity. Qed.
Lemma now_keeps_orders : preserves keeps_orders now.
Proof. intros env w r w' [= _ <-]. reflexivity. Qed.
Lemma now_keeps_log : preserves keeps_log now.
Proof. intros env w r w' [= _ <-]. split; reflexivity. Qed.

Ltac primitive_frame f :=
  intros env w r w' H; unfold f in H;
  repeat match type of H with
         | context [match ?x with _ => _ end] => destruct x
         end;
  injection H as _ <-; first [reflexivity | split; reflexivity].

Lemma send_GetCommand_keeps_shops d :
  preserves keeps_shops (ShopModel.send_GetCommand d).
Proof. primitive_frame ShopModel.send_GetCommand. Qed.
Lemma send_GetCommand_keeps_orders d :
  preserves keeps_orders (ShopModel.send_GetCommand d).
Proof. primitive_frame ShopModel.send_GetCommand. Qed.
Lemma send_GetCommand_keeps_log d :
  preserves keeps_log (ShopModel.send_GetCommand d).
Proof. primitive_frame ShopModel.send_GetCommand. Qed.

Lemma send_UpdateCommand_keeps_orders d sd t :
  preserves keeps_orders (ShopModel.send_UpdateCommand d sd t).
Proof. primitive_frame ShopModel.send_UpdateCommand. Qed.
Lemma send_UpdateCommand_keeps_log d sd t :
  preserves keeps_log (ShopModel.send_UpdateCommand d sd t).
Proof. primitive_frame ShopModel.send_UpdateCommand. Qed.

Lemma send_PutCommand_keeps_shops o :
  preserves keeps_shops (OrderModel.send_PutCommand o).
Proof. primitive_frame OrderModel.send_PutCommand. Qed.
Lemma send_PutCommand_keeps_log o :
  preserves keeps_log (OrderModel.send_PutCommand o).
Proof. primitive_frame OrderModel.send_PutCommand. Qed.

#[global] Hint Resolve now_keeps_shops now_keeps_orders now_keeps_log
  send_GetCommand_keeps_shops send_GetCommand_keeps_orders
  send_GetCommand_keeps_log send_UpdateCommand_keeps_orders
  send_UpdateCommand_keeps_log send_PutCommand_keeps_shops
  send_PutCommand_keeps_log fetchOrders_keeps_shops fetchOrders_keeps_orders
  : frame.

Lemma findOne_keeps_shops d : preserves keeps_shops (ShopModel.findOne d).
Proof. unfold ShopModel.findOne. preserves_tac. Qed.
Lemma findOne_keeps_orders d : preserves keeps_orders (ShopModel.findOne d).
Proof. unfold ShopModel.findOne. preserves_tac. Qed.
Lemma findOne_keeps_log d : preserves keeps_log (ShopModel.findOne d).
Proof. unfold ShopModel.findOne. preserves_tac. Qed.

Lemma updateOrderSync_keeps_orders d sd :
  preserves keeps_orders (ShopModel.updateOrderSync d sd).
Proof. unfold ShopModel.updateOrderSync. preserves_tac. Qed.
Lemma updateOrderSync_keeps_log d sd :
  preserves keeps_log (ShopModel.updateOrderSync d sd).
Proof. unfold ShopModel.updateOrderSync. preserves_tac. Qed.

Lemma setSyncingFlag_keeps_orders d b :
  preserves keeps_orders (ShopModel.setSyncingFlag d b).
Proof. unfold ShopModel.setSyncingFlag, ShopModel.findOne. preserves_tac. Qed.
Lemma setSyncingFlag_keeps_log d b :
  preserves keeps_log (ShopModel.setSyncingFlag d b).
Proof. unfold ShopModel.setSyncingFlag, ShopModel.findOne. preserves_tac. Qed.

Lemma create_keeps_shops od : preserves keeps_shops (OrderModel.create od).
Proof. unfold OrderModel.create. preserves_tac. Qed.
Lemma create_keeps_log od : preserves keeps_log (OrderModel.create od).
Proof. unfold OrderModel.create. preserves_tac. Qed.

#[global] Hint Resolve findOne_keeps_shops findOne_keeps_orders
  findOne_keeps_log updateOrderSync_keeps_orders updateOrderSync_keeps_log
  setSyncingFlag_keeps_orders setSyncingFlag_keeps_log create_keeps_shops
  create_keeps_log : frame.

Lemma store_orders_keeps_shops d l c :
  preserves keeps_shops (SyncOrders.store_orders d l c).
Proof.
  revert c. induction l as [|o l IH]; intros c; simpl;
    unfold SyncOrders.store_order; preserves_tac.
Qed.

Lemma store_orders_keeps_log d l c :
  preserves keeps_log (SyncOrders.store_orders d l c).
Proof.
  revert c. induction l as [|o l IH]; intros c; simpl;
    unfold SyncOrders.store_order; preserves_tac.
Qed.

#[global] Hint Resolve store_orders_keeps_shops store_orders_keeps_log : frame.

(** ** Order filter and session extraction *)

Lemma optional_some_spec {A} (f : A -> bool) (l : option (list A)) :
  ShopifyAPIService.optional_some f l = true
  <-> exists xs x, l = Some xs /\ x ∈ xs /\ f x = true.
Proof.
  destruct l as [xs|]; simpl.
  - rewrite existsb_exists. split.
    + intros (x & Hin & Hf). exists xs, x. by rewrite list_elem_of_In.
    + intros (xs' & x & [= <-] & Hin & Hf). exists x. by rewrite <- list_elem_of_In.
  - split; [discriminate | intros (? & ? & [=] & _)].
Qed.

Lemma is_try_on_spec p :
  ShopifyAPIService.is_try_on p = true
  <-> name p = "_sbb_try_on" /\ prop_value p = AStr "true".
Proof.
  unfold ShopifyAPIService.is_try_on.
  rewrite andb_true_iff, String.eqb_eq, bool_decide_eq_true. reflexivity.
Qed.

Lemma Set_spread_elem_of {A} `{EqDecision A} (seen l : list A) x :
  x ∈ Set_spread seen l <-> x ∈ l /\ x ∉ seen.
Proof.
  revert seen. induction l as [|y l IH]; intros seen; simpl.
  - split; [intros H0; inversion H0 | intros [H0 _]; inversion H0].
  - destruct (decide (y ∈ seen)) as [Hy|Hy].
    + rewrite IH, elem_of_cons. split; [tauto|].
      intros [[->|?] ?]; [contradiction | tauto].
    + rewrite !elem_of_cons, IH, elem_of_cons.
      destruct (decide (x = y)) as [->|Hne]; [tauto|]. tauto.
Qed.

Lemma Set_spread_NoDup {A} `{EqDecision A} (seen l : list A) :
  NoDup (Set_spread seen l).
Proof.
  revert seen. induction l as [|y l IH]; intros seen; simpl.
  - constructor.
  - destruct (decide (y ∈ seen)); [apply IH|].
    constructor; [|apply IH].
    rewrite Set_spread_elem_of, elem_of_cons. tauto.
Qed.

Lemma elem_of_flat_map {A B} (f : A -> list B) (l : list A) (y : B) :
  y ∈ flat_map f l <-> exists x, x ∈ l /\ y ∈ f x.
Proof.
  rewrite list_elem_of_In, in_flat_map.
  split; intros (x & ? & ?); exists x; by rewrite ?list_elem_of_In in *.
Qed.

(** C9: [filterSBBOrders] keeps an order exactly when one of its line items
    has a property named ["_sbb_try_on"] whose value is the string ["true"]
    (so not for ["TRUE"] or the boolean [true]); [extractSessionIds] returns,
    without duplicates, exactly the truthy values of the properties named
    ["_sbb_session_id"]; an order with missing or empty line items, or whose
    line items have missing or empty properties, is not selected and yields
    no session id, and nothing is thrown (both are total, pure functions). *)
Theorem C9_filter_and_session_ids_match_exactly :
  (forall (orders : list Order) (o : Order),
     o ∈ ShopifyAPIService.filterSBBOrders orders
     <-> o ∈ orders
         /\ exists items item props p,
              line_items o = Some items /\ item ∈ items
              /\ properties item = Some props /\ p ∈ props
              /\ name p = "_sbb_try_on" /\ prop_value p = AStr "true")
  /\ (forall v, v ≠ AStr "true" ->
        ShopifyAPIService.is_try_on
          {| name := "_sbb_try_on"; prop_value := v |} = false)
  /\ ShopifyAPIService.is_try_on
       {| name := "_sbb_try_on"; prop_value := AStr "TRUE" |} = false
  /\ ShopifyAPIService.is_try_on
       {| name := "_sbb_try_on"; prop_value := ABool true |} = false
  /\ (forall (order : Order) (v : attr_value),
        v ∈ ShopifyAPIService.extractSessionIds order
        <-> truthy v = true
            /\ exists items item props p,
                 line_items order = Some items /\ item ∈ items
                 /\ properties item = Some props /\ p ∈ props
                 /\ name p = "_sbb_session_id" /\ prop_value p = v)
  /\ (forall order : Order, NoDup (ShopifyAPIService.extractSessionIds order))
  /\ (forall order : Order,
        (line_items order = None \/ line_items order = Some []
         \/ exists items, line_items order = Some items
              /\ forall item, item ∈ items ->
                   properties item = None \/ properties item = Some []) ->
        ShopifyAPIService.has_sbb_item order = false
        /\ ShopifyAPIService.extractSessionIds order = []).
Proof.
  split; [|split; [|split; [|split; [|split; [|split]]]]].
  - intros orders o. unfold ShopifyAPIService.filterSBBOrders.
    rewrite list_elem_of_In, filter_In, <- list_elem_of_In.
    unfold ShopifyAPIService.has_sbb_item. rewrite optional_some_spec.
    split.
    + intros [Hin (items & item & Hli & Hitem & Hsome)]. split; [done|].
      apply optional_some_spec in Hsome as (props & p & Hp & Hpin & Htry).
      apply is_try_on_spec in Htry as [??]. by exists items, item, props, p.
    + intros [Hin (items & item & props & p & ? & ? & ? & ? & ? & ?)].
      split; [done|]. exists items, item. split; [done|]. split; [done|].
      apply optional_some_spec. exists props, p. split; [done|]. split; [done|].
      by apply is_try_on_spec.
  - intros v Hv. destruct (ShopifyAPIService.is_try_on _) eqn:E; [|done].
    apply is_try_on_spec in E as [_ E]. simpl in E. congruence.
  - reflexivity.
  - reflexivity.
  - intros order v. unfold ShopifyAPIService.extractSessionIds.
    rewrite Set_spread_elem_of, elem_of_flat_map. split.
    + intros [(item & Hitem & Hv) _].
      apply elem_of_flat_map in Hv as (p & Hp & Hv).
      destruct (ShopifyAPIService.is_session_id p) eqn:E;
        [|by apply elem_of_nil in Hv].
      apply list_elem_of_singleton in Hv as ->.
      unfold ShopifyAPIService.is_session_id in E.
      apply andb_true_iff in E as [En Et]. apply String.eqb_eq in En.
      split; [done|].
      destruct (line_items order) as [items|] eqn:El;
        [|by apply elem_of_nil in Hitem].
      destruct (properties item) as [props|] eqn:Ep;
        [|by apply elem_of_nil in Hp].
      by exists items, item, props, p.
    + intros [Ht (items & item & props & p & El & Hitem & Ep & Hp & Hn & <-)].
      split; [|apply not_elem_of_nil].
      exists item. rewrite El. split; [done|].
      apply elem_of_flat_map. exists p. rewrite Ep. split; [done|].
      unfold ShopifyAPIService.is_session_id.
      rewrite Hn, Ht. simpl. apply list_elem_of_singleton. reflexivity.
  - intros order. apply Set_spread_NoDup.
  - intros order H.
    unfold ShopifyAPIService.has_sbb_item, ShopifyAPIService.extractSessionIds.
    destruct H as [-> | [-> | (items & -> & Hall)]]; [done | done |].
    simpl. split.
    + apply not_true_is_false. rewrite existsb_exists.
      intros (item & Hin & Hs). apply list_elem_of_In in Hin.
      destruct (Hall item Hin) as [E|E]; rewrite E in Hs; discriminate.
    + assert (E : forall f : Property -> list attr_value,
                flat_map (fun item =>
                  flat_map f (ShopifyAPIService.optional_list (properties item)))
                  items = []).
      { intros f. induction items as [|item items IH]; [done|]. simpl.
        rewrite IH by (intros i Hi; apply Hall; by right).
        destruct (Hall item) as [E|E]; [by left | |]; by rewrite E. }
      by rewrite E.
Qed.

(** ** Retry policy of the fetcher *)

Lemma fetchFunction_outcome s q env w :
  ShopifyAPIService.fetchFunction s q env w
  = (outcome_result (fetch env (n_http w) s q), after_events [EvHttp s q] w).
Proof.
  unfold ShopifyAPIService.fetchFunction, bind, http_post. simpl.
  destruct (fetch env (n_http w) s q); reflexivity.
Qed.

(** ** Termination and bounds of the pagination loop *)

Lemma fetchWithRetry_from_calls s q m left env w r w' :
  ShopifyAPIService.fetchWithRetry_from (ShopifyAPIService.fetchFunction s q)
    m left env w = (r, w') ->
  (n_http w <= n_http w' <= n_http w + left)%nat
  /\ (never_rate_limited env -> n_http w' <= n_http w + 1)%nat
  /\ forall resp, r = Ok (Some resp) ->
       exists n, fetch env n s q = Json resp.
Proof.
  revert w. induction left as [|left IH]; intros w H; simpl in H.
  - injection H as <- <-. split; [lia|]. split; [lia|]. discriminate.
  - unfold try_catch, bind in H. rewrite fetchFunction_outcome in H.
    destruct (outcome_result (fetch env (n_http w) s q)) as [resp|e] eqn:E.
    + injection H as <- <-. simpl. split; [lia|]. split; [lia|].
      intros ? [= <-]. exists (n_http w).
      destruct (fetch env (n_http w) s q); simpl in E; congruence.
    + fold (rate_limited e) in H.
      destruct (rate_limited e) eqn:Er.
      * destruct (m - left <? m)%nat.
        -- unfold sleep in H. apply IH in H as (H1 & H2 & H3). simpl in *.
           split; [lia|]. split; [|done].
           intros Hn. apply Hn in E. congruence.
        -- injection H as <- <-. simpl. split; [lia|]. split; [lia|].
           discriminate.
      * injection H as <- <-. simpl. split; [lia|]. split; [lia|].
        discriminate.
Qed.

(** The loop never runs out of fuel when given at least the number of pages
    left under the cap; it issues at most three requests per page left (one
    when the source never rate-limits); and it adds at most [limit] orders
    per page left when the source honours the page size. *)
Lemma fetchOrders_loop_bounds fuel s limit max_pages cam :
  forall all page has cur env w r w',
    ShopifyAPIService.fetchOrders_loop fuel s limit max_pages cam all page has
      cur env w = (r, w') ->
    ((max_pages + 1 - page <= fuel)%nat -> r ≠ Ok None)
    /\ (n_http w' <= n_http w + 3 * (max_pages + 1 - page))%nat
    /\ (never_rate_limited env ->
        (n_http w' <= n_http w + (max_pages + 1 - page))%nat)
    /\ (pages_within limit env -> forall l, r = Ok (Some l) ->
        (length l <= length all + (max_pages + 1 - page) * limit)%nat).
Proof.
  induction fuel as [|fuel IH]; intros all page has cur env w r w' H;
    simpl in H.
  - destruct (has && (page <=? max_pages)%nat) eqn:C.
    + apply andb_true_iff in C as [_ C]. apply Nat.leb_le in C.
      injection H as <- <-. split; [lia|]. split; [lia|].
      split; [intros _; lia|]. discriminate.
    + injection H as <- <-. split; [discriminate|]. split; [lia|].
      split; [intros _; lia|]. intros _ l [= <-]. apply Nat.le_add_r.
  - destruct (has && (page <=? max_pages)%nat) eqn:C.
    + apply andb_true_iff in C as [_ C]. apply Nat.leb_le in C.
      unfold bind at 1 in H. unfold ShopifyAPIService.fetchWithRetry in H.
      destruct (ShopifyAPIService.fetchWithRetry_from _ 3 3 env w)
        as [[[resp|]|e] w1] eqn:F;
        apply fetchWithRetry_from_calls in F as (F1 & F2 & F3).
      * destruct (F3 resp eq_refl) as [n Hn].
        destruct (errors resp);
          [injection H as <- <-; split; [discriminate|]; split; [lia|];
           split; [intros Hr; specialize (F2 Hr); lia | discriminate]|].
        destruct (data_orders resp) as [od|] eqn:Ed;
          [|injection H as <- <-; split; [discriminate|]; split; [lia|];
            split; [intros Hr; specialize (F2 Hr); lia | discriminate]].
        unfold bind at 1 in H.
        destruct (pageInfo_hasNextPage od); unfold sleep, ret in H;
          apply IH in H as (H1 & H2 & H3 & H4); simpl in *;
          (split; [intros; apply H1; lia|]; split; [lia|];
           split; [intros Hr; specialize (F2 Hr); specialize (H3 Hr); lia|];
           intros Hp l Hl; specialize (H4 Hp l Hl);
           pose proof (Hp _ _ _ _ _ Hn Ed);
           rewrite length_app, length_map in H4; nia).
      * unfold throw in H. injection H as <- <-.
        split; [discriminate|]. split; [lia|].
        split; [intros Hr; specialize (F2 Hr); lia | discriminate].
      * injection H as <- <-.
        split; [discriminate|]. split; [lia|].
        split; [intros Hr; specialize (F2 Hr); lia | discriminate].
    + injection H as <- <-. split; [discriminate|]. split; [lia|].
      split; [intros _; lia|]. intros _ l [= <-]. apply Nat.le_add_r.
Qed.

(** Any fuel at or above the number of pages left gives the same run. *)
Lemma fetchOrders_loop_fuel fuel fuel' s limit max_pages cam :
  forall all page has cur env w,
    (max_pages + 1 - page <= fuel)%nat -> (max_pages + 1 - page <= fuel')%nat ->
    ShopifyAPIService.fetchOrders_loop fuel s limit max_pages cam all page has
      cur env w
    = ShopifyAPIService.fetchOrders_loop fuel' s limit max_pages cam all page
        has cur env w.
Proof.
  revert fuel'. induction fuel as [|fuel IH]; intros fuel' all page has cur env w
    Hf Hf'; simpl.
  - destruct fuel'; simpl; [reflexivity|].
    destruct (has && (page <=? max_pages)%nat) eqn:C; [|reflexivity].
    apply andb_true_iff in C as [_ C]. apply Nat.leb_le in C. lia.
  - destruct fuel' as [|fuel']; simpl;
      destruct (has && (page <=? max_pages)%nat) eqn:C; try reflexivity;
      apply andb_true_iff in C as [_ C]; apply Nat.leb_le in C; [lia|].
    unfold bind at 1 3.
    destruct (ShopifyAPIService.fetchWithRetry _ 3 env w) as [[[resp|]|e] w1];
      try reflexivity.
    destruct (errors resp); [reflexivity|].
    destruct (data_orders resp) as [od|]; [|reflexivity].
    unfold bind.
    destruct ((if pageInfo_hasNextPage od then sleep 500 else ret ()) env w1)
      as [[[]|e] w2]; [|reflexivity].
    apply IH; lia.
Qed.

(** C8 (as amended): the pagination loop of [fetchOrders] terminates
    whatever the source answers: run with [max_pages] units of fuel, or any
    more, it never runs out and gives the same result; it stops at once when
    "has more" is false or the page counter is over the cap.  It queries at
    most [max_pages] pages, each tried at most three times, hence at most
    [3 * max_pages] HTTP requests, and at most [max_pages] when no request is
    rate-limited.  It returns at most [max_pages * limit] orders when no page
    carries more than [limit] orders. *)
Theorem C8_pagination_terminates_within_the_page_cap :
  forall (env : Env) (s : Session)
         (options : ShopifyAPIService.FetchOptions) (w : World),
    let limit := ShopifyAPIService.default 250%nat
                   (ShopifyAPIService.opt_limit options) in
    let max_pages := ShopifyAPIService.default 10%nat
                       (ShopifyAPIService.opt_max_pages options) in
    (forall fuel cam,
       (max_pages <= fuel)%nat ->
       ShopifyAPIService.fetchOrders_loop fuel s limit max_pages cam [] 1%nat
         true None env w
       = ShopifyAPIService.fetchOrders_loop max_pages s limit max_pages cam []
           1%nat true None env w
       /\ fst (ShopifyAPIService.fetchOrders_loop fuel s limit max_pages cam []
                 1%nat true None env w) ≠ Ok None)
    /\ (forall fuel cam allOrders page hasNextPage cursor,
          hasNextPage = false \/ (max_pages < page)%nat ->
          ShopifyAPIService.fetchOrders_loop fuel s limit max_pages cam
            allOrders page hasNextPage cursor env w
          = (Ok (Some allOrders), w))
    /\ forall r w',
         ShopifyAPIService.fetchOrders s options env w = (r, w') ->
         (n_http w' <= n_http w + 3 * max_pages)%nat
         /\ (never_rate_limited env ->
             (n_http w' <= n_http w + max_pages)%nat)
         /\ (pages_within limit env -> forall orders,
               r = Ok orders -> (length orders <= max_pages * limit)%nat).
Proof.
  intros env s options w limit max_pages. split; [|split].
  - intros fuel cam Hfuel. split.
    + apply fetchOrders_loop_fuel; lia.
    + destruct (ShopifyAPIService.fetchOrders_loop fuel _ _ _ _ _ _ _ _ _ _)
        as [r w'] eqn:E.
      apply fetchOrders_loop_bounds in E as [E _]. simpl. apply E. lia.
  - intros fuel cam allOrders page has cursor Hstop.
    assert (C : has && (page <=? max_pages)%nat = false).
    { destruct Hstop as [->|Hp]; [reflexivity|].
      apply andb_false_iff. right. apply Nat.leb_gt. lia. }
    destruct fuel; simpl; rewrite C; reflexivity.
  - intros r w' H. unfold ShopifyAPIService.fetchOrders in H.
    fold limit max_pages in H. unfold try_catch, bind in H.
    destruct (ShopifyAPIService.fetchOrders_loop max_pages _ _ _ _ _ _ _ _
                env w) as [[[l|]|e] w1] eqn:E;
      unfold ret, throw in H; injection H as <- <-;
      apply fetchOrders_loop_bounds in E as (E1 & E2 & E3 & E4);
      (split; [lia|]; split; [intros Hr; specialize (E3 Hr); lia|]).
    + intros Hp orders [= <-]. specialize (E4 Hp l eq_refl). simpl in E4. lia.
    + discriminate.
    + discriminate.
Qed.

(** C8, as first stated, fails: with [max_pages = 1] and [limit = 1], a
    source that rate-limits the first request and then returns a page of two
    orders makes [fetchOrders] issue two HTTP requests (more than
    [max_pages]) and return two orders (more than [max_pages * limit]). *)
Lemma C8_counterexample_retries_and_oversized_pages :
  exists orders w',
    ShopifyAPIService.fetchOrders the_session
      {| ShopifyAPIService.opt_limit := Some 1%nat;
         ShopifyAPIService.opt_created_at_min := Absent;
         ShopifyAPIService.opt_max_pages := Some 1%nat |}
      (env_of greedy_pages no_faults) (world_of the_shop)
    = (Ok orders, w')
    /\ (1 < n_http w' - n_http (world_of the_shop))%nat
    /\ (1 * 1 < length orders)%nat.
Proof.
  eexists _, _. split; [vm_compute; reflexivity|]. simpl. lia.
Qed.

(** ** The order store: conditional insert *)






(** ** The checkpoint writes of the shop model *)

Lemma js_or_carried_over {A} `{Truthy A} (d stored : field A) :
  carried_over d stored (js_or stored d).
Proof.
  unfold carried_over, js_or. destruct stored as [| |v]; simpl; try done.
  change (truthy (Val v)) with (truthy v). by destruct (truthy v).
Qed.

Lemma findOne_ok env d w :
  db_fault env (n_db w) = None ->
  ShopModel.findOne d env w = (Ok (shops w !! d), db_tick w).
Proof.
  intros Hf. unfold ShopModel.findOne, try_catch, bind,
    ShopModel.send_GetCommand. by rewrite Hf.
Qed.

Lemma findOne_inv env d w r w' :
  ShopModel.findOne d env w = (r, w') ->
  w' = db_tick w
  /\ (r = Ok (shops w !! d) \/ exists e, r = Throw e).
Proof.
  unfold ShopModel.findOne, try_catch, bind, ShopModel.send_GetCommand.
  destruct (db_fault env (n_db w)); intros [= <- <-]; eauto.
Qed.

Lemma updateOrderSync_inv env d sd w r w' :
  ShopModel.updateOrderSync d sd env w = (r, w') ->
  match r with
  | Ok item =>
      shops w' = <[d := item]> (shops w)
      /\ order_sync item = Some sd
      /\ shop_created_at item = opt_get shop_created_at (shops w !! d)
      /\ other_attributes item
         = match shops w !! d with Some s => other_attributes s | None => [] end
  | Throw _ => shops w' = shops w
  end.
Proof.
  unfold ShopModel.updateOrderSync, try_catch, bind, now,
    ShopModel.send_UpdateCommand. simpl.
  destruct (db_fault env (n_db w)); intros [= <- <-]; simpl; [done|].
  destruct (shops w !! d); simpl; done.
Qed.

Lemma setSyncingFlag_inv env d b w r w' :
  ShopModel.setSyncingFlag d b env w = (r, w') ->
  orders w' = orders w
  /\ match r with
     | Ok item =>
         exists shop os,
           shops w !! d = Some shop
           /\ shops w' = <[d := item]> (shops w)
           /\ order_sync item = Some os
           /\ shop_created_at item = shop_created_at shop
           /\ other_attributes item = other_attributes shop
           /\ is_syncing os = Val b
           /\ last_sync_time os
              = js_or (opt_get last_sync_time (order_sync shop)) Null
           /\ last_synced_order_id os
              = js_or (opt_get last_synced_order_id (order_sync shop)) Null
           /\ last_synced_order_number os
              = js_or (opt_get last_synced_order_number (order_sync shop)) Null
           /\ last_synced_order_created_at os
              = js_or (opt_get last_synced_order_created_at (order_sync shop))
                      Null
           /\ total_orders_synced os
              = js_or (opt_get total_orders_synced (order_sync shop)) (Val 0)
           /\ last_sync_count os
              = js_or (opt_get last_sync_count (order_sync shop)) (Val 0)
     | Throw _ => shops w' = shops w
     end.
Proof.
  intros H. split; [eapply setSyncingFlag_keeps_orders, H|].
  unfold ShopModel.setSyncingFlag in H. unfold try_catch at 1 in H.
  unfold bind at 1 in H.
  destruct (ShopModel.findOne d env w) as [r1 w1] eqn:F.
  apply findOne_inv in F as [-> [->|[e ->]]].
  - destruct (shops w !! d) as [shop|] eqn:Es.
    + unfold bind, now, ShopModel.send_UpdateCommand in H. simpl in H.
      destruct (db_fault env (S (n_db w))); injection H as <- <-; [done|].
      rewrite Es. simpl. eexists shop, _. repeat (split; [reflexivity|]).
      reflexivity.
    + unfold throw in H. injection H as <- <-. done.
  - unfold throw in H. injection H as <- <-. done.
Qed.

Lemma carried_over_present {A} `{Truthy A} (d stored written : field A) :
  d ≠ Absent -> carried_over d stored written -> written ≠ Absent.
Proof.
  unfold carried_over. intros Hd Hc.
  destruct stored as [| |v]; [congruence | congruence |].
  destruct (truthy v); congruence.
Qed.

(** C10 (as amended): [setSyncingFlag] reads the shop from storage and,
    when the shop exists, replaces its [order_sync] by a record with all
    seven fields: [is_syncing] is the given value, and each of the six
    progress fields is the stored value when that is truthy and the default
    ([null], or [0] for the two counters) when it is missing, [null] or
    falsy (the empty string).  Nothing else of the shop changes but
    [updated_at], and no other shop and no order changes.  When the shop
    does not exist the call throws ['Shop not found'] and writes nothing. *)
Theorem C10_setSyncingFlag_rewrites_the_whole_checkpoint :
  forall (env : Env) (shop_domain : string) (b : bool) (w : World),
    db_fault env (n_db w) = None ->
    match shops w !! shop_domain with
    | None =>
        exists w',
          ShopModel.setSyncingFlag shop_domain b env w
          = (Throw (new_Error "Shop not found"), w')
          /\ shops w' = shops w /\ orders w' = orders w
    | Some shop =>
        db_fault env (S (n_db w)) = None ->
        exists item os w',
          ShopModel.setSyncingFlag shop_domain b env w = (Ok item, w')
          /\ shops w' = <[shop_domain := item]> (shops w)
          /\ orders w' = orders w
          /\ shop_created_at item = shop_created_at shop
          /\ other_attributes item = other_attributes shop
          /\ order_sync item = Some os
          /\ has_all_seven_fields os
          /\ is_syncing os = Val b
          /\ carried_over Null (opt_get last_sync_time (order_sync shop))
                          (last_sync_time os)
          /\ carried_over Null (opt_get last_synced_order_id (order_sync shop))
                          (last_synced_order_id os)
          /\ carried_over Null
                          (opt_get last_synced_order_number (order_sync shop))
                          (last_synced_order_number os)
          /\ carried_over Null
                          (opt_get last_synced_order_created_at
                                   (order_sync shop))
                          (last_synced_order_created_at os)
          /\ carried_over (Val 0)
                          (opt_get total_orders_synced (order_sync shop))
                          (total_orders_synced os)
          /\ carried_over (Val 0) (opt_get last_sync_count (order_sync shop))
                          (last_sync_count os)
    end.
Proof.
  intros env d b w Hf.
  destruct (ShopModel.setSyncingFlag d b env w) as [r w'] eqn:E.
  pose proof (setSyncingFlag_inv _ _ _ _ _ _ E) as [Ho Hr].
  unfold ShopModel.setSyncingFlag, try_catch in E. unfold bind at 1 in E.
  rewrite (findOne_ok _ _ _ Hf) in E.
  destruct (shops w !! d) as [shop|] eqn:Es.
  - intros Hf2. unfold bind, now, ShopModel.send_UpdateCommand in E.
    simpl in E. rewrite Hf2 in E. injection E as <- <-.
    destruct Hr as (shop' & os & [= <-] & Hs & Hos & Hc & Ha & H1 & H2 & H3
                    & H4 & H5 & H6 & H7).
    eexists _, os, _. split; [reflexivity|]. repeat (split; [done|]).
    assert (Hcarried :
      carried_over Null (opt_get last_sync_time (order_sync shop))
                   (last_sync_time os)
      /\ carried_over Null (opt_get last_synced_order_id (order_sync shop))
                      (last_synced_order_id os)
      /\ carried_over Null (opt_get last_synced_order_number (order_sync shop))
                      (last_synced_order_number os)
      /\ carried_over Null
                      (opt_get last_synced_order_created_at (order_sync shop))
                      (last_synced_order_created_at os)
      /\ carried_over (Val 0) (opt_get total_orders_synced (order_sync shop))
                      (total_orders_synced os)
      /\ carried_over (Val 0) (opt_get last_sync_count (order_sync shop))
                      (last_sync_count os)).
    { rewrite H2, H3, H4, H5, H6, H7.
      repeat split; apply js_or_carried_over. }
    destruct Hcarried as (C2 & C3 & C4 & C5 & C6 & C7).
    split; [|done].
    unfold has_all_seven_fields. rewrite H1.
    split; [done|].
    repeat split; (eapply carried_over_present; [|eassumption]); done.
  - unfold throw in E. injection E as <- <-. exists (db_tick w). done.
Qed.

(** C10, as first stated, fails: a progress field that is stored but falsy
    is not preserved.  A sync of an order with an empty display name stores
    the empty string as [last_synced_order_number]; the next
    [setSyncingFlag] rewrites it as [null]. *)
Lemma C10_counterexample_empty_string_becomes_null :
  opt_get last_synced_order_number
    (checkpoint world_after_nameless_order "demo.myshopify.com") = Val ""
  /\ exists item w',
       ShopModel.setSyncingFlag "demo.myshopify.com" true
         (env_of nameless_page no_faults) world_after_nameless_order
       = (Ok item, w')
       /\ opt_get last_synced_order_number (checkpoint w' "demo.myshopify.com")
          = Null.
Proof.
  split; [vm_compute; reflexivity|].
  eexists _, _. split; [vm_compute; reflexivity|]. reflexivity.
Qed.

Lemma C10_witness :
  exists item os w',
    ShopModel.setSyncingFlag "demo.myshopify.com" true
      (env_of greedy_pages no_faults) (world_of shop_synced_before)
    = (Ok item, w')
    /\ shops w'
       = <[ "demo.myshopify.com" := item ]>
           (shops (world_of shop_synced_before))
    /\ orders w' = ∅
    /\ shop_created_at item = Val "2023-12-01T00:00:00Z"
    /\ other_attributes item = [("plan_type", "free")]
    /\ order_sync item = Some os
    /\ has_all_seven_fields os
    /\ is_syncing os = Val true
    /\ last_sync_time os = Val "2024-05-01T08:00:00Z"
    /\ last_synced_order_id os = Val "1007"
    /\ last_synced_order_number os = Val "#1007"
    /\ last_synced_order_created_at os = Val "2024-04-30T17:45:00Z"
    /\ total_orders_synced os = Val 7
    /\ last_sync_count os = Val 2.
Proof.
  exact (C10_setSyncingFlag_rewrites_the_whole_checkpoint
           (env_of greedy_pages no_faults) "demo.myshopify.com" true
           (world_of shop_synced_before) eq_refl eq_refl).
Defined.

(** ** The already-syncing guard *)

(** C4: a sync request for a shop whose stored checkpoint has a truthy
    [is_syncing] changes nothing: the shops table (hence every field of the
    shop's [order_sync]), the orders table and the log of requests are as
    before, whatever the storage and the source do.  When the request
    carries a shop domain and a session and the read of the shop succeeds,
    the answer is "sync already in progress". *)
Theorem C4_sync_while_syncing_is_refused_without_a_write :
  forall (env : Env) (body : SyncOrders.Body) (shop_domain : string)
         (shop : Shop) (w : World),
    SyncOrders.shop_domain body = Some shop_domain ->
    shops w !! shop_domain = Some shop ->
    truthy (opt_get is_syncing (order_sync shop)) = true ->
    exists resp w',
      SyncOrders.sync_orders body env w = (Ok resp, w')
      /\ shops w' = shops w /\ orders w' = orders w /\ log w' = log w
      /\ (truthy shop_domain = true ->
          is_Some (SyncOrders.session body) ->
          db_fault env (n_db w) = None ->
          resp = SyncOrders.AlreadyInProgress).
Proof.
  intros env body d shop w Hd Hs Hsync.
  unfold SyncOrders.sync_orders, try_catch. rewrite Hd.
  destruct (SyncOrders.session body) as [session|];
    [|eexists _, _; split; [reflexivity|]; repeat (split; [done|]);
      intros _ [? [=]]].
  destruct (truthy d) eqn:Ed;
    [|eexists _, _; split; [reflexivity|]; repeat (split; [done|]);
      discriminate].
  unfold bind at 1.
  destruct (ShopModel.findOne d env w) as [r w1] eqn:F.
  destruct (findOne_inv _ _ _ _ _ F) as [-> [->|[e ->]]].
  - rewrite Hs, Hsync. eexists _, _. split; [reflexivity|].
    repeat (split; [done|]). done.
  - eexists _, _. split; [reflexivity|]. repeat (split; [done|]).
    intros _ _ Hf. rewrite (findOne_ok _ _ _ Hf) in F. discriminate.
Qed.

Lemma C4_witness :
  exists w',
    SyncOrders.sync_orders the_body (env_of greedy_pages no_faults)
      (world_of shop_syncing) = (Ok SyncOrders.AlreadyInProgress, w')
    /\ shops w' = shops (world_of shop_syncing)
    /\ orders w' = orders (world_of shop_syncing)
    /\ log w' = log (world_of shop_syncing).
Proof.
  destruct (C4_sync_while_syncing_is_refused_without_a_write
              (env_of greedy_pages no_faults) the_body "demo.myshopify.com"
              shop_syncing (world_of shop_syncing) eq_refl eq_refl eq_refl)
    as (resp & w' & H & Hs & Ho & Hl & Hr).
  rewrite (Hr eq_refl (ex_intro _ the_session eq_refl) eq_refl) in H.
  exists w'. repeat split; assumption.
Defined.

(** ** The fetch floor *)

#[global] Instance log_extends_preorder P : PreOrder (log_extends P).
Proof.
  split.
  - intros w. exists []. split; [reflexivity | constructor].
  - intros w1 w2 w3 (e1 & H1 & F1) (e2 & H2 & F2).
    exists (e2 ++ e1)%list. split; [|by apply Forall_app].
    by rewrite H2, H1, app_assoc.
Qed.

Lemma keeps_log_extends P w w' : keeps_log w w' -> log_extends P w w'.
Proof. intros [H _]. exists []. split; [by rewrite H | constructor]. Qed.

Lemma keeps_log_preserves_extends P {A} (m : M A) :
  preserves keeps_log m -> preserves (log_extends P) m.
Proof. apply preserves_weaken, keeps_log_extends. Qed.

Lemma sleep_log_extends (P : Event -> Prop) ms :
  P (EvSleep ms) -> preserves (log_extends P) (sleep ms).
Proof.
  intros HP env w r w' [= _ <-]. exists [EvSleep ms]. split; [reflexivity|].
  by repeat constructor.
Qed.

Lemma http_post_log_extends (P : Event -> Prop) s q :
  P (EvHttp s q) -> preserves (log_extends P) (http_post s q).
Proof.
  intros HP env w r w' [= _ <-]. exists [EvHttp s q]. split; [reflexivity|].
  by repeat constructor.
Qed.

#[global] Hint Resolve sleep_log_extends http_post_log_extends : frame.
#[global] Hint Extern 5 (preserves (log_extends _) _) =>
  (apply keeps_log_preserves_extends; solve [auto with frame]) : frame.

Lemma fetchOrders_loop_log (P : Event -> Prop) fuel s limit max_pages cam :
  (forall cursor,
     P (EvHttp s (ShopifyAPIService.buildOrdersQuery limit cursor cam))) ->
  (forall ms, P (EvSleep ms)) ->
  forall all page has cur,
    preserves (log_extends P)
      (ShopifyAPIService.fetchOrders_loop fuel s limit max_pages cam all page
         has cur).
Proof.
  intros Hq Hs.
  induction fuel as [|fuel IH]; intros all page has cur; simpl.
  - preserves_tac.
  - destruct (has && (page <=? max_pages)%nat); [|preserves_tac].
    preserves_step.
    { apply fetchWithRetry_from_preserves; [typeclasses eauto | |auto with frame].
      unfold ShopifyAPIService.fetchFunction. preserves_tac. }
    preserves_tac.
Qed.

Lemma fetchOrders_log (P : Event -> Prop) s options :
  (forall cursor,
     P (EvHttp s (ShopifyAPIService.buildOrdersQuery
                    (ShopifyAPIService.default 250%nat
                       (ShopifyAPIService.opt_limit options))
                    cursor
                    (match ShopifyAPIService.opt_created_at_min options with
                     | Absent => Null | d => d end)))) ->
  (forall ms, P (EvSleep ms)) ->
  preserves (log_extends P) (ShopifyAPIService.fetchOrders s options).
Proof.
  intros Hq Hs. unfold ShopifyAPIService.fetchOrders.
  pose proof (fetchOrders_loop_log P
                (ShopifyAPIService.default 10%nat
                   (ShopifyAPIService.opt_max_pages options)) s _
                (ShopifyAPIService.default 10%nat
                   (ShopifyAPIService.opt_max_pages options)) _ Hq Hs).
  preserves_tac.
Qed.

(** ** The retry policy in the fetch loop *)





(** ** The sort of the route *)

Lemma sort_insert_Permutation {A} (cmp : A -> A -> Z) x l :
  sort_insert cmp x l ≡ₚ x :: l.
Proof.
  induction l as [|y l IH]; simpl; [done|].
  destruct (0 <? cmp x y); [|done]. rewrite IH. apply Permutation_swap.
Qed.

Lemma Array_sort_Permutation {A} (cmp : A -> A -> Z) l : Array_sort cmp l ≡ₚ l.
Proof.
  induction l as [|a l IH]; simpl; [done|].
  by rewrite sort_insert_Permutation, IH.
Qed.

Lemma arrange_Permutation {A} (ranks : list Z) (l : list A) :
  arrange ranks l ≡ₚ l.
Proof.
  unfold arrange. rewrite Array_sort_Permutation. rewrite snd_zip; [done|].
  rewrite length_app, length_replicate. lia.
Qed.

(** The sort of the route returns the orders it is given, in some order. *)
Lemma sort_newest_first_Permutation env l :
  SyncOrders.sort_newest_first env l ≡ₚ l.
Proof.
  unfold SyncOrders.sort_newest_first.
  destruct (forallb _ l);
    [apply Array_sort_Permutation | apply arrange_Permutation].
Qed.

Lemma sort_newest_first_elem_of env x l :
  x ∈ SyncOrders.sort_newest_first env l -> x ∈ l.
Proof. by rewrite sort_newest_first_Permutation. Qed.

Lemma sort_newest_first_nil env l :
  SyncOrders.sort_newest_first env l = [] -> l = [].
Proof.
  intros H. apply Permutation_nil_r. by rewrite <- H, sort_newest_first_Permutation.
Qed.

Lemma sort_newest_first_parsed env l :
  Forall (fun o => is_Some (Date_getTime env (created_at o))) l ->
  SyncOrders.sort_newest_first env l
  = Array_sort (SyncOrders.compare_created_at env) l.
Proof.
  intros H. unfold SyncOrders.sort_newest_first.
  assert (forallb (fun order =>
                     bool_decide (is_Some (Date_getTime env (created_at order))))
                  l = true) as ->; [|done].
  apply forallb_forall. intros o Hin%list_elem_of_In.
  rewrite Forall_forall in H. by apply bool_decide_eq_true, H.
Qed.

(** ** The shape of a run of the route *)

Lemma store_orders_returns d l c env w :
  exists c' w', SyncOrders.store_orders d l c env w = (Ok c', w').
Proof.
  revert c w. induction l as [|o l IH]; intros c w; simpl.
  - by eexists _, _.
  - unfold bind at 1.
    assert (exists c1 w1, SyncOrders.store_order d o c env w = (Ok c1, w1))
      as (c1 & w1 & ->).
    { unfold SyncOrders.store_order, try_catch.
      match goal with |- context [?m env w] =>
        destruct (m env w) as [[c1|e] w1] end; by eexists _, _. }
    apply IH.
Qed.

Lemma sync_attempt_shape env d s shop w r w' :
  SyncOrders.sync_attempt d s shop env w = (r, w') ->
  Attempt env d s shop w r w'.
Proof.
  unfold SyncOrders.sync_attempt. cbv zeta. fold (fetchOptions_of shop).
  unfold bind at 1.
  destruct (ShopifyAPIService.fetchOrders s (fetchOptions_of shop) env w)
    as [[allOrders|e] w1] eqn:F; [|intros [= <- <-]; by constructor].
  destruct (ShopifyAPIService.filterSBBOrders allOrders) as [|o sbb] eqn:Ef.
  - simpl (length [] =? 0)%nat. cbv iota. unfold bind at 1.
    destruct (now env w1) as [[t|?] w2] eqn:N; [|discriminate N].
    fold (syncData_no_new shop t). unfold bind, ret.
    destruct (ShopModel.updateOrderSync d (syncData_no_new shop t) env w2)
      as [ru w3] eqn:U.
    intros H.
    pose proof (AttemptNoNewOrders env d s shop w allOrders w1 t w2 ru w3
                  F Ef N U) as A.
    destruct ru; injection H as <- <-; exact A.
  - simpl (length (o :: sbb) =? 0)%nat. cbv iota.
    unfold bind at 1, ask at 1. fold no_counts. unfold bind at 1.
    destruct (store_orders_returns d
                (SyncOrders.sort_newest_first env (o :: sbb))
                no_counts env w1) as (c & w2 & S).
    rewrite S.
    destruct (SyncOrders.sort_newest_first env (o :: sbb))
      as [|latestOrder rest] eqn:Es.
    { by apply sort_newest_first_nil in Es. }
    rewrite <- Ef in Es. unfold bind at 1.
    destruct (now env w2) as [[t|?] w3] eqn:N; [|discriminate N].
    fold (syncData_synced shop latestOrder c t). unfold bind, ret.
    destruct (ShopModel.updateOrderSync d
                (syncData_synced shop latestOrder c t) env w3)
      as [ru w4] eqn:U.
    intros H.
    pose proof (AttemptStored env d s shop w allOrders w1 latestOrder rest c
                  w2 t w3 ru w4 F Es S N U) as A.
    destruct ru; injection H as <- <-; exact A.
Qed.

Lemma validated_inv body d s :
  validated body = Some (d, s) ->
  SyncOrders.shop_domain body = Some d /\ SyncOrders.session body = Some s
  /\ truthy d = true.
Proof.
  unfold validated.
  destruct (SyncOrders.shop_domain body) as [d'|]; [|discriminate].
  destruct (SyncOrders.session body) as [s'|]; [|discriminate].
  destruct (truthy d') eqn:T; [|discriminate]. by intros [= <- <-].
Qed.

Lemma sync_orders_shape env body w :
  exists resp w',
    SyncOrders.sync_orders body env w = (Ok resp, w')
    /\ Run env body w resp w'.
Proof.
  unfold SyncOrders.sync_orders, try_catch.
  destruct (validated body) as [[d s]|] eqn:V.
  - destruct (validated_inv _ _ _ V) as (Hd & Hs & Ht).
    rewrite Hd, Hs, Ht. unfold bind at 1.
    destruct (ShopModel.findOne d env w) as [[[shop|]|e] w1] eqn:F.
    + destruct (truthy (opt_get is_syncing (order_sync shop))) eqn:G.
      { eexists _, _. split; [reflexivity|].
        eapply RunAlreadyInProgress; eauto. }
      unfold bind at 1.
      destruct (ShopModel.setSyncingFlag d true env w1) as [[item|e] w2] eqn:L.
      * unfold try_catch.
        destruct (SyncOrders.sync_attempt d s shop env w2)
          as [[resp|e] w3] eqn:A; apply sync_attempt_shape in A.
        { eexists _, _. split; [reflexivity|]. eapply RunCompleted; eauto. }
        unfold bind.
        destruct (ShopModel.setSyncingFlag d false env w3)
          as [[item'|e'] w4] eqn:C.
        { eexists _, _. split; [reflexivity|].
          eapply RunFailedFlagCleared; eauto. }
        { eexists _, _. split; [reflexivity|].
          eapply RunFailedFlagStuck; eauto. }
      * eexists _, _. split; [reflexivity|]. eapply RunFlagNotSet; eauto.
    + eexists _, _. split; [reflexivity|]. eapply RunShopNotFound; eauto.
    + eexists _, _. split; [reflexivity|]. eapply RunReadFailed; eauto.
  - exists SyncOrders.BadRequest, w. split; [|by constructor].
    unfold validated in V.
    destruct (SyncOrders.shop_domain body) as [d'|]; [|reflexivity].
    destruct (SyncOrders.session body) as [s'|]; [|reflexivity].
    destruct (truthy d'); [discriminate | reflexivity].
Qed.

Lemma sync_orders_run env body w resp w' :
  SyncOrders.sync_orders body env w = (Ok resp, w') -> Run env body w resp w'.
Proof.
  intros H. destruct (sync_orders_shape env body w) as (resp' & w'' & E & R).
  rewrite E in H. by injection H as <- <-.
Qed.

(** *** What the steps of a run do to the checkpoint *)

Lemma checkpoint_insert (m : gmap string Shop) w d item :
  shops w = <[d := item]> m -> checkpoint w d = order_sync item.
Proof. intros H. unfold checkpoint. by rewrite H, lookup_insert_eq. Qed.

Lemma checkpoint_same w w' d : shops w' = shops w -> checkpoint w' d = checkpoint w d.
Proof. intros H. unfold checkpoint. by rewrite H. Qed.

Lemma findOne_found env d w shop w1 :
  ShopModel.findOne d env w = (Ok (Some shop), w1) ->
  shops w !! d = Some shop /\ shops w1 = shops w /\ orders w1 = orders w
  /\ log w1 = log w.
Proof.
  intros F. destruct (findOne_inv _ _ _ _ _ F) as [-> [E|[e E]]];
    [|discriminate]. injection E as E. done.
Qed.

Lemma updateOrderSync_ok env d sd w item w' :
  ShopModel.updateOrderSync d sd env w = (Ok item, w') ->
  checkpoint w' d = Some sd /\ orders w' = orders w.
Proof.
  intros U. split; [|eapply updateOrderSync_keeps_orders, U].
  apply updateOrderSync_inv in U as (Hs & Ho & _).
  by rewrite (checkpoint_insert _ _ _ _ Hs).
Qed.

Lemma updateOrderSync_throw env d sd w e w' :
  ShopModel.updateOrderSync d sd env w = (Throw e, w') ->
  shops w' = shops w /\ orders w' = orders w.
Proof.
  intros U. split; [|eapply updateOrderSync_keeps_orders, U].
  by apply updateOrderSync_inv in U.
Qed.

Lemma setSyncingFlag_ok env d b w item w' :
  ShopModel.setSyncingFlag d b env w = (Ok item, w') ->
  syncing w' d = b
  /\ num_or_zero (opt_get total_orders_synced (checkpoint w' d))
     = num_or_zero (opt_get total_orders_synced (checkpoint w d))
  /\ orders w' = orders w.
Proof.
  intros L. apply setSyncingFlag_inv in L as [Ho L].
  destruct L as (shop & os & Hs & Hw & Hos & _ & _ & Hb & _ & _ & _ & _ & Ht & _).
  unfold syncing. rewrite (checkpoint_insert _ _ _ _ Hw), Hos. simpl.
  rewrite Hb, Ht. unfold checkpoint. rewrite Hs. simpl.
  split; [done|]. split; [|done].
  unfold js_or. destruct (opt_get total_orders_synced (order_sync shop)) as [| |z];
    try reflexivity.
  change (truthy (Val z)) with (negb (z =? 0)).
  destruct (Z.eqb_spec z 0) as [->|]; reflexivity.
Qed.

Lemma setSyncingFlag_throw env d b w e w' :
  ShopModel.setSyncingFlag d b env w = (Throw e, w') ->
  shops w' = shops w /\ orders w' = orders w.
Proof. intros L. apply setSyncingFlag_inv in L as [Ho L]. done. Qed.

Lemma now_inv env w t w' :
  now env w = (Ok t, w') ->
  shops w' = shops w /\ orders w' = orders w /\ log w' = log w.
Proof. intros [= _ <-]. done. Qed.

(** An attempt that throws has not written the checkpoint. *)
Lemma Attempt_throw_keeps_shops env d s shop w e w' :
  Attempt env d s shop w (Throw e) w' -> shops w' = shops w.
Proof.
  intros A. inversion A as [e' w1 F | allOrders w1 t w2 r w3 F Ef N U Hr
                            | allOrders w1 latest rest c w2 t w3 r w4 F Es S N U Hr];
    subst.
  - eapply fetchOrders_keeps_shops, F.
  - destruct r as [item|e']; [discriminate|].
    apply updateOrderSync_throw in U as [U _]. apply now_inv in N as [N _].
    rewrite U, N. eapply fetchOrders_keeps_shops, F.
  - destruct r as [item|e']; [discriminate|].
    apply updateOrderSync_throw in U as [U _]. apply now_inv in N as [N _].
    rewrite U, N. etransitivity; [eapply store_orders_keeps_shops, S|].
    eapply fetchOrders_keeps_shops, F.
Qed.

(** An attempt that returns has written a checkpoint with [is_syncing]
    false. *)
Lemma Attempt_ok_clears_flag env d s shop w resp w' :
  Attempt env d s shop w (Ok resp) w' -> syncing w' d = false.
Proof.
  intros A. inversion A as [e' w1 F | allOrders w1 t w2 r w3 F Ef N U Hr
                            | allOrders w1 latest rest c w2 t w3 r w4 F Es S N U Hr];
    subst; destruct r as [item|e']; try discriminate;
    apply updateOrderSync_ok in U as [U _]; unfold syncing; by rewrite U.
Qed.

(** ** The flag after a run *)

(** C2 (as amended): a run that passes the already-syncing guard ends with
    a sync summary, with "no new orders", or with a failure.  After a
    summary or "no new orders" the stored [is_syncing] is false.  After a
    failure it is false as well, the flag being cleared before the error is
    passed on, unless the call [setSyncingFlag(shop_domain, false)] of the
    catch handler itself fails: then the flag stays true and the error of
    that call is what the caller gets. *)
Theorem C2_flag_is_cleared_unless_the_clearing_write_fails :
  forall (env : Env) (body : SyncOrders.Body) (shop_domain : string)
         (session : Session) (shop : Shop) (w : World)
         (resp : SyncOrders.Response) (w' : World),
    validated body = Some (shop_domain, session) ->
    shops w !! shop_domain = Some shop ->
    db_fault env (n_db w) = None ->
    truthy (opt_get is_syncing (order_sync shop)) = false ->
    SyncOrders.sync_orders body env w = (Ok resp, w') ->
    match resp with
    | SyncOrders.Synced _ _ _ _ _ | SyncOrders.NoNewOrders _ _ =>
        syncing w' shop_domain = false
    | SyncOrders.Failed message =>
        syncing w' shop_domain = false
        \/ exists e w3,
             ShopModel.setSyncingFlag shop_domain false env w3 = (Throw e, w')
             /\ message = err_message e
             /\ syncing w' shop_domain = true
    | _ => False
    end.
Proof.
  intros env body d s shop w resp w' V Hs Hf G H.
  apply sync_orders_run in H.
  pose proof (findOne_ok env d w Hf) as F0. rewrite Hs in F0.
  inversion H as [V' | d' s' e w1 V' F | d' s' w1 V' F
                  | d' s' shop' w1 V' F G'
                  | d' s' shop' w1 e w2 V' F G' L
                  | d' s' shop' w1 item w2 resp' w3 V' F G' L A
                  | d' s' shop' w1 item w2 e w3 item' w4 V' F G' L A C
                  | d' s' shop' w1 item w2 e w3 e' w4 V' F G' L A C];
    subst; rewrite V in V'; try discriminate V'; injection V' as <- <-;
    rewrite F0 in F; try discriminate F; injection F as <- <-.
  - congruence.
  - left. apply setSyncingFlag_throw in L as [L _].
    unfold syncing. rewrite (checkpoint_same _ _ _ L). unfold checkpoint.
    simpl. rewrite Hs. exact G.
  - pose proof (Attempt_ok_clears_flag _ _ _ _ _ _ _ A) as Hc.
    inversion A; subst;
      match goal with H : match ?r with _ => _ end = Ok _ |- _ =>
        destruct r; [injection H as <-|discriminate H] end; exact Hc.
  - left. by apply setSyncingFlag_ok in C as [C _].
  - right. exists e', w3. split; [done|]. split; [done|].
    apply setSyncingFlag_throw in C as [C _].
    apply Attempt_throw_keeps_shops in A.
    apply setSyncingFlag_ok in L as [L _].
    unfold syncing in *. by rewrite (checkpoint_same _ _ _ C), (checkpoint_same _ _ _ A).
Qed.

(** C2, as first stated, fails: the shop passes the guard, the source
    cannot be reached, and the storage call at which the catch handler
    re-reads the shop (the fourth storage call of the run) fails.  The run
    ends in a failure and the stored flag is still true. *)
Lemma C2_counterexample_clearing_write_fails :
  syncing (world_of the_shop) "demo.myshopify.com" = false
  /\ exists w',
       SyncOrders.sync_orders the_body
         (env_of unreachable_source (fault_at 3)) (world_of the_shop)
       = (Ok (SyncOrders.Failed "storage is down"), w')
       /\ syncing w' "demo.myshopify.com" = true.
Proof.
  split; [reflexivity|]. eexists. split; [vm_compute; reflexivity|].
  reflexivity.
Qed.

Lemma C2_witness :
  exists w',
    SyncOrders.sync_orders the_body (env_of one_page no_faults)
      (world_of the_shop)
    = (Ok (SyncOrders.Synced 1 0 1 (1000 # 100) "2024-06-01T00:00:02Z"), w')
    /\ syncing w' "demo.myshopify.com" = false.
Proof.
  eexists. split; [vm_compute; reflexivity|].
  match goal with
  | |- syncing ?w' _ = false =>
      refine (C2_flag_is_cleared_unless_the_clearing_write_fails
                (env_of one_page no_faults) the_body "demo.myshopify.com"
                the_session the_shop (world_of the_shop)
                (SyncOrders.Synced 1 0 1 (1000 # 100) "2024-06-01T00:00:02Z")
                w' eq_refl eq_refl eq_refl eq_refl _)
  end.
  vm_compute; reflexivity.
Defined.

(** ** The high-water mark *)

Lemma sort_insert_not_nil {A} (cmp : A -> A -> Z) x l : sort_insert cmp x l ≠ [].
Proof. destruct l as [|y l]; simpl; [done|]. by destruct (0 <? cmp x y). Qed.

(** After the sort by [compare_created_at] the first order is one of the
    given orders and none of them is newer, when all timestamps parse. *)
Lemma Array_sort_newest_first env (l : list Order) latest rest :
  Forall (fun o => is_Some (created_time env o)) l ->
  Array_sort (SyncOrders.compare_created_at env) l = latest :: rest ->
  latest ∈ l
  /\ forall o, o ∈ l ->
       exists t tl, created_time env o = Some t
                    /\ created_time env latest = Some tl /\ t <= tl.
Proof.
  revert latest rest. induction l as [|a l IH]; intros latest rest Hv Hs;
    [discriminate|].
  apply Forall_cons in Hv as [[ta Ha] Hv]. simpl in Hs.
  destruct (Array_sort (SyncOrders.compare_created_at env) l) as [|h tl] eqn:E.
  - assert (l = []) as ->.
    { destruct l as [|b l]; [done|]. simpl in E.
      by apply sort_insert_not_nil in E. }
    simpl in Hs. injection Hs as <- <-. split; [by left|].
    intros o Ho. apply list_elem_of_singleton in Ho as ->.
    exists ta, ta. split; [done|]. split; [done|]. lia.
  - destruct (IH h tl Hv eq_refl) as [Hin Hmax].
    destruct (Hmax h Hin) as (th & ? & Hh & _ & _).
    simpl in Hs. unfold SyncOrders.compare_created_at in Hs at 1.
    unfold created_time in *. rewrite Hh, Ha in Hs.
    destruct (Z.ltb_spec 0 (th - ta)) as [Hlt|Hge]; injection Hs as <- <-.
    + split; [by right|]. intros o Ho. apply elem_of_cons in Ho as [->|Ho].
      * exists ta, th. split; [done|]. split; [done|]. lia.
      * apply Hmax, Ho.
    + split; [by left|]. intros o Ho. apply elem_of_cons in Ho as [->|Ho].
      * exists ta, ta. split; [done|]. split; [done|]. lia.
      * destruct (Hmax o Ho) as (t & t' & Ht & Ht' & Hle).
        exists t, ta. split; [done|]. split; [done|].
        rewrite Hh in Ht'. injection Ht' as <-. lia.
Qed.

(** C3 (as amended): a run that answers with a sync summary, and whose
    marker-tagged orders (the orders of the run's fetch that
    [filterSBBOrders] keeps, wherever pagination returned them) all have a
    creation timestamp that parses as a date.  The checkpoint's
    [last_synced_order_created_at] is then the creation timestamp of a
    tagged order [latestOrder] after which no tagged order of the fetch was
    created, and [last_synced_order_id] and [last_synced_order_number] are
    those of that same order. *)
Theorem C3_high_water_mark_is_the_newest_tagged_order :
  forall (env : Env) (body : SyncOrders.Body) (shop_domain : string)
         (session : Session) (shop : Shop) (w : World)
         (n dup total : Z) (revenue : Q) (t : string) (w' : World)
         (allOrders : list Order),
    validated body = Some (shop_domain, session) ->
    shops w !! shop_domain = Some shop ->
    SyncOrders.sync_orders body env w
      = (Ok (SyncOrders.Synced n dup total revenue t), w') ->
    fst (ShopifyAPIService.fetchOrders session (fetchOptions_of shop) env
           (snd (ShopModel.setSyncingFlag shop_domain true env (db_tick w))))
      = Ok allOrders ->
    Forall (fun o => is_Some (created_time env o))
           (ShopifyAPIService.filterSBBOrders allOrders) ->
    exists latestOrder os tl,
      latestOrder ∈ ShopifyAPIService.filterSBBOrders allOrders
      /\ created_time env latestOrder = Some tl
      /\ (forall o, o ∈ ShopifyAPIService.filterSBBOrders allOrders ->
            exists to, created_time env o = Some to /\ to <= tl)
      /\ checkpoint w' shop_domain = Some os
      /\ last_synced_order_created_at os = Val (created_at latestOrder)
      /\ last_synced_order_id os = Val (id latestOrder)
      /\ last_synced_order_number os
         = Val (js_or (order_number latestOrder) (order_name latestOrder)).
Proof.
  intros env body d s shop w n dup total revenue t w' allOrders V Hs H Hfetch
    Hparse.
  apply sync_orders_run in H.
  inversion H as [V' | d' s' e w1 V' F | d' s' w1 V' F
                  | d' s' shop' w1 V' F G'
                  | d' s' shop' w1 e w2 V' F G' L
                  | d' s' shop' w1 item w2 resp' w3 V' F G L A
                  | d' s' shop' w1 item w2 e w3 item' w4 V' F G' L A C
                  | d' s' shop' w1 item w2 e w3 e' w4 V' F G' L A C];
    subst.
  rewrite V in V'. injection V' as <- <-.
  pose proof (findOne_inv _ _ _ _ _ F) as [-> _].
  apply findOne_found in F as (Hs' & _).
  rewrite Hs in Hs'. injection Hs' as <-.
  rewrite L in Hfetch. simpl in Hfetch.
  inversion A as [e' w1' F' | allOrders' w1' t' w2' r w3' F' Ef N U Hr
                  | allOrders' w1' latest rest c w2' t' w3' r w4' F' Es S N U Hr];
    subst; destruct r as [item'|e']; try discriminate Hr.
  rewrite F' in Hfetch. injection Hfetch as ->.
  apply updateOrderSync_ok in U as [U _].
  rewrite (sort_newest_first_parsed _ _ Hparse) in Es.
  destruct (Array_sort_newest_first env _ latest rest Hparse Es)
    as [Hin Hmax].
  destruct (Hmax latest Hin) as (tl & ? & Hl & _ & _).
  exists latest, (syncData_synced shop latest c t'), tl.
  split; [done|]. split; [done|]. split.
  { intros o Ho. destruct (Hmax o Ho) as (to & tl' & Hto & Htl & Hle).
    exists to. split; [done|]. congruence. }
  split; [exact U|]. done.
Qed.

(** C3, as first stated, fails: the source returns the tagged order 1001 of
    1 January and the untagged order 1002 of 2 January.  The run succeeds
    with one new order and the checkpoint holds 1 January, which is not the
    maximum creation time among the orders fetched: order 1002 is newer. *)
Lemma C3_counterexample_newer_untagged_order :
  exists w' item w1 allOrders w2 o os,
    SyncOrders.sync_orders the_body (env_of one_page no_faults)
      (world_of the_shop)
    = (Ok (SyncOrders.Synced 1 0 1 (1000 # 100) "2024-06-01T00:00:02Z"), w')
    /\ ShopModel.setSyncingFlag "demo.myshopify.com" true
         (env_of one_page no_faults) (db_tick (world_of the_shop))
       = (Ok item, w1)
    /\ ShopifyAPIService.fetchOrders the_session (fetchOptions_of the_shop)
         (env_of one_page no_faults) w1 = (Ok allOrders, w2)
    /\ o ∈ allOrders
    /\ checkpoint w' "demo.myshopify.com" = Some os
    /\ last_synced_order_created_at os = Val "2024-01-01T00:00:00Z"
    /\ created_time (env_of one_page no_faults) o = Some 1704153600000
    /\ Date_getTime (env_of one_page no_faults) "2024-01-01T00:00:00Z"
       = Some 1704067200000
    /\ 1704067200000 < 1704153600000.
Proof.
  eexists _, _, _, _, _, _, _.
  split; [vm_compute; reflexivity|].
  split; [vm_compute; reflexivity|].
  split; [vm_compute; reflexivity|].
  split; [right; left|].
  split; [vm_compute; reflexivity|].
  split; [reflexivity|].
  split; [vm_compute; reflexivity|].
  split; [vm_compute; reflexivity|]. reflexivity.
Qed.

Lemma C3_witness :
  exists latestOrder os tl,
    latestOrder ∈ ShopifyAPIService.filterSBBOrders three_orders_fetched
    /\ created_time (env_of three_orders no_faults) latestOrder = Some tl
    /\ (forall o, o ∈ ShopifyAPIService.filterSBBOrders three_orders_fetched ->
          exists to,
            created_time (env_of three_orders no_faults) o = Some to
            /\ to <= tl)
    /\ checkpoint
         (snd (SyncOrders.sync_orders the_body (env_of three_orders no_faults)
                 (world_of the_shop)))
         "demo.myshopify.com" = Some os
    /\ last_synced_order_created_at os = Val (created_at latestOrder)
    /\ last_synced_order_id os = Val (id latestOrder)
    /\ last_synced_order_number os
       = Val (js_or (order_number latestOrder) (order_name latestOrder)).
Proof.
  refine (C3_high_water_mark_is_the_newest_tagged_order
            (env_of three_orders no_faults) the_body "demo.myshopify.com"
            the_session the_shop (world_of the_shop) _ _ _ _ _
            (snd (SyncOrders.sync_orders the_body
                    (env_of three_orders no_faults) (world_of the_shop)))
            three_orders_fetched eq_refl eq_refl _ _ _).
  - vm_compute; reflexivity.
  - vm_compute; reflexivity.
  - apply (bool_decide_unpack _). vm_compute. exact I.
Defined.

(** ** The running total *)

Lemma create_inv env d w r w' :
  OrderModel.create d env w = (r, w') ->
  match r with
  | Ok (Some o) =>
      orders w !! order_id o = None
      /\ orders w' = <[order_id o := o]> (orders w)
  | _ => orders w' = orders w
  end.
Proof.
  unfold OrderModel.create, try_catch, bind.
  destruct (truthy (od_created_at d)); unfold ret, now; simpl;
    unfold OrderModel.send_PutCommand; simpl;
    (destruct (db_fault env (n_db w)) as [e|];
     [destruct (String.eqb (err_name e) _); intros [= <- <-]; done|]);
    (destruct (orders w !! od_order_id d) eqn:E; simpl;
     intros [= <- <-]; done).
Qed.

(** One turn of the store loop, by what it finds: the list of line items,
    the price, the answer of the storage and the orders table. *)
Lemma store_order_cases env d o c w :
  exists c' w',
    SyncOrders.store_order d o c env w = (Ok c', w')
    /\ shops w' = shops w /\ log w' = log w /\ n_http w' = n_http w
    /\ match line_items o, order_price env o with
       | Some items, Some q =>
           n_db w' = S (n_db w)
           /\ match db_fault env (n_db w) with
              | Some e =>
                  orders w' = orders w
                  /\ c' = if String.eqb (err_name e)
                                        "ConditionalCheckFailedException"
                          then {| SyncOrders.newOrdersCount :=
                                    SyncOrders.newOrdersCount c;
                                  SyncOrders.duplicatesSkipped :=
                                    SyncOrders.duplicatesSkipped c + 1;
                                  SyncOrders.totalRevenue :=
                                    SyncOrders.totalRevenue c |}
                          else c
              | None =>
                  match orders w !! id o with
                  | Some _ =>
                      orders w' = orders w
                      /\ c' = {| SyncOrders.newOrdersCount :=
                                   SyncOrders.newOrdersCount c;
                                 SyncOrders.duplicatesSkipped :=
                                   SyncOrders.duplicatesSkipped c + 1;
                                 SyncOrders.totalRevenue :=
                                   SyncOrders.totalRevenue c |}
                  | None =>
                      exists record,
                        orders w' = <[id o := record]> (orders w)
                        /\ order_id record = id o
                        /\ so_shop_domain record = d
                        /\ has_sbb_items record = true
                        /\ so_total_price record = q
                        /\ sbb_session_ids record
                           = ShopifyAPIService.extractSessionIds o
                        /\ c' = {| SyncOrders.newOrdersCount :=
                                     SyncOrders.newOrdersCount c + 1;
                                   SyncOrders.duplicatesSkipped :=
                                     SyncOrders.duplicatesSkipped c;
                                   SyncOrders.totalRevenue :=
                                     number_add env (SyncOrders.totalRevenue c)
                                                q |}
                  end
              end
       | _, _ => n_db w' = n_db w /\ orders w' = orders w /\ c' = c
       end.
Proof.
  unfold SyncOrders.store_order, try_catch. unfold bind at 1, ask at 1.
  fold (order_price env o). unfold bind at 1.
  destruct (line_items o) as [items|];
    [|unfold throw, ret; by eexists _, _].
  unfold ret at 1. unfold bind at 1.
  destruct (order_price env o) as [q|].
  2:{ unfold OrderModel.create_not_a_number, try_catch, bind, now, throw, ret.
      destruct (truthy _); simpl; by eexists _, _. }
  unfold OrderModel.create, try_catch, bind, now, ret, throw,
    OrderModel.send_PutCommand, ask. simpl.
  destruct (truthy (Val (created_at o))); simpl;
    (destruct (db_fault env (n_db w)) as [e|]; simpl;
     [destruct (String.eqb (err_name e) _); simpl; by eexists _, _|]);
    (destruct (orders w !! id o) as [so|]; simpl;
     [by eexists _, _|]);
    eexists _, _; (split; [reflexivity|]); simpl; repeat (split; [done|]);
    eexists; repeat (split; [reflexivity|]); reflexivity.
Qed.

Lemma store_order_count env d o c w c' w' :
  SyncOrders.store_order d o c env w = (Ok c', w') ->
  stored_orders w' = stored_orders w
                     + (SyncOrders.newOrdersCount c'
                        - SyncOrders.newOrdersCount c)
  /\ SyncOrders.newOrdersCount c <= SyncOrders.newOrdersCount c'.
Proof.
  intros S. destruct (store_order_cases env d o c w)
    as (c1 & w1 & S1 & _ & _ & _ & H).
  rewrite S1 in S. injection S as <- <-. unfold stored_orders.
  destruct (line_items o); [|destruct H as (_ & -> & ->); lia].
  destruct (order_price env o); [|destruct H as (_ & -> & ->); lia].
  destruct H as [_ H]. destruct (db_fault env (n_db w)) as [e|].
  { destruct H as [-> ->]. destruct (String.eqb _ _); simpl; lia. }
  destruct (orders w !! id o) eqn:E.
  { destruct H as [-> ->]. simpl. lia. }
  destruct H as (rec & -> & _ & _ & _ & _ & _ & ->).
  rewrite map_size_insert_None by done. simpl. lia.
Qed.

Lemma store_orders_count env d l c w c' w' :
  SyncOrders.store_orders d l c env w = (Ok c', w') ->
  stored_orders w' = stored_orders w
                     + (SyncOrders.newOrdersCount c'
                        - SyncOrders.newOrdersCount c)
  /\ SyncOrders.newOrdersCount c <= SyncOrders.newOrdersCount c'.
Proof.
  revert c w. induction l as [|o l IH]; intros c w; simpl.
  - intros [= <- <-]. lia.
  - unfold bind at 1.
    destruct (SyncOrders.store_order d o c env w) as [[c1|e] w1] eqn:S;
      [|discriminate].
    intros H. apply IH in H. apply store_order_count in S. lia.
Qed.

Lemma stored_orders_same w w' : orders w' = orders w -> stored_orders w' = stored_orders w.
Proof. unfold stored_orders. by intros ->. Qed.

(** What an attempt does to the total and to the orders table. *)
Lemma Attempt_total env d s shop w r w' :
  Attempt env d s shop w r w' ->
  num_or_zero (opt_get total_orders_synced (order_sync shop))
  = total_synced w d ->
  stored_orders w <= stored_orders w'
  /\ match r with
     | Ok resp =>
         total_synced w' d = total_synced w d + new_orders_of resp
         /\ 0 <= new_orders_of resp
         /\ stored_orders w' = stored_orders w + new_orders_of resp
         /\ match resp with
            | SyncOrders.Synced _ _ total _ _
            | SyncOrders.NoNewOrders total _ => total = total_synced w' d
            | _ => False
            end
     | Throw _ => total_synced w' d = total_synced w d
     end.
Proof.
  intros A Ht.
  inversion A as [e' w1 F | allOrders w1 t w2 r0 w3 F Ef N U Hr
                  | allOrders w1 latest rest c w2 t w3 r0 w4 F Es S N U Hr];
    subst.
  - pose proof (fetchOrders_only_network _ _ _ _ _ _ F) as (Hs & Ho & _).
    rewrite (stored_orders_same _ _ Ho). split; [lia|].
    unfold total_synced. by rewrite (checkpoint_same _ _ _ Hs).
  - pose proof (fetchOrders_only_network _ _ _ _ _ _ F) as (Hs & Ho & _).
    apply now_inv in N as (Ns & No & _).
    destruct r0 as [item|e].
    + apply updateOrderSync_ok in U as [U Uo].
      rewrite (stored_orders_same w' w) by congruence.
      split; [lia|]. unfold total_synced at 1 3. rewrite U. simpl.
      assert (E : num_or_zero
                    (total_orders_synced
                       (ShopifyAPIService.default empty_object (order_sync shop)))
                  = total_synced w d).
      { rewrite <- Ht. by destruct (order_sync shop). }
      rewrite E. rewrite Ht. split; [lia|]. split; [lia|]. split; [lia|]. done.
    + apply updateOrderSync_throw in U as [U Uo].
      rewrite (stored_orders_same w' w) by congruence.
      split; [lia|]. unfold total_synced.
      rewrite (checkpoint_same w' w) by congruence. done.
  - pose proof (fetchOrders_only_network _ _ _ _ _ _ F) as (Hs & Ho & _).
    apply now_inv in N as (Ns & No & _).
    pose proof (store_orders_keeps_shops _ _ _ _ _ _ _ S) as Ss.
    apply store_orders_count in S as [Sc Sn]. simpl in Sc, Sn.
    rewrite (stored_orders_same _ _ Ho) in Sc.
    destruct r0 as [item|e].
    + apply updateOrderSync_ok in U as [U Uo].
      assert (Hw : stored_orders w' = stored_orders w2)
        by (apply stored_orders_same; congruence).
      split; [lia|]. unfold total_synced at 1 3. rewrite U. simpl.
      rewrite Ht. split; [lia|]. split; [lia|]. split; [lia|]. done.
    + apply updateOrderSync_throw in U as [U Uo].
      assert (Hw : stored_orders w' = stored_orders w2)
        by (apply stored_orders_same; congruence).
      split; [lia|]. unfold total_synced.
      rewrite (checkpoint_same w' w); [done|]. unfold keeps_shops in Ss.
      congruence.
Qed.

(** C7 (as amended): one run of the route, from the state [w] that the
    previous run left to the state [w'] it leaves.  The stored total after
    the run is the total before plus the new-orders count the run reports
    (none unless it answers with a sync summary), so the total never
    decreases, and "no new orders", "already in progress" and failed runs
    leave it unchanged.  In a run that answers with a summary or with "no
    new orders" that count is the number of records the run added to the
    orders table, and the total reported is the stored one.  (A failed run
    may have added orders that no total counts.) *)
Theorem C7_total_grows_by_the_new_orders_of_a_completed_run :
  forall (env : Env) (body : SyncOrders.Body) (shop_domain : string)
         (w : World) (resp : SyncOrders.Response) (w' : World),
    SyncOrders.shop_domain body = Some shop_domain ->
    SyncOrders.sync_orders body env w = (Ok resp, w') ->
    total_synced w' shop_domain
      = total_synced w shop_domain + new_orders_of resp
    /\ 0 <= new_orders_of resp
    /\ total_synced w shop_domain <= total_synced w' shop_domain
    /\ stored_orders w <= stored_orders w'
    /\ match resp with
       | SyncOrders.Synced _ _ total _ _ | SyncOrders.NoNewOrders total _ =>
           stored_orders w' = stored_orders w + new_orders_of resp
           /\ total = total_synced w' shop_domain
       | SyncOrders.Failed _ => True
       | _ => stored_orders w' = stored_orders w
       end.
Proof.
  intros env body d w resp w' Hd H.
  apply sync_orders_run in H.
  assert (Hsame : forall w1 : World,
            shops w1 = shops w -> orders w1 = orders w ->
            total_synced w1 d = total_synced w d
            /\ stored_orders w1 = stored_orders w).
  { intros w1 Hs Ho. unfold total_synced.
    by rewrite (checkpoint_same _ _ _ Hs), (stored_orders_same _ _ Ho). }
  assert (Hv : forall d' s', validated body = Some (d', s') -> d' = d).
  { intros d' s' V. apply validated_inv in V as (V & _). congruence. }
  inversion H as [V | d' s' e w1 V F | d' s' w1 V F
                  | d' s' shop w1 V F G
                  | d' s' shop w1 e w2 V F G L
                  | d' s' shop w1 item w2 resp' w3 V F G L A
                  | d' s' shop w1 item w2 e w3 item' w4 V F G L A C
                  | d' s' shop w1 item w2 e w3 e' w4 V F G L A C];
    subst; try (apply Hv in V as ->).
  - simpl. lia.
  - apply findOne_inv in F as [-> _].
    destruct (Hsame (db_tick w) eq_refl eq_refl) as [-> ->]. simpl. lia.
  - apply findOne_inv in F as [-> _].
    destruct (Hsame (db_tick w) eq_refl eq_refl) as [-> ->]. simpl. lia.
  - apply findOne_inv in F as [-> _].
    destruct (Hsame (db_tick w) eq_refl eq_refl) as [-> ->]. simpl. lia.
  - apply findOne_inv in F as [-> _].
    apply setSyncingFlag_throw in L as [Ls Lo].
    destruct (Hsame w' Ls Lo) as [-> ->]. simpl. lia.
  - apply findOne_found in F as (Hs & Fs & Fo & _).
    apply setSyncingFlag_ok in L as (_ & Lt & Lo).
    fold (total_synced w2 d) (total_synced w1 d) in Lt.
    destruct (Hsame w1 Fs Fo) as [Ht1 Ho1].
    assert (Ht : num_or_zero (opt_get total_orders_synced (order_sync shop))
                 = total_synced w2 d).
    { rewrite Lt, Ht1. unfold total_synced, checkpoint. by rewrite Hs. }
    pose proof (Attempt_total _ _ _ _ _ _ _ A Ht) as (Ao & At & An & Aso & Ar).
    rewrite (stored_orders_same _ _ Lo), Ho1 in Ao, Aso.
    rewrite Lt, Ht1 in At.
    split; [done|]. split; [done|]. split; [lia|]. split; [done|].
    destruct resp; try done.
  - apply findOne_found in F as (Hs & Fs & Fo & _).
    apply setSyncingFlag_ok in L as (_ & Lt & Lo).
    fold (total_synced w2 d) (total_synced w1 d) in Lt.
    destruct (Hsame w1 Fs Fo) as [Ht1 Ho1].
    assert (Ht : num_or_zero (opt_get total_orders_synced (order_sync shop))
                 = total_synced w2 d).
    { rewrite Lt, Ht1. unfold total_synced, checkpoint. by rewrite Hs. }
    pose proof (Attempt_total _ _ _ _ _ _ _ A Ht) as (Ao & At).
    apply setSyncingFlag_ok in C as (_ & Ct & Co).
    fold (total_synced w' d) (total_synced w3 d) in Ct.
    rewrite (stored_orders_same _ _ Lo), Ho1 in Ao.
    rewrite (stored_orders_same _ _ Co). simpl.
    split; [lia|]. split; [lia|]. split; [lia|]. done.
  - apply findOne_found in F as (Hs & Fs & Fo & _).
    apply setSyncingFlag_ok in L as (_ & Lt & Lo).
    fold (total_synced w2 d) (total_synced w1 d) in Lt.
    destruct (Hsame w1 Fs Fo) as [Ht1 Ho1].
    assert (Ht : num_or_zero (opt_get total_orders_synced (order_sync shop))
                 = total_synced w2 d).
    { rewrite Lt, Ht1. unfold total_synced, checkpoint. by rewrite Hs. }
    pose proof (Attempt_total _ _ _ _ _ _ _ A Ht) as (Ao & At).
    apply setSyncingFlag_throw in C as (Cs & Co).
    assert (Ct : total_synced w' d = total_synced w3 d).
    { unfold total_synced. by rewrite (checkpoint_same _ _ _ Cs). }
    rewrite (stored_orders_same _ _ Lo), Ho1 in Ao.
    rewrite (stored_orders_same _ _ Co). simpl.
    split; [lia|]. split; [lia|]. split; [lia|]. done.
Qed.

(** C7, as first stated, fails: the source returns one tagged order, which
    is stored, and then the write of the new checkpoint (the fifth storage
    call of the run) fails.  The run ends in a failure with the flag
    cleared; the orders table has one record more, and the total is as
    before. *)
Lemma C7_counterexample_checkpoint_write_fails :
  exists w',
    SyncOrders.sync_orders the_body (env_of one_page (fault_at 4))
      (world_of the_shop)
    = (Ok (SyncOrders.Failed "storage is down"), w')
    /\ stored_orders (world_of the_shop) = 0
    /\ stored_orders w' = 1
    /\ total_synced (world_of the_shop) "demo.myshopify.com" = 0
    /\ total_synced w' "demo.myshopify.com" = 0
    /\ syncing w' "demo.myshopify.com" = false.
Proof.
  eexists. split; [vm_compute; reflexivity|].
  repeat split; vm_compute; reflexivity.
Qed.

Lemma C7_witness :
  total_synced synced_world "demo.myshopify.com"
    = total_synced (world_of the_shop) "demo.myshopify.com" + 1
  /\ 0 <= 1
  /\ total_synced (world_of the_shop) "demo.myshopify.com"
     <= total_synced synced_world "demo.myshopify.com"
  /\ stored_orders (world_of the_shop) <= stored_orders synced_world
  /\ stored_orders synced_world = stored_orders (world_of the_shop) + 1
  /\ 1 = total_synced synced_world "demo.myshopify.com".
Proof.
  refine (C7_total_grows_by_the_new_orders_of_a_completed_run
            (env_of one_page no_faults) the_body "demo.myshopify.com"
            (world_of the_shop)
            (SyncOrders.Synced 1 0 1 (1000 # 100) "2024-06-01T00:00:02Z")
            synced_world eq_refl _).
  vm_compute; reflexivity.
Defined.

(** ** The first request and the floor of every request *)

Lemma fetchWithRetry_from_first_request s q m left env w r w' :
  ShopifyAPIService.fetchWithRetry_from (ShopifyAPIService.fetchFunction s q)
    m (S left) env w = (r, w') ->
  exists evs, log w' = (evs ++ EvHttp s q :: log w)%list.
Proof.
  simpl. unfold try_catch, bind. rewrite fetchFunction_outcome.
  destruct (outcome_result (fetch env (n_http w) s q)) as [resp|e].
  - intros [= <- <-]. by exists [].
  - intros H.
    assert (P : preserves (log_extends (fun _ => True))
                  (ShopifyAPIService.fetchWithRetry_from
                     (ShopifyAPIService.fetchFunction s q) m left)).
    { apply fetchWithRetry_from_preserves; [typeclasses eauto | |auto with frame].
      unfold ShopifyAPIService.fetchFunction. preserves_tac. }
    destruct (includes "429" (err_message e));
      [destruct (m - left <? m)%nat|];
      try (injection H as <- <-; by exists []).
    unfold sleep in H. apply P in H as (evs & H & _). simpl in H.
    exists (evs ++ [EvSleep (2 * 1000)])%list.
    by rewrite H, <- app_assoc.
Qed.

Lemma fetchOrders_first_request s options env w r w' :
  ShopifyAPIService.fetchOrders s options env w = (r, w') ->
  (1 <= ShopifyAPIService.default 10 (ShopifyAPIService.opt_max_pages options))%nat ->
  exists evs cam,
    log w' = (evs ++ EvHttp s (ShopifyAPIService.buildOrdersQuery
                                 (ShopifyAPIService.default 250%nat
                                    (ShopifyAPIService.opt_limit options))
                                 None cam) :: log w)%list.
Proof.
  unfold ShopifyAPIService.fetchOrders.
  set (max_pages := ShopifyAPIService.default 10%nat _).
  set (limit := ShopifyAPIService.default 250%nat _).
  set (cam := match ShopifyAPIService.opt_created_at_min options with
              | Absent => Null | d => d end).
  intros H Hm.
  assert (exists r1 w1 evs,
            ShopifyAPIService.fetchOrders_loop max_pages s limit max_pages cam
              [] 1%nat true None env w = (r1, w1)
            /\ w' = w1
            /\ log w1 = (evs ++ EvHttp s (ShopifyAPIService.buildOrdersQuery
                                           limit None cam) :: log w)%list)
    as (r1 & w1 & evs & _ & -> & Hl).
  { unfold try_catch, bind in H.
    destruct (ShopifyAPIService.fetchOrders_loop max_pages s limit max_pages
                cam [] 1%nat true None env w) as [r1 w1] eqn:E.
    exists r1, w1.
    assert (w' = w1) as ->.
    { destruct r1 as [[l|]|e]; unfold ret, throw in H; by injection H as _ <-. }
    destruct max_pages as [|k]; [lia|]. simpl in E.
    unfold bind at 1 in E. unfold ShopifyAPIService.fetchWithRetry in E.
    destruct (ShopifyAPIService.fetchWithRetry_from _ 3 3 env w)
      as [r2 w2] eqn:F.
    apply fetchWithRetry_from_first_request in F as (evs & F).
    assert (P : forall all page has cur,
              preserves (log_extends (fun _ => True))
                (ShopifyAPIService.fetchOrders_loop k s limit (S k) cam all
                   page has cur)).
    { apply fetchOrders_loop_log; done. }
    destruct r2 as [[resp|]|e]; unfold throw in E;
      try (injection E as _ <-; by exists evs).
    destruct (errors resp); [injection E as _ <-; by exists evs|].
    destruct (data_orders resp) as [od|];
      [|injection E as _ <-; by exists evs].
    assert (Q : preserves (log_extends (fun _ => True))
                  (if pageInfo_hasNextPage od then sleep 500 else ret ())).
    { preserves_tac. }
    unfold bind in E.
    destruct ((if pageInfo_hasNextPage od then sleep 500 else ret ()) env w2)
      as [[[]|e] w3] eqn:Sl; apply Q in Sl as (ev1 & Sl & _).
    - apply P in E as (ev2 & E & _). exists (ev2 ++ ev1 ++ evs)%list.
      rewrite E, Sl, F. by rewrite <- !app_assoc.
    - injection E as _ <-. exists (ev1 ++ evs)%list.
      rewrite Sl, F. by rewrite <- !app_assoc. }
  by exists evs, cam.
Qed.

Lemma Attempt_log env d s shop w r w' :
  Attempt env d s shop w r w' ->
  exists evs q,
    log w' = (evs ++ EvHttp s q :: log w)%list
    /\ Forall (asks_from s 250 (floor_of (SyncOrders.syncStartDate shop)))
              (evs ++ [EvHttp s q]).
Proof.
  set (P := asks_from s 250 (floor_of (SyncOrders.syncStartDate shop))).
  assert (HF : forall allOrders w1,
            ShopifyAPIService.fetchOrders s (fetchOptions_of shop) env w
              = (allOrders, w1) ->
            exists evs q, log w1 = (evs ++ EvHttp s q :: log w)%list
                          /\ Forall P (evs ++ [EvHttp s q])).
  { intros r1 w1 F.
    destruct (fetchOrders_first_request _ _ _ _ _ _ F) as (evs & cam & Hl);
      [simpl; lia|].
    exists evs, (ShopifyAPIService.buildOrdersQuery 250 None cam).
    split; [exact Hl|].
    eapply (fetchOrders_log P) in F as (evs' & Hl' & HP).
    - rewrite Hl in Hl'.
      replace (evs ++ EvHttp s _ :: log w)%list
        with ((evs ++ [EvHttp s (ShopifyAPIService.buildOrdersQuery 250 None cam)])
                ++ log w)%list in Hl' by (by rewrite <- app_assoc).
      apply app_inv_tail in Hl'. by rewrite Hl'.
    - intros cursor. split; [done|]. split; [done|].
      unfold floor_of. simpl. by destruct (SyncOrders.syncStartDate shop).
    - done. }
  intros A.
  inversion A as [e' w1 F | allOrders w1 t w2 r0 w3 F Ef N U Hr
                  | allOrders w1 latest rest c w2 t w3 r0 w4 F Es S N U Hr];
    subst.
  - by apply HF in F.
  - apply HF in F as (evs & q & Hl & HP). exists evs, q. split; [|done].
    apply now_inv in N as (_ & _ & N).
    apply updateOrderSync_keeps_log in U as [U _]. congruence.
  - apply HF in F as (evs & q & Hl & HP). exists evs, q. split; [|done].
    apply now_inv in N as (_ & _ & N).
    apply updateOrderSync_keeps_log in U as [U _].
    apply store_orders_keeps_log in S as [S _]. congruence.
Qed.

(** C6: the requests of a run all ask, with pages of 250 orders, for the
    orders created at or after one floor.  For a shop whose checkpoint has
    no [last_synced_order_created_at] (a first sync) the floor is the
    shop's own [created_at]; otherwise it is the checkpoint's
    [last_synced_order_created_at].  A run that answers with a summary or
    with "no new orders" has issued at least one such request. *)
Theorem C6_fetch_floor_is_shop_creation_then_last_synced_order :
  forall (env : Env) (body : SyncOrders.Body) (shop_domain : string)
         (session : Session) (shop : Shop) (w : World)
         (resp : SyncOrders.Response) (w' : World),
    validated body = Some (shop_domain, session) ->
    shops w !! shop_domain = Some shop ->
    SyncOrders.sync_orders body env w = (Ok resp, w') ->
    let lastSyncTime :=
      opt_get last_synced_order_created_at (order_sync shop) in
    exists evs,
      log w' = (evs ++ log w)%list
      /\ (forall s q, EvHttp s q ∈ evs ->
            s = session /\ first q = 250%nat
            /\ (truthy lastSyncTime = false ->
                forall created,
                  shop_created_at shop = Val created ->
                  truthy created = true ->
                  query_created_at_min q = Some created)
            /\ (forall last,
                  lastSyncTime = Val last -> truthy last = true ->
                  query_created_at_min q = Some last))
      /\ match resp with
         | SyncOrders.Synced _ _ _ _ _ | SyncOrders.NoNewOrders _ _ =>
             exists q, EvHttp session q ∈ evs
         | _ => True
         end.
Proof.
  intros env body d s shop w resp w' V Hs H lastSyncTime.
  apply sync_orders_run in H.
  assert (Hfloor : forall s' q,
            asks_from s 250 (floor_of (SyncOrders.syncStartDate shop))
                      (EvHttp s' q) ->
            s' = s /\ first q = 250%nat
            /\ (truthy lastSyncTime = false ->
                forall created,
                  shop_created_at shop = Val created ->
                  truthy created = true ->
                  query_created_at_min q = Some created)
            /\ (forall last,
                  lastSyncTime = Val last -> truthy last = true ->
                  query_created_at_min q = Some last)).
  { intros s' q (-> & Hfirst & Hq). split; [done|]. split; [done|].
    rewrite Hq. unfold SyncOrders.syncStartDate. fold lastSyncTime. split.
    - intros -> created -> Hc. simpl. unfold floor_of. simpl. by rewrite Hc.
    - intros last Hl Ht. rewrite Hl. change (truthy (Val last)) with (truthy last).
      rewrite Ht. simpl. unfold floor_of. simpl. by rewrite Ht. }
  assert (Hnone : forall w1 : World, log w1 = log w ->
            exists evs, log w1 = (evs ++ log w)%list
              /\ (forall s' q, EvHttp s' q ∈ evs ->
                    asks_from s 250 (floor_of (SyncOrders.syncStartDate shop))
                              (EvHttp s' q))).
  { intros w1 Hl. exists []. split; [done|]. intros s' q Hin.
    by apply elem_of_nil in Hin. }
  assert (Hattempt : forall shop' (w1 : World) r w2,
            shop' = shop -> log w1 = log w -> Attempt env d s shop' w1 r w2 ->
            exists evs, log w2 = (evs ++ log w)%list
              /\ (forall s' q, EvHttp s' q ∈ evs ->
                    asks_from s 250 (floor_of (SyncOrders.syncStartDate shop))
                              (EvHttp s' q))
              /\ exists q, EvHttp s q ∈ evs).
  { intros shop' w1 r w2 -> Hl A.
    apply Attempt_log in A as (evs & q & Hlog & HP).
    exists (evs ++ [EvHttp s q])%list. rewrite <- app_assoc, <- Hl. simpl.
    split; [done|]. split.
    - intros s' q' Hin. rewrite Forall_forall in HP.
      exact (HP (EvHttp s' q') Hin).
    - exists q. apply elem_of_app. right. by left. }
  inversion H as [V' | d' s' e w1 V' F | d' s' w1 V' F
                  | d' s' shop' w1 V' F G
                  | d' s' shop' w1 e w2 V' F G L
                  | d' s' shop' w1 item w2 resp' w3 V' F G L A
                  | d' s' shop' w1 item w2 e w3 item' w4 V' F G L A C
                  | d' s' shop' w1 item w2 e w3 e' w4 V' F G L A C];
    subst; rewrite V in V'; try discriminate V'; injection V' as <- <-.
  - apply findOne_inv in F as [-> _].
    destruct (Hnone (db_tick w) eq_refl) as (evs & Hl & HP).
    exists evs. split; [done|]. split; [|done]. intros; apply Hfloor; auto.
  - apply findOne_inv in F as [-> _].
    destruct (Hnone (db_tick w) eq_refl) as (evs & Hl & HP).
    exists evs. split; [done|]. split; [|done]. intros; apply Hfloor; auto.
  - apply findOne_inv in F as [-> _].
    destruct (Hnone (db_tick w) eq_refl) as (evs & Hl & HP).
    exists evs. split; [done|]. split; [|done]. intros; apply Hfloor; auto.
  - apply findOne_inv in F as [-> _].
    apply setSyncingFlag_keeps_log in L as [L _].
    destruct (Hnone w' L) as (evs & Hl & HP).
    exists evs. split; [done|]. split; [|done]. intros; apply Hfloor; auto.
  - apply findOne_found in F as (Hs' & _ & _ & Fl).
    apply setSyncingFlag_keeps_log in L as [L _].
    assert (shop' = shop) as E by congruence.
    destruct (Hattempt shop' w2 (Ok resp) w' E ltac:(congruence) A)
      as (evs & Hl & HP & Hq).
    exists evs. split; [done|]. split; [intros; apply Hfloor; auto|].
    destruct resp; done.
  - apply findOne_found in F as (Hs' & _ & _ & Fl).
    apply setSyncingFlag_keeps_log in L as [L _].
    apply setSyncingFlag_keeps_log in C as [C _].
    assert (shop' = shop) as E by congruence.
    destruct (Hattempt shop' w2 (Throw e) w3 E ltac:(congruence) A)
      as (evs & Hl & HP & Hq).
    exists evs. split; [congruence|]. split; [intros; apply Hfloor; auto|done].
  - apply findOne_found in F as (Hs' & _ & _ & Fl).
    apply setSyncingFlag_keeps_log in L as [L _].
    apply setSyncingFlag_keeps_log in C as [C _].
    assert (shop' = shop) as E by congruence.
    destruct (Hattempt shop' w2 (Throw e) w3 E ltac:(congruence) A)
      as (evs & Hl & HP & Hq).
    exists evs. split; [congruence|]. split; [intros; apply Hfloor; auto|done].
Qed.

Lemma C6_witness :
  exists evs,
    log synced_world = (evs ++ log (world_of the_shop))%list
    /\ (forall s q, EvHttp s q ∈ evs ->
          s = the_session /\ first q = 250%nat
          /\ (truthy (opt_get last_synced_order_created_at
                              (order_sync the_shop)) = false ->
              forall created,
                shop_created_at the_shop = Val created ->
                truthy created = true ->
                query_created_at_min q = Some created)
          /\ (forall last,
                opt_get last_synced_order_created_at (order_sync the_shop)
                  = Val last ->
                truthy last = true ->
                query_created_at_min q = Some last))
    /\ exists q, EvHttp the_session q ∈ evs.
Proof.
  refine (C6_fetch_floor_is_shop_creation_then_last_synced_order
            (env_of one_page no_faults) the_body "demo.myshopify.com"
            the_session the_shop (world_of the_shop)
            (SyncOrders.Synced 1 0 1 (1000 # 100) "2024-06-01T00:00:02Z")
            synced_world eq_refl eq_refl _).
  vm_compute; reflexivity.
Defined.

(** ** Scenarios of the specification *)

(** Rate-limited on the first and the second attempt, answered on the
    third: the call returns the page, after two pauses of 2000 ms. *)
Example scenario_two_cool_downs_then_success :
  exists body w',
    ShopifyAPIService.fetchWithRetry
      (ShopifyAPIService.fetchFunction the_session
         (ShopifyAPIService.buildOrdersQuery 250 None Null)) 3
      (env_of throttled_twice no_faults) (world_of the_shop)
    = (Ok (Some body), w')
    /\ List.filter (fun ev => negb (is_http ev)) (log w')
       = [EvSleep 2000; EvSleep 2000]
    /\ n_http w' = 3%nat.
Proof. eexists _, _. split; [vm_compute; reflexivity|]. split; reflexivity. Qed.

(** Three orders fetched, two of them tagged, one of these already stored:
    one new order, one duplicate, and the checkpoint names the newer tagged
    order although it came last. *)
Example scenario_one_new_one_duplicate :
  exists revenue t w',
    SyncOrders.sync_orders the_body (env_of three_orders no_faults)
      world_with_order_1001
    = (Ok (SyncOrders.Synced 1 1 1 revenue t), w')
    /\ opt_get last_synced_order_id (checkpoint w' "demo.myshopify.com")
       = Val "1002"
    /\ stored_orders w' = 2.
Proof.
  eexists _, _, _. split; [vm_compute; reflexivity|]. split; reflexivity.
Qed.

(** The second page cannot be fetched: the run fails, the flag is cleared
    and no order is stored. *)
Example scenario_failure_on_second_page :
  exists w',
    SyncOrders.sync_orders the_body (env_of second_page_fails no_faults)
      (world_of the_shop)
    = (Ok (SyncOrders.Failed "fetch failed"), w')
    /\ syncing w' "demo.myshopify.com" = false
    /\ stored_orders w' = 0
    /\ n_http w' = 2%nat.
Proof.
  eexists. split; [vm_compute; reflexivity|]. repeat split; reflexivity.
Qed.

(** A source that always reports more pages is left after ten pages, the
    default cap. *)
Example scenario_source_that_always_has_more :
  exists orders w',
    ShopifyAPIService.fetchOrders the_session
      {| ShopifyAPIService.opt_limit := Some 250%nat;
         ShopifyAPIService.opt_created_at_min := Null;
         ShopifyAPIService.opt_max_pages := None |}
      (env_of always_more no_faults) (world_of the_shop)
    = (Ok orders, w')
    /\ n_http w' = 10%nat /\ length orders = 20%nat.
Proof. eexists _, _. split; [vm_compute; reflexivity|]. split; reflexivity. Qed.

(** A tagged order whose amount is not a number is refused by the document
    client and skipped: the run answers with a summary of no new order and
    no duplicate, and the orders table stays empty. *)
Example scenario_amount_that_is_not_a_number :
  exists t w',
    SyncOrders.sync_orders the_body (env_of unpriced_page no_faults)
      (world_of the_shop)
    = (Ok (SyncOrders.Synced 0 0 0 0 t), w')
    /\ stored_orders w' = 0
    /\ opt_get last_synced_order_id (checkpoint w' "demo.myshopify.com")
       = Val "1001".
Proof.
  eexists _, _. split; [vm_compute; reflexivity|]. split; reflexivity.
Qed.

(** * Further properties *)

(** ** The fetcher *)

(** [fetchOrders] has no effect but requests and sleeps: whatever the
    source answers, and whether it returns or throws, the two tables and
    the counters of storage calls and clock readings are as before. *)
Theorem fetchOrders_touches_only_the_network :
  forall (s : Session) (options : ShopifyAPIService.FetchOptions)
         (env : Env) (w : World),
    let w' := snd (ShopifyAPIService.fetchOrders s options env w) in
    shops w' = shops w /\ orders w' = orders w
    /\ n_db w' = n_db w /\ n_clock w' = n_clock w.
Proof.
  intros s options env w.
  destruct (ShopifyAPIService.fetchOrders s options env w) as [r w'] eqn:E.
  exact (fetchOrders_only_network _ _ _ _ _ _ E).
Qed.

Lemma after_events_app evs1 evs2 w :
  after_events evs1 (after_events evs2 w) = after_events (evs1 ++ evs2) w.
Proof.
  unfold after_events. simpl. f_equal.
  - rewrite List.filter_app, length_app. lia.
  - by rewrite app_assoc.
Qed.

Lemma retry_events_snoc s q k :
  (1 <= k)%nat ->
  (retry_events s q k ++ [EvSleep 2000; EvHttp s q])%list
  = EvHttp s q :: EvSleep 2000 :: retry_events s q k.
Proof.
  induction k as [|k IH]; [lia|]. intros _.
  destruct k as [|k]; [reflexivity|].
  change (retry_events s q (S (S k)))
    with (EvHttp s q :: EvSleep 2000 :: retry_events s q (S k)).
  rewrite <- !app_comm_cons, IH by lia. reflexivity.
Qed.

Lemma fetchWithRetry_from_trace env s q m left w :
  (left <= m)%nat ->
  exists k,
    (k <= left)%nat /\ (1 <= left -> 1 <= k)%nat
    /\ snd (ShopifyAPIService.fetchWithRetry_from
              (ShopifyAPIService.fetchFunction s q) m left env w)
       = after_events (retry_events s q k) w
    /\ match fst (ShopifyAPIService.fetchWithRetry_from
                    (ShopifyAPIService.fetchFunction s q) m left env w) with
       | Ok None => left = 0%nat
       | Ok (Some body) =>
           outcome_result (fetch env (k - 1 + n_http w)%nat s q) = Ok body
       | Throw e =>
           outcome_result (fetch env (k - 1 + n_http w)%nat s q) = Throw e
           /\ (rate_limited e = true -> k = left)
       end.
Proof.
  revert w. induction left as [|left IH]; intros w Hle.
  - exists 0%nat. simpl. repeat split; try lia. by destruct w.
  - simpl. unfold try_catch, bind. rewrite fetchFunction_outcome.
    destruct (outcome_result (fetch env (n_http w) s q)) as [body|e] eqn:E.
    + exists 1%nat. simpl. repeat split; try lia. exact E.
    + fold (rate_limited e). destruct (rate_limited e) eqn:Er.
      * destruct (Nat.ltb_spec (m - left) m) as [Hlt|Hge].
        -- unfold sleep. simpl.
           match goal with |- context [ShopifyAPIService.fetchWithRetry_from _ m left env ?w1] =>
             change w1 with (after_events [EvSleep 2000; EvHttp s q] w);
             destruct (IH (after_events [EvSleep 2000; EvHttp s q] w))
               as (k & Hk & Hk1 & Hw & Hr); [lia|] end.
           assert (1 <= k)%nat by (apply Hk1; lia).
           exists (S k). split; [lia|]. split; [lia|]. split.
           ++ rewrite Hw, after_events_app, retry_events_snoc by done.
              destruct k; [lia|reflexivity].
           ++ simpl n_http in Hr.
              replace (S k - 1 + n_http w)%nat
                with (k - 1 + (1 + n_http w))%nat by lia.
              destruct (fst _) as [[body|]|e']; [done|lia|].
              destruct Hr as [Hr1 Hr2]. split; [done|]. intros; f_equal; auto.
        -- exists 1%nat. split; [lia|]. split; [lia|]. split; [reflexivity|].
           simpl. split; [exact E|]. intros _. lia.
      * exists 1%nat. split; [lia|]. split; [lia|]. split; [reflexivity|].
        simpl. split; [exact E|]. congruence.
Qed.

(** [fetchWithRetry] for any number of attempts: it makes at most
    [maxRetries] calls, with a pause of 2000 ms between two calls and none
    after the last; what it returns or throws is the outcome of its last
    call; an error with the rate-limit signal is only thrown once all
    [maxRetries] attempts are used; and it returns [undefined] only for
    [maxRetries = 0], without any call. *)
Theorem fetchWithRetry_calls_and_pauses :
  forall (env : Env) (s : Session) (q : OrdersQuery) (maxRetries : nat)
         (w : World),
    exists k,
      (k <= maxRetries)%nat
      /\ snd (ShopifyAPIService.fetchWithRetry
                (ShopifyAPIService.fetchFunction s q) maxRetries env w)
         = after_events (retry_events s q k) w
      /\ match fst (ShopifyAPIService.fetchWithRetry
                      (ShopifyAPIService.fetchFunction s q) maxRetries env w)
         with
         | Ok None => maxRetries = 0%nat /\ k = 0%nat
         | Ok (Some body) =>
             (1 <= k)%nat
             /\ outcome_result (fetch env (k - 1 + n_http w)%nat s q) = Ok body
         | Throw e =>
             (1 <= k)%nat
             /\ outcome_result (fetch env (k - 1 + n_http w)%nat s q) = Throw e
             /\ (rate_limited e = true -> k = maxRetries)
         end.
Proof.
  intros env s q m w. unfold ShopifyAPIService.fetchWithRetry.
  destruct m as [|m].
  { exists 0%nat. simpl. split; [lia|]. split; [by destruct w|]. done. }
  destruct (fetchWithRetry_from_trace env s q (S m) (S m) w (le_n _))
    as (k & Hk & Hk1 & Hw & Hr).
  exists k. split; [done|]. split; [done|].
  assert (1 <= k)%nat by (apply Hk1; lia).
  destruct (fst _) as [[body|]|e]; [done | discriminate | done].
Qed.

(** *** Pagination against a source that serves by cursor *)

Lemma after_cursor_middle (l1 l2 : list OrderEdge) e :
  NoDup (map edge_cursor (l1 ++ e :: l2)) ->
  after_cursor (edge_cursor e) (l1 ++ e :: l2) = l2.
Proof.
  induction l1 as [|e' l1 IH]; simpl; intros Hnd.
  - by rewrite String.eqb_refl.
  - apply NoDup_cons in Hnd as [Hnin Hnd].
    destruct (String.eqb_spec (edge_cursor e') (edge_cursor e)) as [Heq|_];
      [|by apply IH].
    exfalso. apply Hnin. rewrite Heq, map_app. simpl.
    apply elem_of_app. right. by left.
Qed.

Lemma fetchWithRetry_first_answer env s q w body :
  fetch env (n_http w) s q = Json body ->
  ShopifyAPIService.fetchWithRetry (ShopifyAPIService.fetchFunction s q) 3
    env w = (Ok (Some body), after_events [EvHttp s q] w).
Proof.
  intros H. unfold ShopifyAPIService.fetchWithRetry. simpl.
  unfold try_catch, bind. by rewrite fetchFunction_outcome, H.
Qed.

Section CursorSource.
Context (env : Env) (s : Session) (all : list OrderEdge).
Context (limit max_pages : nat) (cam : field string).
Context (Hserves : serves all env) (Hcursors : cursors_identify all).

Let transformed (l : list OrderEdge) : list Order :=
  map (fun edge => ShopifyAPIService.transformGraphQLOrder (node edge)) l.

(** The edges that the source serves for the cursor the loop holds. *)
Let rest_of (cur : option string) : list OrderEdge :=
  match after (ShopifyAPIService.buildOrdersQuery limit cur cam) with
  | Some c => after_cursor c all
  | None => all
  end.

Lemma next_cursor_serves_the_rest pos cur :
  rest_of cur = drop pos all ->
  (limit < length (drop pos all))%nat ->
  rest_of (if true && (0 <? length (take limit (drop pos all)))%nat
           then edge_cursor <$> last (take limit (drop pos all))
           else cur)
  = drop (pos + limit) all.
Proof.
  intros Hrest Hmore. destruct limit as [|l] eqn:El.
  { simpl. rewrite Hrest. f_equal. lia. }
  rewrite length_take, Nat.min_l by lia. simpl andb. cbv iota.
  rewrite last_lookup, length_take, Nat.min_l by lia. simpl pred.
  rewrite lookup_take_lt, lookup_drop by lia.
  rewrite length_drop in Hmore.
  destruct (all !! (pos + l)%nat) as [e|] eqn:Ee;
    [|apply lookup_ge_None in Ee; lia].
  simpl fmap. destruct Hcursors as [Hnd Htr].
  assert (He : truthy (edge_cursor e) = true).
  { rewrite Forall_forall in Htr. apply Htr. by eapply list_elem_of_lookup_2. }
  unfold rest_of, ShopifyAPIService.buildOrdersQuery. simpl. rewrite He.
  rewrite <- (take_drop_middle _ _ _ Ee) at 1.
  rewrite after_cursor_middle; [f_equal; lia|].
  by rewrite (take_drop_middle _ _ _ Ee).
Qed.

Lemma fetchOrders_loop_cursor_source :
  forall fuel page pos cur w,
    (1 <= page <= max_pages + 1)%nat ->
    pos = ((page - 1) * limit)%nat ->
    rest_of cur = drop pos all ->
    (max_pages + 1 - page <= fuel)%nat ->
    exists w',
      ShopifyAPIService.fetchOrders_loop fuel s limit max_pages cam
        (transformed (take pos all)) page true cur env w
      = (Ok (Some (transformed (take (max_pages * limit) all))), w').
Proof.
  induction fuel as [|fuel IH]; intros page pos cur w Hpage Hpos Hrest Hfuel.
  - assert (page = max_pages + 1)%nat as -> by lia.
    simpl. replace (max_pages + 1 <=? max_pages)%nat with false
      by (symmetry; apply Nat.leb_gt; lia).
    exists w. unfold ret. repeat f_equal. subst pos. f_equal. lia.
  - simpl. destruct (Nat.leb_spec page max_pages) as [Hle|Hgt].
    2:{ exists w. unfold ret. repeat f_equal. subst pos. f_equal. lia. }
    unfold bind at 1.
    pose proof (Hserves (n_http w) s
                  (ShopifyAPIService.buildOrdersQuery limit cur cam)) as Hf.
    unfold serve in Hf. fold (rest_of cur) in Hf. rewrite Hrest in Hf.
    simpl first in Hf.
    rewrite (fetchWithRetry_first_answer _ _ _ _ _ Hf).
    cbn [errors data_orders edges pageInfo_hasNextPage].
    assert (Hall : (transformed (take pos all)
                    ++ map (fun edge => ShopifyAPIService.transformGraphQLOrder
                                          (node edge))
                         (take limit (drop pos all)))%list
                   = transformed (take (pos + limit) all)).
    { unfold transformed. by rewrite <- map_app, take_take_drop. }
    rewrite Hall.
    destruct (bool_decide (limit < length (drop pos all))%nat) eqn:Hmore.
    + apply bool_decide_eq_true in Hmore.
      unfold bind at 1, sleep at 1.
      apply IH; [lia | nia | | lia].
      by apply next_cursor_serves_the_rest.
    + apply bool_decide_eq_false in Hmore. unfold bind at 1, ret at 1.
      rewrite length_drop in Hmore.
      rewrite !(take_ge all) by nia.
      destruct fuel; simpl; eexists; reflexivity.
Qed.

End CursorSource.

(** Against a source that serves a fixed sequence of orders by cursor, the
    cursors non-empty and pairwise different, [fetchOrders] returns the
    first [max_pages * limit] orders of the source (all of them when there
    are no more): each once, transformed, in the order of the source. *)
Theorem fetchOrders_returns_the_orders_of_a_cursor_source :
  forall (env : Env) (s : Session)
         (options : ShopifyAPIService.FetchOptions)
         (all : list OrderEdge) (w : World),
    serves all env ->
    cursors_identify all ->
    let limit := ShopifyAPIService.default 250%nat
                   (ShopifyAPIService.opt_limit options) in
    let max_pages := ShopifyAPIService.default 10%nat
                       (ShopifyAPIService.opt_max_pages options) in
    exists w',
      ShopifyAPIService.fetchOrders s options env w
      = (Ok (map (fun edge =>
                    ShopifyAPIService.transformGraphQLOrder (node edge))
                 (take (max_pages * limit) all)), w').
Proof.
  intros env s options all w Hs Hc limit max_pages.
  unfold ShopifyAPIService.fetchOrders. fold limit max_pages.
  destruct (fetchOrders_loop_cursor_source env s all limit max_pages
              (match ShopifyAPIService.opt_created_at_min options with
               | Absent => Null | d => d end)
              Hs Hc max_pages 1%nat 0%nat None w) as (w' & E);
    [lia | lia | reflexivity | lia |].
  simpl take in E. simpl map in E.
  unfold try_catch, bind. rewrite E. by exists w'.
Qed.

Lemma three_edges_cursors_identify : cursors_identify three_edges.
Proof.
  split.
  - apply (bool_decide_unpack _). by vm_compute.
  - repeat constructor.
Qed.

Lemma fetchOrders_cursor_source_witness :
  exists w',
    ShopifyAPIService.fetchOrders the_session
      {| ShopifyAPIService.opt_limit := Some 2%nat;
         ShopifyAPIService.opt_created_at_min := Null;
         ShopifyAPIService.opt_max_pages := None |}
      (serving_env three_edges) (world_of the_shop)
    = (Ok (map (fun edge =>
                  ShopifyAPIService.transformGraphQLOrder (node edge))
               (take (10 * 2) three_edges)), w').
Proof.
  exact (fetchOrders_returns_the_orders_of_a_cursor_source
           (serving_env three_edges) the_session
           {| ShopifyAPIService.opt_limit := Some 2%nat;
              ShopifyAPIService.opt_created_at_min := Null;
              ShopifyAPIService.opt_max_pages := None |}
           three_edges (world_of the_shop)
           (fun _ _ _ => eq_refl) three_edges_cursors_identify).
Defined.

(** ** From the orders of the source to the filter *)

Lemma includes_slash_cons c s :
  includes "/" (String c s) = Ascii.eqb c "/"%char || includes "/" s.
Proof.
  cbn [includes String.prefix].
  destruct (Ascii.ascii_dec "/" c) as [<-|Hne].
  - by destruct s.
  - assert (Ascii.eqb c "/"%char = false) as ->; [|done].
    apply Ascii.eqb_neq. congruence.
Qed.

Lemma append_cons c a b : String c a +:+ b = String c (a +:+ b).
Proof. reflexivity. Qed.

Lemma includes_slash_app a b :
  includes "/" (a +:+ b) = includes "/" a || includes "/" b.
Proof.
  induction a as [|c a IH]; [done|].
  by rewrite append_cons, !includes_slash_cons, IH, orb_assoc.
Qed.

Lemma append_nil_r a : a +:+ "" = a.
Proof. induction a as [|c a IH]; [done|]. by rewrite append_cons, IH. Qed.

Lemma append_snoc a c s : (a +:+ String c "") +:+ s = a +:+ String c s.
Proof. induction a as [|c' a IH]; [done|]. by rewrite !append_cons, IH. Qed.

Lemma split_pop_from_no_slash acc s :
  includes "/" s = false -> split_pop_from acc s = acc +:+ s.
Proof.
  revert acc. induction s as [|c s IH]; intros acc H; simpl.
  - by rewrite append_nil_r.
  - rewrite includes_slash_cons in H. apply orb_false_iff in H as [Hc Hs].
    by rewrite Hc, IH, append_snoc.
Qed.

Lemma split_pop_from_after_slash acc p s :
  split_pop_from acc (p +:+ String "/" s) = split_pop_from "" s.
Proof.
  revert acc. induction p as [|c p IH]; intros acc; [done|].
  rewrite append_cons. simpl. destruct (Ascii.eqb c "/"); apply IH.
Qed.

Lemma split_pop_from_slash_free acc s :
  includes "/" acc = false -> includes "/" (split_pop_from acc s) = false.
Proof.
  revert acc. induction s as [|c s IH]; intros acc H; simpl; [done|].
  destruct (Ascii.eqb c "/") eqn:E; apply IH; [done|].
  by rewrite includes_slash_app, H, includes_slash_cons, E.
Qed.

(** The identifier that [transformGraphQLOrder] gives an order is the text
    after the last slash of the node's identifier: it holds no slash; it is
    [rest] for an identifier [prefix/rest] whose [rest] has no slash,
    whatever the prefix; and an identifier without a slash is taken whole. *)
Theorem transformGraphQLOrder_id_is_the_last_segment :
  forall node : OrderNode,
    includes "/" (id (ShopifyAPIService.transformGraphQLOrder node)) = false
    /\ (forall prefix rest,
          node_id node = prefix +:+ "/" +:+ rest ->
          includes "/" rest = false ->
          id (ShopifyAPIService.transformGraphQLOrder node) = rest)
    /\ (includes "/" (node_id node) = false ->
        id (ShopifyAPIService.transformGraphQLOrder node) = node_id node).
Proof.
  intros node. simpl. unfold split_pop. split; [|split].
  - by apply split_pop_from_slash_free.
  - intros prefix rest -> Hrest.
    change ("/" +:+ rest) with (String "/" rest).
    rewrite split_pop_from_after_slash. by apply split_pop_from_no_slash.
  - intros H. by rewrite split_pop_from_no_slash.
Qed.

(** A transformed order is selected by the filter exactly when a line item
    of the node has a custom attribute [_sbb_try_on] with the string value
    ["true"]; its session ids are exactly the truthy values of the custom
    attributes [_sbb_session_id] of the node; and it always has a list of
    line items, one for each line item of the node. *)
Theorem transformed_order_is_selected_by_its_custom_attributes :
  forall node : OrderNode,
    let order := ShopifyAPIService.transformGraphQLOrder node in
    (ShopifyAPIService.has_sbb_item order = true
     <-> exists item attr,
           item ∈ lineItems node /\ attr ∈ customAttributes item
           /\ key attr = "_sbb_try_on" /\ value attr = AStr "true")
    /\ (forall v,
          v ∈ ShopifyAPIService.extractSessionIds order
          <-> truthy v = true
              /\ exists item attr,
                   item ∈ lineItems node /\ attr ∈ customAttributes item
                   /\ key attr = "_sbb_session_id" /\ value attr = v)
    /\ (exists items,
          line_items order = Some items
          /\ length items = length (lineItems node)).
Proof.
  intros node order. split; [|split].
  - unfold ShopifyAPIService.has_sbb_item. rewrite optional_some_spec. split.
    + intros (items & li & [= <-] & Hli & Hs).
      apply list_elem_of_fmap in Hli as (item & -> & Hitem).
      apply optional_some_spec in Hs as (props & p & [= <-] & Hp & Ht).
      apply list_elem_of_fmap in Hp as (attr & -> & Hattr).
      apply is_try_on_spec in Ht as [Hk Hv]. by exists item, attr.
    + intros (item & attr & Hitem & Hattr & Hk & Hv).
      eexists _, _. split; [reflexivity|]. split.
      * apply list_elem_of_fmap. by exists item.
      * apply optional_some_spec. eexists _, _. split; [reflexivity|]. split.
        -- apply list_elem_of_fmap. by exists attr.
        -- by apply is_try_on_spec.
  - intros v. unfold ShopifyAPIService.extractSessionIds.
    rewrite Set_spread_elem_of, elem_of_flat_map. split.
    + intros [(li & Hli & Hv) _].
      apply list_elem_of_fmap in Hli as (item & -> & Hitem).
      apply elem_of_flat_map in Hv as (p & Hp & Hv).
      apply list_elem_of_fmap in Hp as (attr & -> & Hattr).
      destruct (ShopifyAPIService.is_session_id _) eqn:E;
        [|by apply elem_of_nil in Hv].
      apply list_elem_of_singleton in Hv as ->.
      apply andb_true_iff in E as [En Et]. apply String.eqb_eq in En.
      split; [done|]. by exists item, attr.
    + intros [Ht (item & attr & Hitem & Hattr & Hk & <-)].
      split; [|apply not_elem_of_nil].
      eexists. split; [apply list_elem_of_fmap; by exists item|].
      apply elem_of_flat_map. eexists. split.
      * apply list_elem_of_fmap. by exists attr.
      * unfold ShopifyAPIService.is_session_id. simpl. rewrite Hk, Ht. simpl.
        by apply list_elem_of_singleton.
  - eexists. split; [reflexivity|]. by rewrite length_map.
Qed.

(** ** What a run does to the orders table *)

#[global] Instance orders_only_added_preorder P :
  PreOrder (orders_only_added P).
Proof.
  split.
  - intros w. split; [done|]. intros k o H. by left.
  - intros w1 w2 w3 [A1 B1] [A2 B2]. split.
    + intros k o H. apply A2, A1, H.
    + intros k o H. destruct (B2 k o H) as [H2|[H2 HP]]; [by apply B1|].
      right. split; [|done].
      destruct (orders w1 !! k) as [o1|] eqn:E; [|done].
      apply A1 in E. congruence.
Qed.

Lemma keeps_orders_only_added P w w' :
  keeps_orders w w' -> orders_only_added P w w'.
Proof. unfold keeps_orders. intros H. split; intros k o; rewrite H; auto. Qed.

Lemma keeps_orders_preserves_only_added P {A} (m : M A) :
  preserves keeps_orders m -> preserves (orders_only_added P) m.
Proof. apply preserves_weaken, keeps_orders_only_added. Qed.

#[global] Hint Extern 5 (preserves (orders_only_added _) _) =>
  (apply keeps_orders_preserves_only_added; solve [auto with frame]) : frame.

Lemma store_order_only_added d o c :
  preserves (orders_only_added (synced_record (Some d)))
            (SyncOrders.store_order d o c).
Proof.
  intros env w r w' S.
  destruct (store_order_cases env d o c w) as (c1 & w1 & S1 & _ & _ & _ & H).
  rewrite S1 in S. injection S as <- <-.
  destruct (line_items o);
    [|destruct H as (_ & H & _); by apply keeps_orders_only_added].
  destruct (order_price env o);
    [|destruct H as (_ & H & _); by apply keeps_orders_only_added].
  destruct H as [_ H]. destruct (db_fault env (n_db w)).
  { destruct H as [H _]. by apply keeps_orders_only_added. }
  destruct (orders w !! id o) eqn:E.
  { destruct H as [H _]. by apply keeps_orders_only_added. }
  destruct H as (record & Hins & Hid & Hd & Hb & _). split.
  - intros k so' Hk. rewrite Hins, lookup_insert_ne; [done|]. congruence.
  - intros k so' Hk. rewrite Hins in Hk.
    destruct (decide (id o = k)) as [<-|Hne].
    + rewrite lookup_insert_eq in Hk. injection Hk as <-. right.
      split; [done|]. split; [done|]. split; [done|]. by rewrite Hd.
    + rewrite lookup_insert_ne in Hk by done. by left.
Qed.

Lemma store_orders_only_added d l c :
  preserves (orders_only_added (synced_record (Some d)))
            (SyncOrders.store_orders d l c).
Proof.
  revert c. induction l as [|o l IH]; intros c; simpl; [preserves_tac|].
  pose proof store_order_only_added. preserves_tac.
Qed.

Lemma sync_attempt_only_added d s shop :
  preserves (orders_only_added (synced_record (Some d)))
            (SyncOrders.sync_attempt d s shop).
Proof.
  unfold SyncOrders.sync_attempt. pose proof store_orders_only_added.
  preserves_tac.
Qed.

Lemma sync_orders_only_added body :
  preserves (orders_only_added (synced_record (SyncOrders.shop_domain body)))
            (SyncOrders.sync_orders body).
Proof.
  unfold SyncOrders.sync_orders. pose proof sync_attempt_only_added.
  preserves_tac.
Qed.

(** A request to the route never deletes or changes a stored order: every
    record of the orders table is still there afterwards, unchanged, and
    every record that was added is stored under its own order identifier,
    is flagged [has_sbb_items], and belongs to the shop of the request. *)
Theorem sync_orders_only_adds_orders_of_the_shop :
  forall (env : Env) (body : SyncOrders.Body) (w : World),
    orders_only_added (synced_record (SyncOrders.shop_domain body))
      w (snd (SyncOrders.sync_orders body env w)).
Proof.
  intros env body w.
  destruct (SyncOrders.sync_orders body env w) as [r w'] eqn:E.
  exact (sync_orders_only_added body env w r w' E).
Qed.

(** ** The store loop of the route *)

(** One turn of the store loop never throws, and it counts the order by
    what came of its put.  When the record was stored (the order has its
    line items, its price is a number, the storage answered and did not
    hold the id), the order is counted as new, the price is added to the
    revenue, and the table holds the record under the id of the order.
    When the put was refused by the condition (the id was held already, or
    the storage answered with a conditional-check failure), the order is
    counted as a duplicate.  In every other case (no list of line items, a
    price that is not a number, any other failure of the storage) the
    counters are left as they were.  Only in the first case does the table
    change. *)
Theorem store_order_counts_by_what_came_of_the_put :
  forall (env : Env) (shop_domain : string) (order : Order)
         (c : SyncOrders.Counters) (w : World),
    let r := SyncOrders.store_order shop_domain order c env w in
    exists c',
      fst r = Ok c'
      /\ match put_outcome env order w with
         | AsNew =>
             exists record price,
               orders (snd r) = <[id order := record]> (orders w)
               /\ orders w !! id order = None
               /\ order_id record = id order
               /\ so_shop_domain record = shop_domain
               /\ has_sbb_items record = true
               /\ order_price env order = Some price
               /\ so_total_price record = price
               /\ SyncOrders.newOrdersCount c'
                  = SyncOrders.newOrdersCount c + 1
               /\ SyncOrders.duplicatesSkipped c'
                  = SyncOrders.duplicatesSkipped c
               /\ SyncOrders.totalRevenue c'
                  = number_add env (SyncOrders.totalRevenue c) price
         | AsDuplicate =>
             orders (snd r) = orders w
             /\ SyncOrders.newOrdersCount c' = SyncOrders.newOrdersCount c
             /\ SyncOrders.duplicatesSkipped c'
                = SyncOrders.duplicatesSkipped c + 1
             /\ SyncOrders.totalRevenue c' = SyncOrders.totalRevenue c
         | AsNeither => orders (snd r) = orders w /\ c' = c
         end.
Proof.
  intros env d o c w r. subst r.
  destruct (store_order_cases env d o c w) as (c' & w' & S & _ & _ & _ & H).
  rewrite S. simpl. exists c'. split; [done|]. unfold put_outcome.
  destruct (line_items o) as [items|]; [|by destruct H as (_ & ? & ?)].
  destruct (order_price env o) as [q|]; [|by destruct H as (_ & ? & ?)].
  destruct H as [_ H]. destruct (db_fault env (n_db w)) as [e|].
  { destruct H as [Ho ->]. by destruct (String.eqb _ _). }
  destruct (orders w !! id o) as [so|] eqn:E.
  { by destruct H as [Ho ->]. }
  destruct H as (record & Hins & Hid & Hd & Hb & Hq & _ & ->).
  by exists record, q.
Qed.

(** ** The answers of the route *)

Lemma Attempt_answers env d s shop w resp w' :
  Attempt env d s shop w (Ok resp) w' ->
  match resp with
  | SyncOrders.NoNewOrders _ _ | SyncOrders.Synced _ _ _ _ _ => True
  | _ => False
  end.
Proof.
  intros A. inversion A as [e' w1 F | allOrders w1 t w2 r w3 F Ef N U Hr
                            | allOrders w1 latest rest c w2 t w3 r w4 F Es S N U Hr];
    subst; destruct r; try discriminate; by injection Hr as <-.
Qed.

(** The route always answers, and its two early answers come before any
    effect.  It answers 400 exactly when the body lacks a truthy
    [shop_domain] or a session, and then nothing at all has happened.  When
    it answers 404 the shop is not in the table and the run made the one
    read and nothing else; and it does answer 404 for a valid body whose
    shop is not in the table, when that read succeeds. *)
Theorem sync_orders_answers_early_without_effect :
  forall (env : Env) (body : SyncOrders.Body) (w : World),
    let r := fst (SyncOrders.sync_orders body env w) in
    let w' := snd (SyncOrders.sync_orders body env w) in
    (exists resp, r = Ok resp)
    /\ (r = Ok SyncOrders.BadRequest <-> validated body = None)
    /\ (r = Ok SyncOrders.BadRequest -> w' = w)
    /\ (r = Ok SyncOrders.ShopNotFound ->
        w' = db_tick w
        /\ exists d s, validated body = Some (d, s) /\ shops w !! d = None)
    /\ (forall d s,
          validated body = Some (d, s) ->
          db_fault env (n_db w) = None ->
          shops w !! d = None ->
          r = Ok SyncOrders.ShopNotFound).
Proof.
  intros env body w r w'. subst r w'.
  destruct (sync_orders_shape env body w) as (resp & w' & E & R).
  rewrite E. simpl.
  split; [by exists resp|].
  inversion R as [V' | d' s' e w1 V' F | d' s' w1 V' F
                  | d' s' shop' w1 V' F G
                  | d' s' shop' w1 e w2 V' F G L
                  | d' s' shop' w1 item w2 resp' w3 V' F G L A
                  | d' s' shop' w1 item w2 e w3 item' w4 V' F G L A C
                  | d' s' shop' w1 item w2 e w3 e' w4 V' F G L A C];
    subst.
  - split; [done|]. split; [done|]. split; [discriminate|].
    intros d s V. congruence.
  - split; [split; [discriminate | congruence]|].
    split; [discriminate|]. split; [discriminate|].
    intros d s V Hf Hs. rewrite V in V'. injection V' as <- <-.
    rewrite (findOne_ok _ _ _ Hf) in F. discriminate.
  - apply findOne_inv in F as [-> [F|[e0 F]]]; [|discriminate].
    injection F as F.
    split; [split; [discriminate | congruence]|].
    split; [discriminate|]. split; [|done].
    intros _. split; [done|]. by exists d', s'.
  - apply findOne_found in F as (Hs' & _).
    split; [split; [discriminate | congruence]|].
    split; [discriminate|]. split; [discriminate|].
    intros d s V Hf Hs. congruence.
  - apply findOne_found in F as (Hs' & _).
    split; [split; [discriminate | congruence]|].
    split; [discriminate|]. split; [discriminate|].
    intros d s V Hf Hs. congruence.
  - apply findOne_found in F as (Hs' & _). apply Attempt_answers in A.
    split; [split; [intros [= ->]; done | congruence]|].
    split; [intros [= ->]; done|]. split; [intros [= ->]; done|].
    intros d s V Hf Hs. congruence.
  - apply findOne_found in F as (Hs' & _).
    split; [split; [discriminate | congruence]|].
    split; [discriminate|]. split; [discriminate|].
    intros d s V Hf Hs. congruence.
  - apply findOne_found in F as (Hs' & _).
    split; [split; [discriminate | congruence]|].
    split; [discriminate|]. split; [discriminate|].
    intros d s V Hf Hs. congruence.
Qed.

(** The route makes no request and stores no order before it holds the
    flag: either the log, the request counter and the orders table are as
    they were, or the body was valid, the shop was stored and not marked as
    syncing, and [setSyncingFlag(shop_domain, true)], called right after
    the read, had returned, leaving the shop marked as syncing. *)
Theorem sync_orders_fetches_and_stores_only_under_the_flag :
  forall (env : Env) (body : SyncOrders.Body) (w : World),
    let w' := snd (SyncOrders.sync_orders body env w) in
    (log w' = log w /\ n_http w' = n_http w /\ orders w' = orders w)
    \/ exists d s shop item,
         validated body = Some (d, s)
         /\ shops w !! d = Some shop
         /\ truthy (opt_get is_syncing (order_sync shop)) = false
         /\ fst (ShopModel.setSyncingFlag d true env (db_tick w)) = Ok item
         /\ syncing (snd (ShopModel.setSyncingFlag d true env (db_tick w))) d
            = true.
Proof.
  intros env body w w'. subst w'.
  destruct (sync_orders_shape env body w) as (resp & w' & E & R).
  rewrite E. simpl.
  assert (Hlocked : forall d s shop w1 item w2,
            validated body = Some (d, s) ->
            ShopModel.findOne d env w = (Ok (Some shop), w1) ->
            truthy (opt_get is_syncing (order_sync shop)) = false ->
            ShopModel.setSyncingFlag d true env w1 = (Ok item, w2) ->
            exists d s shop item,
              validated body = Some (d, s)
              /\ shops w !! d = Some shop
              /\ truthy (opt_get is_syncing (order_sync shop)) = false
              /\ fst (ShopModel.setSyncingFlag d true env (db_tick w)) = Ok item
              /\ syncing (snd (ShopModel.setSyncingFlag d true env (db_tick w)))
                         d = true).
  { intros d s shop w1 item w2 V F G L.
    pose proof (findOne_found _ _ _ _ _ F) as (Hs & _).
    apply findOne_inv in F as [-> _].
    exists d, s, shop, item. rewrite L. simpl.
    apply setSyncingFlag_ok in L as (L & _). done. }
  inversion R as [V' | d' s' e w1 V' F | d' s' w1 V' F
                  | d' s' shop' w1 V' F G
                  | d' s' shop' w1 e w2 V' F G L
                  | d' s' shop' w1 item w2 resp' w3 V' F G L A
                  | d' s' shop' w1 item w2 e w3 item' w4 V' F G L A C
                  | d' s' shop' w1 item w2 e w3 e' w4 V' F G L A C];
    subst; try (right; by eapply Hlocked); left.
  - done.
  - pose proof (findOne_keeps_log _ _ _ _ _ F) as [??].
    pose proof (findOne_keeps_orders _ _ _ _ _ F). done.
  - pose proof (findOne_keeps_log _ _ _ _ _ F) as [??].
    pose proof (findOne_keeps_orders _ _ _ _ _ F). done.
  - pose proof (findOne_keeps_log _ _ _ _ _ F) as [??].
    pose proof (findOne_keeps_orders _ _ _ _ _ F). done.
  - pose proof (findOne_keeps_log _ _ _ _ _ F) as [??].
    pose proof (findOne_keeps_orders _ _ _ _ _ F) as Ho.
    pose proof (setSyncingFlag_keeps_log _ _ _ _ _ _ L) as [??].
    pose proof (setSyncingFlag_keeps_orders _ _ _ _ _ _ L) as Ho'.
    unfold keeps_orders in *. repeat split; congruence.
Qed.

(** ** The floor of the next run *)

Lemma setSyncingFlag_floor env d b w item w' shop :
  shops w !! d = Some shop ->
  ShopModel.setSyncingFlag d b env w = (Ok item, w') ->
  shops w' !! d = Some item
  /\ shop_created_at item = shop_created_at shop
  /\ other_attributes item = other_attributes shop
  /\ SyncOrders.syncStartDate item = SyncOrders.syncStartDate shop.
Proof.
  intros Hs L. apply setSyncingFlag_inv in L as [_ L].
  destruct L as (shop0 & os & Hs0 & Hw & Hos & Hc & Ha & _ & _ & _ & _ & Hl & _).
  rewrite Hs in Hs0. injection Hs0 as <-.
  split; [by rewrite Hw, lookup_insert_eq|]. split; [done|]. split; [done|].
  unfold SyncOrders.syncStartDate. rewrite Hos, Hc. simpl. rewrite Hl.
  unfold js_or.
  by destruct (truthy (opt_get last_synced_order_created_at (order_sync shop)))
    eqn:T; simpl; rewrite ?T.
Qed.

Lemma Attempt_floor env d s shop shop1 w r w' :
  Attempt env d s shop w r w' ->
  shops w !! d = Some shop1 ->
  shop_created_at shop1 = shop_created_at shop ->
  other_attributes shop1 = other_attributes shop ->
  exists shop',
    shops w' !! d = Some shop'
    /\ shop_created_at shop' = shop_created_at shop
    /\ other_attributes shop' = other_attributes shop
    /\ match r with
       | Ok (SyncOrders.Synced _ _ _ _ _) =>
           exists allOrders latest rest,
             fst (ShopifyAPIService.fetchOrders s (fetchOptions_of shop) env w)
               = Ok allOrders
             /\ SyncOrders.sort_newest_first env
                  (ShopifyAPIService.filterSBBOrders allOrders)
                = latest :: rest
             /\ SyncOrders.syncStartDate shop'
                = js_or (Val (created_at latest)) (shop_created_at shop)
       | Ok _ => SyncOrders.syncStartDate shop' = SyncOrders.syncStartDate shop
       | Throw _ => shop' = shop1
       end.
Proof.
  intros A Hs Hc Ha.
  inversion A as [e' w1 F | allOrders w1 t w2 r0 w3 F Ef N U Hr
                  | allOrders w1 latest rest c w2 t w3 r0 w4 F Es S N U Hr];
    subst.
  - exists shop1. apply fetchOrders_keeps_shops in F. by rewrite F.
  - apply fetchOrders_keeps_shops in F. apply now_inv in N as (N & _).
    assert (Hs2 : shops w2 !! d = Some shop1) by (by rewrite N, F).
    pose proof (updateOrderSync_inv _ _ _ _ _ _ U) as I.
    destruct r0 as [item|e]; [|exists shop1; by rewrite I].
    destruct I as (Hw & Hos & Hic & Hia). rewrite Hs2 in Hic, Hia.
    exists item. split; [by rewrite Hw, lookup_insert_eq|].
    split; [by rewrite Hic|]. split; [by rewrite Hia|].
    unfold SyncOrders.syncStartDate. rewrite Hos, Hic. simpl. rewrite Hc.
    by destruct (order_sync shop).
  - pose proof F as F0. apply fetchOrders_keeps_shops in F.
    apply now_inv in N as (N & _).
    apply store_orders_keeps_shops in S.
    assert (Hs3 : shops w3 !! d = Some shop1) by (by rewrite N, S, F).
    pose proof (updateOrderSync_inv _ _ _ _ _ _ U) as I.
    destruct r0 as [item|e]; [|exists shop1; by rewrite I].
    destruct I as (Hw & Hos & Hic & Hia). rewrite Hs3 in Hic, Hia.
    exists item. split; [by rewrite Hw, lookup_insert_eq|].
    split; [by rewrite Hic|]. split; [by rewrite Hia|].
    exists allOrders, latest, rest. split; [by rewrite F0|]. split; [done|].
    unfold SyncOrders.syncStartDate. rewrite Hos, Hic. simpl. rewrite Hc.
    unfold js_or. change (truthy (Val (created_at latest)))
      with (truthy (created_at latest)).
    by destruct (truthy (created_at latest)).
Qed.

(** Where the next run starts.  After any request for a stored shop the
    shop is still stored, with the creation time and the other attributes
    it had.  Unless the run answers with a sync summary, the date from which
    the next run will fetch is the one this run fetched from: an answer
    "no new orders", a refusal and a failure all leave it as it was, also
    when a failed run had stored orders.  After a sync summary it is the
    creation time of the order that comes first when the selected orders of
    the run's fetch are sorted, or, should that time be the empty text, the
    creation time of the shop. *)
Theorem sync_orders_moves_the_floor_only_with_a_summary :
  forall (env : Env) (body : SyncOrders.Body) (shop_domain : string)
         (session : Session) (shop : Shop) (w : World),
    validated body = Some (shop_domain, session) ->
    shops w !! shop_domain = Some shop ->
    exists shop',
      shops (snd (SyncOrders.sync_orders body env w)) !! shop_domain
        = Some shop'
      /\ shop_created_at shop' = shop_created_at shop
      /\ other_attributes shop' = other_attributes shop
      /\ match fst (SyncOrders.sync_orders body env w) with
         | Ok (SyncOrders.Synced _ _ _ _ _) =>
             exists allOrders latest rest,
               fst (ShopifyAPIService.fetchOrders session
                      (fetchOptions_of shop) env
                      (snd (ShopModel.setSyncingFlag shop_domain true env
                              (db_tick w))))
                 = Ok allOrders
               /\ SyncOrders.sort_newest_first env
                    (ShopifyAPIService.filterSBBOrders allOrders)
                  = latest :: rest
               /\ SyncOrders.syncStartDate shop'
                  = js_or (Val (created_at latest)) (shop_created_at shop)
         | _ => SyncOrders.syncStartDate shop' = SyncOrders.syncStartDate shop
         end.
Proof.
  intros env body d s shop w V Hs.
  destruct (sync_orders_shape env body w) as (resp & w' & E & R).
  rewrite E. simpl.
  inversion R as [V' | d' s' e w1 V' F | d' s' w1 V' F
                  | d' s' shop' w1 V' F G
                  | d' s' shop' w1 e w2 V' F G L
                  | d' s' shop' w1 item w2 resp' w3 V' F G L A
                  | d' s' shop' w1 item w2 e w3 item' w4 V' F G L A C
                  | d' s' shop' w1 item w2 e w3 e' w4 V' F G L A C];
    subst; rewrite V in V'; try discriminate V'; injection V' as <- <-;
    try (pose proof (findOne_found _ _ _ _ _ F) as (Hs' & Hw1 & _);
         rewrite Hs in Hs'; injection Hs' as <-).
  - apply findOne_keeps_shops in F. exists shop. by rewrite F.
  - apply findOne_inv in F as [-> [[= F]|[e0 F]]]; [congruence | discriminate].
  - exists shop. by rewrite Hw1.
  - apply setSyncingFlag_throw in L as [L _]. exists shop. by rewrite L, Hw1.
  - apply findOne_inv in F as [-> _].
    destruct (setSyncingFlag_floor env d true (db_tick w) item w2 shop Hs L)
      as (Hi & Hc & Ha & Hf).
    destruct (Attempt_floor _ _ _ _ _ _ _ _ A Hi Hc Ha)
      as (shop' & Hs' & Hc' & Ha' & Hr).
    exists shop'. repeat (split; [done|]). rewrite L. simpl.
    by destruct resp.
  - rewrite <- Hw1 in Hs.
    destruct (setSyncingFlag_floor _ _ _ _ _ _ _ Hs L) as (Hi & Hc & Ha & Hf).
    destruct (Attempt_floor _ _ _ _ _ _ _ _ A Hi Hc Ha)
      as (shop' & Hs' & Hc' & Ha' & ->).
    destruct (setSyncingFlag_floor _ _ _ _ _ _ _ Hs' C) as (Hi' & Hc2 & Ha2 & Hf').
    exists item'. split; [done|]. split; [congruence|]. split; [congruence|].
    congruence.
  - rewrite <- Hw1 in Hs.
    destruct (setSyncingFlag_floor _ _ _ _ _ _ _ Hs L) as (Hi & Hc & Ha & Hf).
    destruct (Attempt_floor _ _ _ _ _ _ _ _ A Hi Hc Ha)
      as (shop' & Hs' & Hc' & Ha' & ->).
    apply setSyncingFlag_throw in C as [C _].
    exists item. by rewrite C.
Qed.

Lemma sync_orders_floor_witness :
  exists shop',
    shops (snd (SyncOrders.sync_orders the_body
                  (env_of three_orders no_faults) (world_of the_shop)))
      !! "demo.myshopify.com" = Some shop'
    /\ shop_created_at shop' = shop_created_at the_shop
    /\ other_attributes shop' = other_attributes the_shop
    /\ exists allOrders latest rest,
         fst (ShopifyAPIService.fetchOrders the_session
                (fetchOptions_of the_shop) (env_of three_orders no_faults)
                (snd (ShopModel.setSyncingFlag "demo.myshopify.com" true
                        (env_of three_orders no_faults)
                        (db_tick (world_of the_shop)))))
           = Ok allOrders
         /\ SyncOrders.sort_newest_first (env_of three_orders no_faults)
              (ShopifyAPIService.filterSBBOrders allOrders)
            = latest :: rest
         /\ SyncOrders.syncStartDate shop'
            = js_or (Val (created_at latest)) (shop_created_at the_shop).
Proof.
  exact (sync_orders_moves_the_floor_only_with_a_summary
           (env_of three_orders no_faults) the_body "demo.myshopify.com"
           the_session the_shop (world_of the_shop) eq_refl eq_refl).
Defined.

(** ** The order model: existence check and conditional insert *)

Lemma OrderModel_exists_run env k w :
  OrderModel_exists k env w
  = (Ok (match db_fault env (n_db w) with
         | Some _ => false
         | None => bool_decide (is_Some (orders w !! k))
         end), db_tick w).
Proof.
  unfold OrderModel_exists, try_catch, bind, send_GetCommand_order.
  destruct (db_fault env (n_db w)); [done|].
  by destruct (orders w !! k).
Qed.


(** [OrderModel.exists] never throws and changes neither table.  An answer
    [true] is always right; an answer [false] is right when the read
    succeeded, and is also what a failed read is turned into. *)
Theorem OrderModel_exists_hides_a_failed_read :
  forall (env : Env) (order_id : string) (w : World),
    exists b,
      OrderModel_exists order_id env w = (Ok b, db_tick w)
      /\ (b = true -> is_Some (orders w !! order_id))
      /\ (db_fault env (n_db w) = None ->
          (b = true <-> is_Some (orders w !! order_id)))
      /\ (is_Some (db_fault env (n_db w)) -> b = false).
Proof.
  intros env k w. rewrite OrderModel_exists_run. eexists. split; [done|].
  destruct (db_fault env (n_db w)) as [e|].
  - split; [discriminate|]. split; [discriminate|]. done.
  - split; [apply bool_decide_eq_true|].
    split; [intros _; apply bool_decide_eq_true|].
    by intros [? ?].
Qed.



(** ** The shop model: writes of the checkpoint and creation of shops *)

(** [updateOrderSync] replaces the checkpoint of one shop and stamps the
    item with the time of the call; the shop's other attributes, the other
    shops and the orders are untouched, and a following [findOne] whose
    read succeeds returns the item that [updateOrderSync] returned.  For a
    domain that has no item the update creates one, holding the checkpoint
    and the stamp only.  When the storage refuses, nothing is written. *)
Theorem updateOrderSync_writes_one_checkpoint :
  forall (env : Env) (shop_domain : string) (syncData : OrderSync) (w : World),
    let r := ShopModel.updateOrderSync shop_domain syncData env w in
    orders (snd r) = orders w
    /\ match fst r with
       | Ok item =>
           order_sync item = Some syncData
           /\ updated_at item = Val (clock env (n_clock w))
           /\ shop_created_at item
              = opt_get shop_created_at (shops w !! shop_domain)
           /\ other_attributes item
              = match shops w !! shop_domain with
                | Some shop => other_attributes shop
                | None => []
                end
           /\ shops (snd r) !! shop_domain = Some item
           /\ (forall other, other ≠ shop_domain ->
                 shops (snd r) !! other = shops w !! other)
           /\ (db_fault env (n_db (snd r)) = None ->
               fst (ShopModel.findOne shop_domain env (snd r))
               = Ok (Some item))
       | Throw e =>
           shops (snd r) = shops w /\ db_fault env (n_db w) = Some e
       end.
Proof.
  intros env d sd w r. subst r.
  unfold ShopModel.updateOrderSync, try_catch, bind, now,
    ShopModel.send_UpdateCommand. simpl.
  destruct (db_fault env (n_db w)) as [e|] eqn:Hf; simpl; [done|].
  split; [done|].
  split; [by destruct (shops w !! d)|]. split; [by destruct (shops w !! d)|].
  split; [by destruct (shops w !! d)|]. split; [by destruct (shops w !! d)|].
  split; [by rewrite lookup_insert_eq|].
  split; [intros other Hne; by rewrite lookup_insert_ne|].
  intros Hf'. rewrite findOne_ok by done. simpl. by rewrite lookup_insert_eq.
Qed.

(** Setting the flag twice.  When both calls return, the second item has
    the checkpoint that the first call wrote, with the flag of the second
    call: the six progress fields, once normalised by the first call, are
    not changed by the second; and the creation time and the other
    attributes of the shop are the same.  On a domain without an item
    [setSyncingFlag] throws "Shop not found" and writes nothing (it never
    creates a shop). *)
Theorem setSyncingFlag_twice_changes_the_flag_only :
  forall (env : Env) (shop_domain : string) (b b' : bool) (w : World),
    let r1 := ShopModel.setSyncingFlag shop_domain b env w in
    let r2 := ShopModel.setSyncingFlag shop_domain b' env (snd r1) in
    match fst r1, fst r2 with
    | Ok item, Ok item' =>
        exists os,
          order_sync item = Some os
          /\ order_sync item'
             = Some {| is_syncing := Val b';
                       last_sync_time := last_sync_time os;
                       last_synced_order_id := last_synced_order_id os;
                       last_synced_order_number := last_synced_order_number os;
                       last_synced_order_created_at :=
                         last_synced_order_created_at os;
                       total_orders_synced := total_orders_synced os;
                       last_sync_count := last_sync_count os |}
          /\ shop_created_at item' = shop_created_at item
          /\ other_attributes item' = other_attributes item
    | _, _ => True
    end
    /\ (shops w !! shop_domain = None ->
        db_fault env (n_db w) = None ->
        r1 = (Throw (new_Error "Shop not found"), db_tick w)).
Proof.
  intros env d b b' w r1 r2. subst r1 r2. split.
  - destruct (ShopModel.setSyncingFlag d b env w) as [[item|e] w1] eqn:L1;
      [|done]. simpl.
    destruct (ShopModel.setSyncingFlag d b' env w1) as [[item'|e] w2] eqn:L2;
      [|done]. simpl.
    apply setSyncingFlag_inv in L1 as [_ L1].
    destruct L1 as (shop & os & Hs & Hw & Hos & Hc & Ha & Hb
                    & H1 & H2 & H3 & H4 & H5 & H6).
    apply setSyncingFlag_inv in L2 as [_ L2].
    destruct L2 as (shop1 & os' & Hs' & Hw' & Hos' & Hc' & Ha' & Hb'
                    & H1' & H2' & H3' & H4' & H5' & H6').
    rewrite Hw, lookup_insert_eq in Hs'. injection Hs' as <-.
    exists os. split; [done|]. split; [|by split].
    rewrite Hos'. f_equal. rewrite Hos in *. simpl in *.
    destruct os' as [f0 f1 f2 f3 f4 f5 f6]. simpl in *. subst.
    rewrite H1, H2, H3, H4, H5, H6. unfold js_or. f_equal.
    all: match goal with
         | |- context [truthy ?x] =>
             destruct (truthy x) eqn:T; rewrite ?T; reflexivity
         end.
  - intros Hs Hf. unfold ShopModel.setSyncingFlag. unfold try_catch at 1.
    unfold bind at 1. by rewrite (findOne_ok _ _ _ Hf), Hs.
Qed.

(** [findOrCreate] returns the stored shop without writing; for a domain
    without an item it stores and returns a free-tier shop, stamped with
    readings of the clock, that has no checkpoint, so that the first sync of
    the shop starts from its creation time.  Either way the shop returned is
    the one stored afterwards, the other shops and the orders are
    untouched, and a failure leaves the table as it was. *)
Theorem findOrCreate_finds_or_stores_a_shop_without_checkpoint :
  forall (env : Env) (shop_domain : string) (w : World),
    let r := ShopModel_findOrCreate shop_domain env w in
    orders (snd r) = orders w
    /\ match fst r with
       | Ok shop' =>
           shops (snd r) !! shop_domain = Some shop'
           /\ (forall other, other ≠ shop_domain ->
                 shops (snd r) !! other = shops w !! other)
           /\ match shops w !! shop_domain with
              | Some shop => shop' = shop /\ shops (snd r) = shops w
              | None =>
                  order_sync shop' = None
                  /\ shop_created_at shop' = Val (clock env (S (n_clock w)))
                  /\ SyncOrders.syncStartDate shop' = shop_created_at shop'
                  /\ ("plan_type", "free") ∈ other_attributes shop'
                  /\ ("images_used", "0") ∈ other_attributes shop'
                  /\ ("images_limit", "15") ∈ other_attributes shop'
              end
       | Throw _ => shops (snd r) = shops w
       end.
Proof.
  intros env d w r. subst r.
  unfold ShopModel_findOrCreate, ShopModel.findOne, try_catch, bind,
    ShopModel.send_GetCommand, now, send_PutCommand_shop, ret, throw. simpl.
  destruct (db_fault env (n_db w)); simpl; [done|].
  destruct (shops w !! d) as [shop|] eqn:Hs; simpl; [by rewrite Hs|].
  destruct (db_fault env (S (n_db w))); simpl; [done|].
  split; [done|]. split; [by rewrite lookup_insert_eq|].
  split; [intros other Hne; by rewrite lookup_insert_ne|].
  repeat (split; [done|]).
  split; [|split]; apply list_elem_of_In; simpl; tauto.
Qed.

(** [ShopModel.create] puts the item without a condition.  When it
    returns, the item it was given is what the table holds for the domain,
    whatever was stored before, the checkpoint included; [findOne] and
    [findOrCreate] then return that item, when their read succeeds, and
    [findOrCreate] writes nothing. *)
Theorem ShopModel_create_replaces_what_was_stored :
  forall (env : Env) (shop_domain : string) (shopData : Shop) (w : World),
    let r := ShopModel_create shop_domain shopData env w in
    orders (snd r) = orders w
    /\ match fst r with
       | Ok item =>
           item = shopData
           /\ shops (snd r) = <[shop_domain := shopData]> (shops w)
           /\ checkpoint (snd r) shop_domain = order_sync shopData
           /\ (db_fault env (n_db (snd r)) = None ->
               fst (ShopModel.findOne shop_domain env (snd r))
               = Ok (Some shopData)
               /\ ShopModel_findOrCreate shop_domain env (snd r)
                  = (Ok shopData, db_tick (snd r)))
       | Throw e => shops (snd r) = shops w /\ db_fault env (n_db w) = Some e
       end.
Proof.
  intros env d data w r. subst r.
  unfold ShopModel_create, try_catch, bind, send_PutCommand_shop.
  destruct (db_fault env (n_db w)) as [e|] eqn:Hf; simpl; [done|].
  split; [done|]. split; [done|]. split; [done|].
  split; [unfold checkpoint; simpl; by rewrite lookup_insert_eq|].
  intros Hf'. rewrite findOne_ok by done. simpl.
  rewrite lookup_insert_eq. split; [done|].
  unfold ShopModel_findOrCreate, try_catch, bind.
  rewrite findOne_ok by done. simpl. by rewrite lookup_insert_eq.
Qed.

(** ** What the fetcher takes for a rate limit *)

Lemma prefix_append_l n a b :
  String.prefix n a = true -> String.prefix n (a +:+ b) = true.
Proof.
  revert a. induction n as [|c n IH]; intros a H.
  - by destruct (a +:+ b).
  - destruct a as [|c' a]; [discriminate H|].
    rewrite append_cons. simpl in *.
    destruct (Ascii.ascii_dec c c'); [by apply IH | done].
Qed.

Lemma includes_append_l n a b :
  includes n a = true -> includes n (a +:+ b) = true.
Proof.
  induction a as [|c a IH]; intros H.
  - simpl in H. rewrite orb_false_r in H.
    destruct n; [|discriminate H]. by destruct b.
  - rewrite append_cons. simpl in *.
    apply orb_true_iff in H as [H|H]; apply orb_true_iff.
    + left. exact (prefix_append_l n (String c a) b H).
    + right. by apply IH.
Qed.

Lemma includes_append_r n a b :
  includes n b = true -> includes n (a +:+ b) = true.
Proof.
  intros H. induction a as [|c a IH]; [done|].
  rewrite append_cons. simpl. rewrite IH. apply orb_true_r.
Qed.

(** What one call of the function that [fetchOrders] hands to
    [fetchWithRetry] comes to: the parsed body of an ok response, the error
    of a failed [fetch], and for a response that is not ok an error that
    the retry policy takes for a rate limit whenever the status is 429, but
    also whenever the status text or the body of the response mentions
    429. *)
Theorem fetchFunction_takes_any_mention_of_429_for_a_rate_limit :
  forall (env : Env) (s : Session) (q : OrdersQuery) (w : World),
    match fetch env (n_http w) s q with
    | Json body => fst (ShopifyAPIService.fetchFunction s q env w) = Ok body
    | Rejected e => fst (ShopifyAPIService.fetchFunction s q env w) = Throw e
    | NotOk status statusText errorText =>
        exists e,
          fst (ShopifyAPIService.fetchFunction s q env w) = Throw e
          /\ (status = 429%nat \/ includes "429" statusText = true
              \/ includes "429" errorText = true ->
              rate_limited e = true)
    end.
Proof.
  intros env s q w. rewrite fetchFunction_outcome.
  destruct (fetch env (n_http w) s q) as [e|status statusText errorText|body];
    simpl; [done| |done].
  eexists. split; [reflexivity|]. unfold rate_limited. simpl.
  intros [->|[H|H]].
  - apply includes_append_r. by apply includes_append_l.
  - do 3 apply includes_append_r. by apply includes_append_l.
  - by do 5 apply includes_append_r.
Qed.

(** ** The revenue of a run *)

(** One turn of the store loop either adds a record, counts it as new and
    adds its price, or leaves the table, the count of new orders and the
    revenue as they were. *)
Lemma store_order_adds_or_keeps env d o c w :
  exists c1 w1,
    SyncOrders.store_order d o c env w = (Ok c1, w1)
    /\ ((orders w1 = orders w
         /\ SyncOrders.newOrdersCount c1 = SyncOrders.newOrdersCount c
         /\ SyncOrders.totalRevenue c1 = SyncOrders.totalRevenue c)
        \/ (exists record,
              orders w !! id o = None
              /\ orders w1 = <[id o := record]> (orders w)
              /\ order_id record = id o
              /\ order_price env o = Some (so_total_price record)
              /\ SyncOrders.newOrdersCount c1
                 = SyncOrders.newOrdersCount c + 1
              /\ SyncOrders.totalRevenue c1
                 = number_add env (SyncOrders.totalRevenue c)
                              (so_total_price record))).
Proof.
  destruct (store_order_cases env d o c w) as (c1 & w1 & S & _ & _ & _ & H).
  exists c1, w1. split; [done|].
  destruct (line_items o); [|left; by destruct H as (_ & -> & ->)].
  destruct (order_price env o) as [q|]; [|left; by destruct H as (_ & -> & ->)].
  destruct H as [_ H]. destruct (db_fault env (n_db w)).
  { left. destruct H as [-> ->]. by destruct (String.eqb _ _). }
  destruct (orders w !! id o) eqn:E.
  { left. by destruct H as [-> ->]. }
  right. destruct H as (record & Hins & Hid & _ & _ & <- & _ & ->).
  by exists record.
Qed.

(** The revenue that the store loop reports is made of the prices of the
    records it added to the orders table, and of nothing else.  There is a
    list [created] of records, with pairwise different ids that follow the
    order of the given orders, such that: a record is in [created] exactly
    when the table did not hold its id before the loop and holds the record
    under its id after it; each of these records carries the id and the
    price, [parseFloat(order.total_price || 0)], of one of the given
    orders; the count of new orders grew by the length of [created]; and
    the revenue is the one before the loop to which the prices of
    [created] were added one by one, as the engine adds numbers.
    Duplicates and orders whose storing failed add nothing. *)
Theorem store_orders_revenue_is_the_sum_over_the_records_added :
  forall (env : Env) (shop_domain : string) (sbbOrders : list Order)
         (c : SyncOrders.Counters) (w : World),
    let r := SyncOrders.store_orders shop_domain sbbOrders c env w in
    exists (c' : SyncOrders.Counters) (created : list StoredOrder),
      fst r = Ok c'
      /\ SyncOrders.newOrdersCount c'
         = SyncOrders.newOrdersCount c + Z.of_nat (length created)
      /\ SyncOrders.totalRevenue c'
         = revenue_after env (SyncOrders.totalRevenue c) created
      /\ NoDup (order_id <$> created)
      /\ (forall record,
            record ∈ created
            <-> orders w !! order_id record = None
                /\ orders (snd r) !! order_id record = Some record)
      /\ sublist (order_id <$> created) (id <$> sbbOrders)
      /\ Forall (fun record =>
                   exists order,
                     order ∈ sbbOrders /\ id order = order_id record
                     /\ order_price env order = Some (so_total_price record))
                created.
Proof.
  intros env d l. induction l as [|o l IH]; intros c w r; subst r.
  - exists c, []. simpl. split; [done|]. split; [lia|]. split; [done|].
    split; [constructor|]. split; [|split; [done | constructor]].
    intros record. split; [by intros H%elem_of_nil|].
    intros [H1 H2]. congruence.
  - simpl. unfold bind.
    destruct (store_order_adds_or_keeps env d o c w) as (c1 & w1 & S1 & H).
    rewrite S1. specialize (IH c1 w1). cbv zeta in IH.
    destruct (SyncOrders.store_orders d l c1 env w1) as [r' w'] eqn:S.
    pose proof (store_orders_only_added d l c1 env w1 _ _ S) as [Hmono _].
    destruct IH as (c' & created & E & Hn & Hr & Hnd & Hiff & Hsub & Hall).
    simpl in E, Hiff. simpl.
    assert (Hall' : Forall (fun record =>
                      exists order,
                        order ∈ o :: l /\ id order = order_id record
                        /\ order_price env order
                           = Some (so_total_price record)) created).
    { eapply Forall_impl; [exact Hall|]. intros record (o' & ? & ? & ?).
      exists o'. split; [by right | done]. }
    destruct H as [(Ho & Hn1 & Hr1)|(record & Hnone & Hins & Hid & Hp & Hn1 & Hr1)].
    + exists c', created. split; [done|]. split; [lia|].
      split; [by rewrite <- Hr1|]. split; [done|].
      split; [intros record; by rewrite <- Ho|].
      split; [by apply sublist_cons | done].
    + assert (Hrec : orders w1 !! id o = Some record)
        by (by rewrite Hins, lookup_insert_eq).
      exists c', (record :: created). split; [done|].
      split; [rewrite length_cons; lia|].
      split; [unfold revenue_after in *; simpl; by rewrite <- Hr1|].
      split.
      { rewrite fmap_cons. apply NoDup_cons. split; [|done].
        intros (record' & Heq & Hin)%list_elem_of_fmap.
        apply Hiff in Hin as [Hnone' _]. congruence. }
      split.
      { intros record'. rewrite elem_of_cons, Hiff. split.
        - intros [->|[H1 H2]].
          + rewrite Hid. split; [done|]. by apply Hmono.
          + split; [|done].
            destruct (orders w !! order_id record') as [x|] eqn:Ex; [|done].
            rewrite Hins in H1.
            destruct (decide (id o = order_id record')) as [Heq|Hne];
              [congruence|].
            rewrite lookup_insert_ne in H1 by done. congruence.
        - intros [H1 H2].
          destruct (decide (id o = order_id record')) as [Heq|Hne].
          + left. rewrite <- Heq in H2. apply Hmono in Hrec. congruence.
          + right. split; [|done]. by rewrite Hins, lookup_insert_ne. }
      split.
      { rewrite !fmap_cons, Hid. by apply sublist_skip. }
      apply Forall_cons. split; [|done].
      exists o. split; [by left | done].
Qed.

(** ** Running the sync again *)

Lemma fetchOrders_of_route_cursor_source env s shop all w :
  serves all env -> cursors_identify all ->
  exists w',
    ShopifyAPIService.fetchOrders s (fetchOptions_of shop) env w
    = (Ok (map (fun edge =>
                  ShopifyAPIService.transformGraphQLOrder (node edge))
               (take (10 * 250) all)), w').
Proof.
  intros Hs Hc. unfold ShopifyAPIService.fetchOrders, fetchOptions_of.
  cbn [ShopifyAPIService.default ShopifyAPIService.opt_limit
       ShopifyAPIService.opt_max_pages ShopifyAPIService.opt_created_at_min].
  destruct (fetchOrders_loop_cursor_source env s all 250 10
              (match SyncOrders.syncStartDate shop with
               | Absent => Null | d => d end)
              Hs Hc 10 1%nat 0%nat None w) as (w' & E);
    [lia | lia | reflexivity | lia |].
  simpl take in E. simpl map in E.
  unfold try_catch, bind. rewrite E. by exists w'.
Qed.

Lemma setSyncingFlag_no_fault env d b w shop :
  (forall n, db_fault env n = None) ->
  shops w !! d = Some shop ->
  exists item w', ShopModel.setSyncingFlag d b env w = (Ok item, w').
Proof.
  intros Hf Hs. unfold ShopModel.setSyncingFlag. unfold try_catch at 1.
  unfold bind at 1. rewrite (findOne_ok _ _ _ (Hf _)), Hs.
  unfold bind, now, ShopModel.send_UpdateCommand. simpl. rewrite Hf.
  by eexists _, _.
Qed.

Lemma updateOrderSync_no_fault env d sd w :
  (forall n, db_fault env n = None) ->
  exists item w', ShopModel.updateOrderSync d sd env w = (Ok item, w').
Proof.
  intros Hf. unfold ShopModel.updateOrderSync, try_catch, bind, now,
    ShopModel.send_UpdateCommand. simpl. rewrite Hf. by eexists _, _.
Qed.

(** One turn of the store loop over a storage without faults: an order with
    its line items and a price that is a number is counted once, as new or
    as duplicate, and is in the table afterwards; an order whose price is
    not a number changes nothing. *)
Lemma store_order_no_fault env d o c w :
  (forall n, db_fault env n = None) ->
  line_items o ≠ None ->
  exists c' w',
    SyncOrders.store_order d o c env w = (Ok c', w')
    /\ (priced env o = true -> is_Some (orders w' !! id o))
    /\ (SyncOrders.newOrdersCount c' - SyncOrders.newOrdersCount c)
       + (SyncOrders.duplicatesSkipped c' - SyncOrders.duplicatesSkipped c)
       = (if priced env o then 1 else 0)
    /\ ((priced env o = true -> is_Some (orders w !! id o)) ->
        orders w' = orders w
        /\ SyncOrders.newOrdersCount c' = SyncOrders.newOrdersCount c
        /\ SyncOrders.totalRevenue c' = SyncOrders.totalRevenue c).
Proof.
  intros Hf Hli.
  destruct (store_order_cases env d o c w) as (c' & w' & S & _ & _ & _ & H).
  exists c', w'. split; [done|]. unfold priced.
  destruct (line_items o); [clear Hli|done].
  destruct (order_price env o) as [q|].
  2:{ destruct H as (_ & -> & ->).
      rewrite bool_decide_eq_false_2 by (by intros [? ?]).
      split; [done|]. split; [lia|]. done. }
  rewrite bool_decide_eq_true_2 by (by eexists).
  destruct H as [_ H]. rewrite Hf in H.
  destruct (orders w !! id o) as [so|] eqn:E.
  - destruct H as [Ho ->]. simpl. rewrite Ho, E.
    split; [by eexists|]. split; [lia|]. done.
  - destruct H as (record & Hins & _ & _ & _ & _ & _ & ->). simpl.
    rewrite Hins, lookup_insert_eq. split; [by eexists|]. split; [lia|].
    intros H. destruct (H eq_refl) as [? ?]. discriminate.
Qed.

Lemma store_orders_no_fault env d l c w :
  (forall n, db_fault env n = None) ->
  Forall (fun o => line_items o ≠ None) l ->
  exists c' w',
    SyncOrders.store_orders d l c env w = (Ok c', w')
    /\ (forall o, o ∈ l -> priced env o = true -> is_Some (orders w' !! id o))
    /\ (SyncOrders.newOrdersCount c' - SyncOrders.newOrdersCount c)
       + (SyncOrders.duplicatesSkipped c' - SyncOrders.duplicatesSkipped c)
       = Z.of_nat (length (List.filter (priced env) l))
    /\ ((forall o, o ∈ l -> priced env o = true ->
           is_Some (orders w !! id o)) ->
        orders w' = orders w
        /\ SyncOrders.newOrdersCount c' = SyncOrders.newOrdersCount c
        /\ SyncOrders.totalRevenue c' = SyncOrders.totalRevenue c).
Proof.
  intros Hf Hall. revert c w.
  induction Hall as [|o l Ho Hall IH]; intros c w.
  - exists c, w. split; [done|]. split; [by intros o Hin%elem_of_nil|].
    simpl. split; [lia|]. done.
  - destruct (store_order_no_fault env d o c w Hf Ho)
      as (c1 & w1 & S1 & Hin1 & Hc1 & Hd1).
    destruct (IH c1 w1) as (c' & w' & S & Hin & Hc & Hd).
    exists c', w'. split; [simpl; unfold bind; by rewrite S1|].
    split; [|split].
    + intros o' [->|Ho']%elem_of_cons Hp; [|by apply Hin].
      destruct (Hin1 Hp) as [so Hso].
      pose proof (store_orders_only_added d l c1 env w1 _ _ S) as [Hmono _].
      eexists. by apply Hmono.
    + simpl. destruct (priced env o); simpl length; lia.
    + intros Hpre.
      destruct (Hd1 (Hpre o ltac:(by left))) as (Ho1 & Hn1 & Hr1).
      destruct Hd as (Ho' & Hn' & Hr').
      { intros o' Ho' Hp. rewrite Ho1. apply Hpre; [by right | done]. }
      split; [congruence|]. split; congruence.
Qed.

Lemma filterSBBOrders_line_items l :
  Forall (fun o => line_items o ≠ None) (ShopifyAPIService.filterSBBOrders l).
Proof.
  apply Forall_forall. intros o Hin%list_elem_of_In%filter_In.
  destruct Hin as [_ H]. unfold ShopifyAPIService.has_sbb_item in H.
  by destruct (line_items o).
Qed.

Lemma selected_orders_line_items env all :
  Forall (fun o => line_items o ≠ None) (selected_orders env all).
Proof.
  apply Forall_forall. intros o Hin%sort_newest_first_elem_of.
  pose proof (filterSBBOrders_line_items
                (map (fun edge =>
                        ShopifyAPIService.transformGraphQLOrder (node edge))
                     (take (10 * 250) all))) as H.
  rewrite Forall_forall in H. by apply H.
Qed.

(** An attempt against a cursor source and a storage without faults. *)
Lemma Attempt_cursor_source env all d s shop w r w' :
  serves all env -> cursors_identify all ->
  (forall n, db_fault env n = None) ->
  Attempt env d s shop w r w' ->
  exists shop',
    shops w' !! d = Some shop'
    /\ truthy (opt_get is_syncing (order_sync shop')) = false
    /\ match selected_orders env all with
       | [] =>
           orders w' = orders w
           /\ exists total t, r = Ok (SyncOrders.NoNewOrders total t)
       | _ :: _ =>
           exists c w1 w2 total t,
             orders w1 = orders w
             /\ SyncOrders.store_orders d (selected_orders env all) no_counts
                  env w1 = (Ok c, w2)
             /\ orders w' = orders w2
             /\ r = Ok (SyncOrders.Synced (SyncOrders.newOrdersCount c)
                          (SyncOrders.duplicatesSkipped c) total
                          (SyncOrders.totalRevenue c) t)
       end.
Proof.
  intros Hs Hc Hf A.
  destruct (fetchOrders_of_route_cursor_source env s shop all w Hs Hc)
    as (wf & F').
  pose proof (fetchOrders_keeps_orders _ _ _ _ _ _ F') as Fo.
  set (fetched := map (fun edge =>
                         ShopifyAPIService.transformGraphQLOrder (node edge))
                      (take (10 * 250) all)) in *.
  assert (Hwrite : forall sd w2 r0 w3,
            is_syncing sd = Val false ->
            ShopModel.updateOrderSync d sd env w2 = (r0, w3) ->
            orders w3 = orders w2
            /\ exists item,
                 r0 = Ok item /\ shops w3 !! d = Some item
                 /\ truthy (opt_get is_syncing (order_sync item)) = false).
  { intros sd w2 r0 w3 Hsd U.
    split; [eapply updateOrderSync_keeps_orders, U|].
    destruct (updateOrderSync_no_fault env d sd w2 Hf) as (item & wu & U').
    rewrite U' in U. injection U as <- <-.
    apply updateOrderSync_inv in U' as (Hw & Hos & _).
    exists item. split; [done|]. split; [by rewrite Hw, lookup_insert_eq|].
    by rewrite Hos; simpl; rewrite Hsd. }
  unfold selected_orders. fold fetched.
  inversion A as [e' w1 F | allOrders w1 t w2 r0 w3 F Ef N U Hr
                  | allOrders w1 latest rest c w2 t w3 r0 w4 F Es S N U Hr];
    subst; rewrite F' in F; [discriminate| |];
    assert (allOrders = fetched /\ wf = w1) as [-> ->]
      by (split; congruence);
    apply now_inv in N as (_ & No & _);
    apply Hwrite in U as (Uo & item & -> & Hi & Gi); try reflexivity;
    exists item; (split; [done|]); (split; [done|]).
  - rewrite Ef. simpl. unfold keeps_orders in *. split; [congruence|].
    by eexists _, _.
  - rewrite Es. eexists c, _, _, _, _.
    split; [exact Fo|]. split; [exact S|].
    unfold keeps_orders in *. split; [congruence|done].
Qed.

(** A request against a cursor source and a storage without faults, for a
    stored shop that is not marked as syncing. *)
Lemma sync_orders_cursor_source env all body d s shop w :
  serves all env -> cursors_identify all ->
  (forall n, db_fault env n = None) ->
  validated body = Some (d, s) ->
  shops w !! d = Some shop ->
  truthy (opt_get is_syncing (order_sync shop)) = false ->
  exists resp w' shop',
    SyncOrders.sync_orders body env w = (Ok resp, w')
    /\ shops w' !! d = Some shop'
    /\ truthy (opt_get is_syncing (order_sync shop')) = false
    /\ match selected_orders env all with
       | [] =>
           orders w' = orders w
           /\ exists total t, resp = SyncOrders.NoNewOrders total t
       | _ :: _ =>
           exists c w1 w2 total t,
             orders w1 = orders w
             /\ SyncOrders.store_orders d (selected_orders env all) no_counts
                  env w1 = (Ok c, w2)
             /\ orders w' = orders w2
             /\ resp = SyncOrders.Synced (SyncOrders.newOrdersCount c)
                         (SyncOrders.duplicatesSkipped c) total
                         (SyncOrders.totalRevenue c) t
       end.
Proof.
  intros Hs Hc Hf V Hshop G0.
  destruct (sync_orders_shape env body w) as (resp & w' & E & R).
  exists resp, w'.
  pose proof (findOne_ok env d w (Hf _)) as F0. rewrite Hshop in F0.
  inversion R as [V' | d' s' e w1 V' F | d' s' w1 V' F
                  | d' s' shop' w1 V' F G
                  | d' s' shop' w1 e w2 V' F G L
                  | d' s' shop' w1 item w2 resp' w3 V' F G L A
                  | d' s' shop' w1 item w2 e w3 item' w4 V' F G L A C
                  | d' s' shop' w1 item w2 e w3 e' w4 V' F G L A C];
    subst; rewrite V in V'; try discriminate V'; injection V' as <- <-;
    rewrite F0 in F; try discriminate F; injection F as <- <-;
    try congruence;
    destruct (setSyncingFlag_no_fault env d true (db_tick w) shop Hf Hshop)
      as (item0 & wl & L'); rewrite L' in L; try discriminate L;
    injection L as <- <-;
    pose proof (setSyncingFlag_keeps_orders _ _ _ _ _ _ L') as Lo;
    destruct (Attempt_cursor_source _ _ _ _ _ _ _ _ Hs Hc Hf A)
      as (shop' & Hs' & G' & Hm).
  - exists shop'. split; [done|]. split; [done|]. split; [done|].
    destruct (selected_orders env all) as [|o l].
    + destruct Hm as (Ho & total & t & [= ->]). split; [|by eexists _, _].
      by rewrite Ho, Lo.
    + destruct Hm as (c & wa & wb & total & t & Ha & S & Hb & [= ->]).
      exists c, wa, wb, total, t. split; [by rewrite Ha, Lo|]. done.
  - exfalso. destruct (selected_orders env all).
    + by destruct Hm as (_ & ? & ? & ?).
    + by destruct Hm as (? & ? & ? & ? & ? & _ & _ & _ & ?).
  - exfalso. destruct (selected_orders env all).
    + by destruct Hm as (_ & ? & ? & ?).
    + by destruct Hm as (? & ? & ? & ? & ? & _ & _ & _ & ?).
Qed.

(** Running the sync again over the same orders stores nothing new.  For a
    stored shop that is not marked as syncing, a source that serves a fixed
    sequence of orders by cursor, whatever date the request asks from, and
    a storage that does not fail: two requests in a row both answer, and
    the second leaves the orders table as the first left it.  When no order
    is selected, both answer "no new orders".  Otherwise both answer with a
    summary: the first counts, as new or as duplicate, each selected order
    whose price is a number (an order whose price is not a number is
    skipped: the document client refuses it), and the second reports no
    new order, that same number of duplicates and no revenue. *)
Theorem sync_orders_again_stores_nothing_new :
  forall (env : Env) (all : list OrderEdge) (body : SyncOrders.Body)
         (shop_domain : string) (session : Session) (shop : Shop) (w : World),
    serves all env ->
    cursors_identify all ->
    (forall n, db_fault env n = None) ->
    validated body = Some (shop_domain, session) ->
    shops w !! shop_domain = Some shop ->
    truthy (opt_get is_syncing (order_sync shop)) = false ->
    let r1 := SyncOrders.sync_orders body env w in
    let r2 := SyncOrders.sync_orders body env (snd r1) in
    orders (snd r2) = orders (snd r1)
    /\ match selected_orders env all with
       | [] =>
           exists total1 t1 total2 t2,
             fst r1 = Ok (SyncOrders.NoNewOrders total1 t1)
             /\ fst r2 = Ok (SyncOrders.NoNewOrders total2 t2)
       | _ :: _ =>
           exists new1 dup1 total1 revenue1 t1 total2 t2,
             fst r1 = Ok (SyncOrders.Synced new1 dup1 total1 revenue1 t1)
             /\ fst r2
                = Ok (SyncOrders.Synced 0 (new1 + dup1) total2 0%Q t2)
             /\ new1 + dup1
                = Z.of_nat (length (List.filter (priced env)
                                      (selected_orders env all)))
       end.
Proof.
  intros env all body d s shop w Hs Hc Hf V Hshop G r1 r2. subst r1 r2.
  destruct (sync_orders_cursor_source env all body d s shop w Hs Hc Hf V
              Hshop G) as (resp1 & w1 & shop1 & E1 & Hs1 & G1 & M1).
  rewrite E1. simpl.
  destruct (sync_orders_cursor_source env all body d s shop1 w1 Hs Hc Hf V
              Hs1 G1) as (resp2 & w2 & shop2 & E2 & Hs2 & G2 & M2).
  rewrite E2. simpl.
  pose proof (selected_orders_line_items env all) as Hli.
  destruct (selected_orders env all) as [|o l] eqn:Esel.
  - destruct M1 as (_ & ? & ? & ->). destruct M2 as (Ho & ? & ? & ->).
    split; [done|]. by eexists _, _, _, _.
  - destruct M1 as (c1 & wa & wb & ? & ? & Ha & S1 & Hb & ->).
    destruct M2 as (c2 & wa' & wb' & ? & ? & Ha' & S2 & Hb' & ->).
    destruct (store_orders_no_fault env d (o :: l) no_counts wa Hf Hli)
      as (c1' & wb1 & S1' & Hin1 & Hcount1 & _).
    rewrite S1 in S1'. injection S1' as <- <-.
    destruct (store_orders_no_fault env d (o :: l) no_counts wa' Hf Hli)
      as (c2' & wb2 & S2' & _ & Hcount2 & Hdup2).
    rewrite S2 in S2'. injection S2' as <- <-.
    destruct Hdup2 as (Ho2 & Hn2 & Hr2).
    { intros o' Ho' Hp. rewrite Ha', Hb. by apply Hin1. }
    simpl SyncOrders.newOrdersCount in Hcount1, Hcount2, Hn2.
    simpl SyncOrders.duplicatesSkipped in Hcount1, Hcount2.
    simpl SyncOrders.totalRevenue in Hr2.
    split; [congruence|].
    eexists _, _, _, _, _, _, _. split; [reflexivity|].
    split; [|lia].
    rewrite Hn2, Hr2. repeat f_equal. lia.
Qed.

Lemma sync_orders_again_witness :
  orders (snd (SyncOrders.sync_orders the_body (serving_env three_edges)
                 (snd (SyncOrders.sync_orders the_body
                         (serving_env three_edges) (world_of the_shop)))))
  = orders (snd (SyncOrders.sync_orders the_body (serving_env three_edges)
                   (world_of the_shop)))
  /\ exists new1 dup1 total1 revenue1 t1 total2 t2,
       fst (SyncOrders.sync_orders the_body (serving_env three_edges)
              (world_of the_shop))
       = Ok (SyncOrders.Synced new1 dup1 total1 revenue1 t1)
       /\ fst (SyncOrders.sync_orders the_body (serving_env three_edges)
                 (snd (SyncOrders.sync_orders the_body
                         (serving_env three_edges) (world_of the_shop))))
          = Ok (SyncOrders.Synced 0 (new1 + dup1) total2 0%Q t2)
       /\ new1 + dup1
          = Z.of_nat (length (List.filter (priced (serving_env three_edges))
                                (selected_orders (serving_env three_edges)
                                   three_edges))).
Proof.
  exact (sync_orders_again_stores_nothing_new (serving_env three_edges)
           three_edges the_body "demo.myshopify.com" the_session the_shop
           (world_of the_shop) (fun _ _ _ => eq_refl)
           three_edges_cursors_identify (fun _ => eq_refl)
           eq_refl eq_refl eq_refl).
Defined.
